(** * Retrieval-and-ranking pipeline: a shallow embedding and its properties

    The development embeds the parts of the repository that chunk, score and
    rank text:

    - [fullstack-rag-pdf-chat-app/aimakerspace/text_utils.py]
      ([CharacterTextSplitter]),
    - [fullstack-rag-pdf-chat-app/aimakerspace/vectordatabase.py]
      ([cosine_similarity], [VectorDatabase]),
    - [insurance-lens-app/backend/app/services/vector_store.py]
      ([VectorStore]).

    Python [float] and numpy [float64] are IEEE 754 binary64 numbers; they are
    modelled by Rocq's primitive floats, which are the same numbers with the
    same rounding.  Python [int] is [Z], [str] is [string] (a text that is
    sliced is a list of characters), exceptions are values of [exn] carried by
    the [result] monad, and the external services (embedding API, Qdrant,
    BM25 scorer, Cohere reranker) are the fields of a record of clients. *)

From Stdlib Require Import Floats ZArith List Bool Ascii String Sorted
  Permutation Lia Reals Lra.
From stdpp Require Import gmap strings list fin_maps pretty.
Import ListNotations.

Local Open Scope Z_scope.

(** ** Exceptions and the error monad *)

(** A Python exception: its class name and its message.  The classes of
    [app/core/exceptions.py] and the built-in ones are told apart by name. *)
Record exn := PyExc { exc_class : string; exc_message : string }.

Inductive result (A : Type) : Type :=
| Ok (a : A)
| Raise (e : exn).
Arguments Ok {A} a.
Arguments Raise {A} e.

#[global] Instance result_ret : MRet result := fun _ a => Ok a.

#[global] Instance result_bind : MBind result := fun _ _ k r =>
  match r with
  | Ok a => k a
  | Raise e => Raise e
  end.

Definition ValueError (msg : string) : exn := PyExc "ValueError" msg.
Definition IndexError (msg : string) : exn := PyExc "IndexError" msg.

(** [[f(x) for x in l]] when [f] may raise: the first exception wins. *)
Fixpoint mapM {A B} (f : A -> result B) (l : list A) : result (list B) :=
  match l with
  | [] => Ok []
  | x :: t => y ← f x; ys ← mapM f t; Ok (y :: ys)
  end.

(** ** Python built-ins *)

(** [a or b] on an optional integer: [None] and [0] are falsy. *)
Definition py_or (a : option Z) (b : Z) : Z :=
  match a with
  | Some n => if n =? 0 then b else n
  | None => b
  end.

(** A slice bound brought into the range of the sequence: a negative bound
    counts from the end, and both ends saturate. *)
Definition clamp_index (len i : Z) : Z :=
  if i <? 0 then Z.max 0 (i + len) else Z.min i len.

(** [l[i:j]] *)
Definition py_slice {A} (l : list A) (i j : Z) : list A :=
  let len := Z.of_nat (length l) in
  let lo := clamp_index len i in
  let hi := clamp_index len j in
  firstn (Z.to_nat (hi - lo)) (skipn (Z.to_nat lo) l).

(** The loop behind [range(start, stop, step)]: emit [i] while it has not
    reached [stop], then advance by [step]. *)
Fixpoint range_loop (fuel : nat) (i stop step : Z) : list Z :=
  match fuel with
  | O => []
  | S fuel' =>
      if (if 0 <? step then i <? stop else stop <? i)
      then i :: range_loop fuel' (i + step) stop step
      else []
  end.

(** [range(start, stop, step)].  Every step moves [i] at least one unit
    towards [stop], so [|stop - start|] iterations are enough. *)
Definition py_range (start stop step : Z) : result (list Z) :=
  if step =? 0 then Raise (ValueError "range() arg 3 must not be zero")
  else Ok (range_loop (Z.abs_nat (stop - start)) start stop step).

(** [max(iterable)] on floats: the first item is kept until a later item
    compares greater. *)
Definition py_max (l : list float) : result float :=
  match l with
  | [] => Raise (ValueError "max() arg is an empty sequence")
  | x :: t => Ok (fold_left (fun m y => if (m <? y)%float then y else m) t x)
  end.

(** [sorted(l, key=key, reverse=True)]: descending by key, items with equal
    keys keep their order.  As in Python only [<] is used on keys.  Python
    fixes the outcome only for keys that [<] orders, so the properties of a
    sorted list are stated for keys that are not NaN. *)
Fixpoint insert_desc {A} (key : A -> float) (x : A) (l : list A) : list A :=
  match l with
  | [] => [x]
  | y :: l' =>
      if (key x <? key y)%float then y :: insert_desc key x l' else x :: y :: l'
  end.

Definition sorted_reverse {A} (key : A -> float) (l : list A) : list A :=
  fold_right (insert_desc key) [] l.

(** A [dict] whose iteration order is observed: insertion-ordered pairs with
    distinct keys.  [d[k] = v] overwrites in place or appends. *)
Fixpoint dict_set {V} (k : string) (v : V) (d : list (string * V)) :
    list (string * V) :=
  match d with
  | [] => [(k, v)]
  | (k', v') :: d' =>
      if String.eqb k' k then (k, v) :: d' else (k', v') :: dict_set k v d'
  end.

Definition dict_values {V} (d : list (string * V)) : list V := map snd d.

(** [x] may stand before [y] in a list that is descending by [key]. *)
Definition desc {A} (key : A -> float) (x y : A) : Prop :=
  (key y <=? key x)%float = true.

(** ** Binary64 classes *)

Module Float64.

Definition nonnan (x : float) : Prop := is_nan x = false.

(** A number of the format that is neither NaN nor an infinity. *)
Definition SFfinite (s : spec_float) : Prop :=
  match s with
  | S754_zero _ | S754_finite _ _ _ => True
  | _ => False
  end.

End Float64.

(** ** [CharacterTextSplitter] (text_utils.py) *)

Record CharacterTextSplitter := {
  chunk_size : Z;
  chunk_overlap : Z
}.

(** [CharacterTextSplitter.__init__] *)
Definition CharacterTextSplitter_init (chunk_size chunk_overlap : Z) :
    result CharacterTextSplitter :=
  if chunk_size <=? chunk_overlap
  then Raise (ValueError "Chunk size must be greater than chunk overlap")
  else Ok {| chunk_size := chunk_size; chunk_overlap := chunk_overlap |}.

(** [CharacterTextSplitter.split] *)
Definition split (self : CharacterTextSplitter) (text : list ascii) :
    result (list (list ascii)) :=
  let step := chunk_size self - chunk_overlap self in
  starts ← py_range 0 (Z.of_nat (length text)) step;
  Ok (map (fun i => py_slice text i (i + chunk_size self)) starts).

(** The reassembly of the chunk-coverage property: the first chunk, then of
    every later chunk what follows its first [chunk_overlap] characters. *)
Definition reassemble (self : CharacterTextSplitter)
    (chunks : list (list ascii)) : list ascii :=
  match chunks with
  | [] => []
  | c :: cs =>
      c ++ concat (map (fun c' => py_slice c' (chunk_overlap self)
                                    (Z.of_nat (length c'))) cs)
  end.

(** The number of chunks: the least [n] with [n * step >= len]. *)
Definition chunk_count (len step : Z) : nat := Z.to_nat ((len + step - 1) / step).

(** ** [cosine_similarity] and [VectorDatabase] (vectordatabase.py) *)

(** The arithmetic the similarity is written in.  [binary64] is what numpy
    computes with; [exact] evaluates the same formula over the reals. *)
Class Arith (F : Type) := {
  azero : F;
  aadd : F -> F -> F;
  amul : F -> F -> F;
  adiv : F -> F -> F;
  asqrt : F -> F;
  aeqb : F -> F -> bool
}.

#[global] Instance binary64 : Arith float := {|
  azero := 0%float;
  aadd := PrimFloat.add;
  amul := PrimFloat.mul;
  adiv := PrimFloat.div;
  asqrt := PrimFloat.sqrt;
  aeqb := PrimFloat.eqb
|}.

#[global] Instance exact : Arith R := {|
  azero := 0%R;
  aadd := Rplus;
  amul := Rmult;
  adiv := Rdiv;
  asqrt := R_sqrt.sqrt;
  aeqb := fun x y => if Req_dec_T x y then true else false
|}.

Section Cosine.
Context {F : Type} `{Arith F}.

(** The sum of the products of paired components, accumulated from the
    left. *)
Definition dot_sum (a b : list F) : F :=
  fold_left (fun acc p => aadd acc (amul (fst p) (snd p))) (combine a b) azero.

(** [np.dot] on two one-dimensional arrays: the shapes must agree. *)
Definition np_dot (a b : list F) : result F :=
  if (length a =? length b)%nat then Ok (dot_sum a b)
  else Raise (ValueError "shapes not aligned").

(** [np.linalg.norm] on a one-dimensional array: [sqrt(x.dot(x))]. *)
Definition np_linalg_norm (x : list F) : F := asqrt (dot_sum x x).

Definition cosine_similarity (vector_a vector_b : list F) : result F :=
  let norm_a := np_linalg_norm vector_a in
  let norm_b := np_linalg_norm vector_b in
  if aeqb norm_a azero || aeqb norm_b azero then Ok azero
  else
    dot_product ← np_dot vector_a vector_b;
    Ok (adiv dot_product (amul norm_a norm_b)).

End Cosine.

Module VectorDatabase.

(** [self.vectors]: text chunk to embedding, in insertion order. *)
Record t := { vectors : list (string * list float) }.

Definition init : t := {| vectors := [] |}.

Definition insert (self : t) (key : string) (vector : list float) : t :=
  {| vectors := dict_set key vector (vectors self) |}.

(** [distance_measure] is any callable; like [cosine_similarity] it may
    raise. *)
Definition search (self : t) (query_vector : list float) (k : Z)
    (distance_measure : list float -> list float -> result float) :
    result (list (string * float)) :=
  if k <=? 0 then Raise (ValueError "k must be a positive integer")
  else
    scores ← mapM (fun item : string * list float =>
                     s ← distance_measure query_vector (snd item);
                     Ok (fst item, s))
                  (vectors self);
    Ok (py_slice (sorted_reverse snd scores) 0 k).

End VectorDatabase.

(** ** [VectorStore] (vector_store.py) *)

Module TextChunk.
Record t := {
  id : string;
  text : string;
  page : Z;
  chunk_index : Z;
  token_count : Z;
  start_char : option Z;
  end_char : option Z
}.
End TextChunk.

Module SearchResult.
Record t := {
  chunk : TextChunk.t;
  score : float;
  distance : option float
}.
End SearchResult.

(** [app/core/config.py] is not among the sources: [VectorStoreConfig] is
    taken as a parameter, a record of the four fields that [vector_store.py]
    reads. *)
Record VectorStoreConfig := {
  collection_prefix : string;
  embedding_model : string;
  max_results : Z;
  similarity_threshold : float
}.

(** A stored Qdrant point: the payload is the chunk's fields plus the policy
    id. *)
Record PointStruct := {
  point_id : string;
  vector : list float;
  payload : TextChunk.t;
  payload_policy_id : string
}.

(** A hit of [qdrant_client.search]. *)
Record ScoredPoint := {
  hit_payload : TextChunk.t;
  hit_score : float
}.

(** A LangChain document; the reranker writes [relevance_score] into the
    metadata. *)
Record Document := {
  page_content : string;
  relevance_score : option float
}.

(** The third-party code a [VectorStore] calls: the OpenAI embedding
    endpoint, Qdrant's ranking of a collection's points, the tokenisation
    [s.lower().split()] with the [rank_bm25] scorer it feeds, and Cohere's
    [compress_documents]. *)
Record Clients := {
  embeddings_create : string -> string -> result (list float);
  qdrant_search :
    list PointStruct -> list float -> Z -> float -> result (list ScoredPoint);
  lower_split : string -> list string;
  BM25Okapi_get_scores : list (list string) -> list string -> list float;
  compress_documents : list Document -> string -> result (list Document)
}.

Record VectorStore := {
  config : VectorStoreConfig;
  clients : Clients
}.

(** The Qdrant server's state: the points of every collection, by name. *)
Abbreviation Qdrant := (gmap string (list PointStruct)).

Definition collection_exists (q : Qdrant) (collection_name : string) : bool :=
  bool_decide (is_Some (q !! collection_name)).

Definition delete_collection (q : Qdrant) (collection_name : string) : Qdrant :=
  delete collection_name q.

Definition collection_points (q : Qdrant) (collection_name : string) :
    list PointStruct :=
  default [] (q !! collection_name).

Definition VECTOR_SCROLL_BATCH_SIZE : nat := 100.

(** [qdrant_client.scroll]: one page of points from [offset] on, and where
    the next page starts, if there is one. *)
Definition qdrant_scroll (points : list PointStruct) (limit : nat)
    (offset : option nat) : list PointStruct * option nat :=
  let start := default 0%nat offset in
  (firstn limit (skipn start points),
   if (start + limit <? length points)%nat then Some (start + limit)%nat
   else None).

Definition chunk_of_payload (p : TextChunk.t) : TextChunk.t := {|
  TextChunk.id := TextChunk.id p;
  TextChunk.text := TextChunk.text p;
  TextChunk.page := TextChunk.page p;
  TextChunk.chunk_index := TextChunk.chunk_index p;
  TextChunk.token_count := TextChunk.token_count p;
  TextChunk.start_char := TextChunk.start_char p;
  TextChunk.end_char := TextChunk.end_char p
|}.

Definition collection_name_of (self : VectorStore) (policy_id : string) :
    string :=
  collection_prefix (config self) +:+ policy_id.

Definition embed_text (self : VectorStore) (text : string) :
    result (list float) :=
  embeddings_create (clients self) (embedding_model (config self)) text.

Definition search_similar_chunks (self : VectorStore) (q : Qdrant)
    (policy_id query : string) (limit : option Z) :
    result (list SearchResult.t) :=
  let collection_name := collection_name_of self policy_id in
  if negb (collection_exists q collection_name) then Ok []
  else
    query_embedding ← embed_text self query;
    results ← qdrant_search (clients self)
                (collection_points q collection_name) query_embedding
                (py_or limit (max_results (config self)))
                (similarity_threshold (config self));
    Ok (map (fun hit => {|
               SearchResult.chunk := chunk_of_payload (hit_payload hit);
               SearchResult.score := hit_score hit;
               SearchResult.distance := None |})
            results).

(** The [while True] loop of [_get_all_chunks]; every page but the last
    holds a full batch, so one round per point and one more are enough. *)
Fixpoint scroll_loop (fuel : nat) (points : list PointStruct)
    (offset : option nat) (chunks : list TextChunk.t) : list TextChunk.t :=
  match fuel with
  | O => chunks
  | S fuel' =>
      let '(page, next_offset) :=
        qdrant_scroll points VECTOR_SCROLL_BATCH_SIZE offset in
      match page with
      | [] => chunks
      | _ :: _ =>
          let chunks := chunks ++ map (fun p => chunk_of_payload (payload p)) page in
          match next_offset with
          | None => chunks
          | Some o => scroll_loop fuel' points (Some o) chunks
          end
      end
  end.

Definition _get_all_chunks (self : VectorStore) (q : Qdrant)
    (policy_id : string) : list TextChunk.t :=
  let collection_name := collection_name_of self policy_id in
  if negb (collection_exists q collection_name) then []
  else
    let points := collection_points q collection_name in
    scroll_loop (S (length points)) points None [].

(** The normalisation of the BM25 scores in [search_hybrid]. *)
Definition bm25_normalize (bm25_scores : list float) : result (list float) :=
  m ← py_max bm25_scores;
  if (0 <? m)%float then Ok (map (fun score => (score / m)%float) bm25_scores)
  else Ok bm25_scores.

(** [{chunk.id: bm25_scores_norm[i] for i, chunk in enumerate(all_chunks)}] *)
Fixpoint bm25_dict_from (i : nat) (all_chunks : list TextChunk.t)
    (bm25_scores_norm : list float) (d : gmap string float) :
    result (gmap string float) :=
  match all_chunks with
  | [] => Ok d
  | chunk :: rest =>
      match bm25_scores_norm !! i with
      | None => Raise (IndexError "index out of bounds")
      | Some s =>
          bm25_dict_from (S i) rest bm25_scores_norm
            (<[TextChunk.id chunk := s]> d)
      end
  end.

(** [{result.chunk.id: result.score for result in semantic_results}] *)
Definition semantic_dict (semantic_results : list SearchResult.t) :
    gmap string float :=
  fold_left (fun d r =>
               <[TextChunk.id (SearchResult.chunk r) := SearchResult.score r]> d)
            semantic_results ∅.

Definition combined_score (bm25_weight bm25_score semantic_score : float) :
    float :=
  (bm25_weight * bm25_score + (1 - bm25_weight) * semantic_score)%float.

Definition search_hybrid (self : VectorStore) (q : Qdrant)
    (policy_id query : string) (limit : option Z) (bm25_weight : float) :
    result (list SearchResult.t) :=
  let max_results := py_or limit (max_results (config self)) in
  let all_chunks := _get_all_chunks self q policy_id in
  match all_chunks with
  | [] => Ok []
  | _ :: _ =>
      semantic_results ←
        search_similar_chunks self q policy_id query (Some (max_results * 2));
      let tokenized_corpus :=
        map (fun chunk => lower_split (clients self) (TextChunk.text chunk))
            all_chunks in
      let tokenized_query := lower_split (clients self) query in
      let bm25_scores :=
        BM25Okapi_get_scores (clients self) tokenized_corpus tokenized_query in
      bm25_scores_norm ← bm25_normalize bm25_scores;
      bm25_score_dict ← bm25_dict_from 0 all_chunks bm25_scores_norm ∅;
      let semantic_score_dict := semantic_dict semantic_results in
      let combined_results :=
        fold_left
          (fun d chunk =>
             let bm25_score :=
               default 0%float (bm25_score_dict !! TextChunk.id chunk) in
             let semantic_score :=
               default 0%float (semantic_score_dict !! TextChunk.id chunk) in
             dict_set (TextChunk.id chunk)
               {| SearchResult.chunk := chunk;
                  SearchResult.score :=
                    combined_score bm25_weight bm25_score semantic_score;
                  SearchResult.distance := None |} d)
          all_chunks [] in
      let sorted_results :=
        sorted_reverse SearchResult.score (dict_values combined_results) in
      Ok (py_slice
            (List.filter
               (fun r => (similarity_threshold (config self)
                          <=? SearchResult.score r)%float)
               sorted_results)
            0 max_results)
  end.

Definition search_with_rerank (self : VectorStore) (q : Qdrant)
    (policy_id query : string) (limit : option Z) (rerank_top_k : Z) :
    result (list SearchResult.t) :=
  let max_results := py_or limit (max_results (config self)) in
  semantic_candidates ←
    search_similar_chunks self q policy_id query (Some rerank_top_k);
  match semantic_candidates with
  | [] => Ok []
  | _ :: _ =>
      let documents :=
        map (fun r => {| page_content := TextChunk.text (SearchResult.chunk r);
                         relevance_score := None |})
            semantic_candidates in
      reranked ← compress_documents (clients self) documents query;
      Ok (flat_map
            (fun doc =>
               match find (fun candidate =>
                             String.eqb
                               (TextChunk.text (SearchResult.chunk candidate))
                               (page_content doc))
                          semantic_candidates with
               | Some candidate =>
                   [{| SearchResult.chunk := SearchResult.chunk candidate;
                       SearchResult.score :=
                         default 0%float (relevance_score doc);
                       SearchResult.distance := None |}]
               | None => []
               end)
            (py_slice reranked 0 max_results))
  end.

Definition delete_policy (self : VectorStore) (q : Qdrant)
    (policy_id : string) : bool * Qdrant :=
  let collection_name := collection_name_of self policy_id in
  if collection_exists q collection_name
  then (true, delete_collection q collection_name)
  else (false, q).

(** ** A small policy used in the examples *)

Definition demo_config : VectorStoreConfig := {|
  collection_prefix := "policy_";
  embedding_model := "text-embedding-3-small";
  max_results := 5;
  similarity_threshold := 0.25%float
|}.

Definition demo_chunk (i : Z) (id text : string) : TextChunk.t := {|
  TextChunk.id := id;
  TextChunk.text := text;
  TextChunk.page := 1;
  TextChunk.chunk_index := i;
  TextChunk.token_count := 3;
  TextChunk.start_char := None;
  TextChunk.end_char := None
|}.

Definition demo_chunks : list TextChunk.t :=
  [demo_chunk 0 "p.pdf_size_0" "waiting period dental";
   demo_chunk 1 "p.pdf_size_1" "premium due monthly";
   demo_chunk 2 "p.pdf_size_2" "cancellation notice term"].

Definition demo_point (c : TextChunk.t) : PointStruct := {|
  point_id := TextChunk.id c;
  vector := [1; 0]%float;
  payload := c;
  payload_policy_id := "p"
|}.

Definition demo_qdrant : Qdrant :=
  {[ "policy_p" := map demo_point demo_chunks ]}.

(** Clients with canned answers: the vector search answers [hits], the BM25
    scorer answers [bm25], the reranker answers [reranked]. *)
Definition demo_clients (hits : list ScoredPoint) (bm25 : list float)
    (reranked : result (list Document)) : Clients := {|
  embeddings_create := fun _ _ => Ok [1; 0]%float;
  qdrant_search := fun _ _ _ _ => Ok hits;
  lower_split := fun s => [s];
  BM25Okapi_get_scores := fun _ _ => bm25;
  compress_documents := fun _ _ => reranked
|}.

Definition demo_store (hits : list ScoredPoint) (bm25 : list float)
    (reranked : result (list Document)) : VectorStore := {|
  config := demo_config;
  clients := demo_clients hits bm25 reranked
|}.

(** Canned answers of the vector search: one hit, and two hits. *)
Definition demo_hits : list ScoredPoint :=
  [{| hit_payload := demo_chunk 0 "p.pdf_size_0" "waiting period dental";
      hit_score := 0.75%float |}].

Definition demo_hits2 : list ScoredPoint :=
  [{| hit_payload := demo_chunk 1 "p.pdf_size_1" "premium due monthly";
      hit_score := 0.75%float |};
   {| hit_payload := demo_chunk 0 "p.pdf_size_0" "waiting period dental";
      hit_score := 0.5%float |}].

(** An in-memory database of three two-dimensional vectors. *)
Definition demo_db : VectorDatabase.t :=
  VectorDatabase.insert
    (VectorDatabase.insert
       (VectorDatabase.insert VectorDatabase.init "kitten" [0; 1]%float)
       "banana" [3; 4]%float)
    "broccoli" [1; 0]%float.

(** * The rest of the pipeline *)

(** ** [VectorDatabase]: lookup, text search and bulk loading *)

(** [d.get(k)] on an insertion-ordered dictionary. *)
Fixpoint dict_get {V} (k : string) (d : list (string * V)) : option V :=
  match d with
  | [] => None
  | (k', v) :: d' => if String.eqb k' k then Some v else dict_get k d'
  end.

(** The two calls of [EmbeddingModel] (openai_utils/embedding.py) that the
    database makes; both go to the OpenAI API and may raise. *)
Record EmbeddingModel := {
  get_embedding : string -> result (list float);
  async_get_embeddings : list string -> result (list (list float))
}.

Definition retrieve_from_key (self : VectorDatabase.t) (key : string) :
    option (list float) :=
  dict_get key (VectorDatabase.vectors self).

(** [search_by_text]; the result is a list of pairs, or of texts when
    [return_as_text] is set. *)
Definition search_by_text (self : VectorDatabase.t)
    (embedding_model : EmbeddingModel) (query_text : string) (k : Z)
    (distance_measure : list float -> list float -> result float)
    (return_as_text : bool) :
    result (list (string * float) + list string) :=
  query_vector ← get_embedding embedding_model query_text;
  results ← VectorDatabase.search self query_vector k distance_measure;
  if return_as_text then Ok (inr (map fst results)) else Ok (inl results).

(** [abuild_from_list]: the database after the call, when the embedding
    request succeeds. *)
Definition abuild_from_list (self : VectorDatabase.t)
    (embedding_model : EmbeddingModel) (list_of_text : list string) :
    result VectorDatabase.t :=
  embeddings ← async_get_embeddings embedding_model list_of_text;
  Ok (fold_left
        (fun db te => VectorDatabase.insert db (fst te) (snd te))
        (combine list_of_text embeddings) self).

(** An embedding model that answers every text with the same vector. *)
Definition demo_embedding_model : EmbeddingModel := {|
  get_embedding := fun _ => Ok [1; 0]%float;
  async_get_embeddings := fun texts => Ok (map (fun _ => [1; 0]%float) texts)
|}.

(** ** [CharacterTextSplitter.split_texts] (text_utils.py) *)

(** [split_texts]: the chunks of every text, in order; the first error
    ends the loop. *)
Definition split_texts (self : CharacterTextSplitter)
    (texts : list (list ascii)) : result (list (list ascii)) :=
  fold_left
    (fun acc text => chunks ← acc; more ← split self text; Ok (chunks ++ more))
    texts (Ok []).

(** ** [chunk_text] and [_find_page_number] (text_chunker.py) *)

(** A page as [extract_text] hands it on: [{"page": ..., "text": ...}]. *)
Record PageData := {
  page_number : Z;
  page_text : string
}.

Definition newline : string := String "010"%char EmptyString.

(** The loop of [_find_page_number]: [current_char_count] is where the page
    at the head starts in the combined text. *)
Fixpoint find_page_loop (text_data : list PageData)
    (char_offset current_char_count : Z) : option Z :=
  match text_data with
  | [] => None
  | page_data :: rest =>
      let page_len := Z.of_nat (String.length (page_text page_data)) in
      if (current_char_count <=? char_offset) &&
         (char_offset <? current_char_count + page_len)
      then Some (page_number page_data)
      else find_page_loop rest char_offset (current_char_count + page_len + 2)
  end.

Definition _find_page_number (text_data : list PageData) (char_offset : Z) :
    Z :=
  match find_page_loop text_data char_offset 0 with
  | Some page => page
  | None =>
      match text_data with
      | page_data :: _ => page_number page_data
      | [] => 1
      end
  end.

(** [s.find(sub)]: the lowest index where [sub] occurs, or [-1]. *)
Definition py_find (s sub : string) : Z :=
  match String.index 0 sub s with
  | Some n => Z.of_nat n
  | None => -1
  end.

Record ChunkingStrategy := {
  strategy_chunk_size : Z;
  strategy_chunk_overlap : Z;
  strategy_separators : list string;
  strategy_description : string
}.

Definition CHUNKING_STRATEGIES : list (string * ChunkingStrategy) :=
  [("semantic",
    {| strategy_chunk_size := 512;
       strategy_chunk_overlap := 50;
       strategy_separators :=
         [newline +:+ newline; newline; ". "; " "; ""];
       strategy_description := "Fixed-size chunks with standard separators" |});
   ("paragraph",
    {| strategy_chunk_size := 1000;
       strategy_chunk_overlap := 100;
       strategy_separators :=
         [newline +:+ newline +:+ newline; newline +:+ newline;
          "." +:+ newline; newline; ". "; " "];
       strategy_description :=
         "Larger chunks respecting paragraph boundaries" |})].

(** The third-party code behind [chunk_text]: the token count of
    [tiktoken] and LangChain's [RecursiveCharacterTextSplitter], which gets
    the strategy's settings and the combined text. *)
Record ChunkingTools := {
  token_length : string -> Z;
  create_documents : ChunkingStrategy -> string -> list string
}.

(** The loop over [enumerate(langchain_chunks)], from index [i] on. *)
Fixpoint text_chunks_from (tools : ChunkingTools) (text_data : list PageData)
    (all_text filename strategy : string) (i : nat)
    (langchain_chunks : list string) : list TextChunk.t :=
  match langchain_chunks with
  | [] => []
  | page_content :: rest =>
      let chunk_start := py_find all_text page_content in
      let page_num := _find_page_number text_data chunk_start in
      {| TextChunk.id := filename +:+ "_" +:+ strategy +:+ "_" +:+ pretty i;
         TextChunk.text := page_content;
         TextChunk.page := page_num;
         TextChunk.chunk_index := Z.of_nat i;
         TextChunk.token_count := token_length tools page_content;
         TextChunk.start_char := None;
         TextChunk.end_char := None |}
      :: text_chunks_from tools text_data all_text filename strategy (S i) rest
  end.

Definition chunk_text (tools : ChunkingTools) (text_data : list PageData)
    (filename strategy : string) : result (list TextChunk.t) :=
  match dict_get strategy CHUNKING_STRATEGIES with
  | None =>
      let available := String.concat ", " (map fst CHUNKING_STRATEGIES) in
      Raise (ValueError ("Unknown strategy '" +:+ strategy +:+
                         "'. Available: " +:+ available))
  | Some config =>
      let all_text :=
        String.concat (newline +:+ newline) (map page_text text_data) in
      let langchain_chunks := create_documents tools config all_text in
      Ok (text_chunks_from tools text_data all_text filename strategy 0
            langchain_chunks)
  end.

(** Where the text of page [j] starts in the combined text: the earlier
    texts, each followed by the two characters of the separator. *)
Definition page_start (text_data : list PageData) (j : nat) : nat :=
  list_sum (map (fun p => (String.length (page_text p) + 2)%nat)
                (firstn j text_data)).

Definition demo_pages : list PageData :=
  [{| page_number := 1; page_text := "cover" |};
   {| page_number := 3; page_text := "waiting periods" |};
   {| page_number := 4; page_text := "premiums" |}].

(** Chunking tools with a canned splitter: whatever the text, the chunks
    are [pieces]; a token is a character. *)
Definition demo_tools (pieces : list string) : ChunkingTools := {|
  token_length := fun s => Z.of_nat (String.length s);
  create_documents := fun _ _ => pieces
|}.

(** ** [VectorStore]: creating a collection and storing chunks *)

(** [OPENAI_EMBEDDING_DIMENSIONS] (core/constants.py) *)
Definition OPENAI_EMBEDDING_DIMENSIONS : list (string * Z) :=
  [("text-embedding-3-small", 1536);
   ("text-embedding-3-large", 3072);
   ("text-embedding-ada-002", 1536)].

(** [str(e)] of a [KeyError] is the [repr] of the key: the key between
    single quotes, for a key without quotes and escapes. *)
Definition KeyError (key : string) : exn :=
  PyExc "KeyError" ("'" +:+ key +:+ "'").

(** [qdrant_client.create_collection] on a name that is free: a collection
    without points.  The vector size it is given configures the server and
    is not part of this state. *)
Definition create_collection (q : Qdrant) (collection_name : string)
    (size : Z) : Qdrant :=
  <[collection_name := []]> q.

(** A method of the store that changes the server and may raise leaves the
    server as it was when the exception came: the state is returned beside
    the result. *)
Definition create_policy_collection (self : VectorStore) (q : Qdrant)
    (policy_id : string) : Qdrant * result string :=
  let collection_name := collection_name_of self policy_id in
  let q :=
    if collection_exists q collection_name
    then delete_collection q collection_name else q in
  match dict_get (embedding_model (config self)) OPENAI_EMBEDDING_DIMENSIONS
  with
  | None => (q, Raise (KeyError (embedding_model (config self))))
  | Some dimension =>
      (create_collection q collection_name dimension, Ok collection_name)
  end.

(** One point of [qdrant_client.upsert]: a point with the same id is
    overwritten, a new one is added. *)
Definition upsert_point (points : list PointStruct) (p : PointStruct) :
    list PointStruct :=
  if existsb (fun p' => String.eqb (point_id p') (point_id p)) points
  then map (fun p' => if String.eqb (point_id p') (point_id p) then p else p')
           points
  else points ++ [p].

Definition qdrant_upsert (q : Qdrant) (collection_name : string)
    (points : list PointStruct) : result Qdrant :=
  match q !! collection_name with
  | None =>
      Raise (PyExc "UnexpectedResponse"
                   ("Not found: Collection " +:+ collection_name))
  | Some stored =>
      Ok (<[collection_name := fold_left upsert_point points stored]> q)
  end.

(** The dictionary [store_chunks] returns. *)
Record StorageResult := {
  result_collection_name : string;
  points_stored : Z;
  result_policy_id : string
}.

(** The loop of [store_chunks]: one embedding call and one fresh id per
    chunk; [uuid4 i] is the id drawn for the chunk at position [i]. *)
Fixpoint build_points (self : VectorStore) (policy_id : string)
    (uuid4 : nat -> string) (i : nat) (chunks : list TextChunk.t) :
    result (list PointStruct) :=
  match chunks with
  | [] => Ok []
  | chunk :: rest =>
      embedding ← embed_text self (TextChunk.text chunk);
      let point := {| point_id := uuid4 i;
                      vector := embedding;
                      payload := chunk;
                      payload_policy_id := policy_id |} in
      points ← build_points self policy_id uuid4 (S i) rest;
      Ok (point :: points)
  end.

Definition store_chunks (self : VectorStore) (q : Qdrant)
    (policy_id : string) (chunks : list TextChunk.t) (uuid4 : nat -> string) :
    Qdrant * result StorageResult :=
  match create_policy_collection self q policy_id with
  | (q, Raise e) => (q, Raise e)
  | (q, Ok collection_name) =>
      match build_points self policy_id uuid4 0 chunks with
      | Raise e => (q, Raise e)
      | Ok points =>
          match qdrant_upsert q collection_name points with
          | Raise e => (q, Raise e)
          | Ok q' =>
              (q', Ok {| result_collection_name := collection_name;
                         points_stored := Z.of_nat (length points);
                         result_policy_id := policy_id |})
          end
      end
  end.


(** ** Citations and answers (models/internal.py, answer_generator.py) *)

(** The dictionary of [SearchResult.to_citation_dict]. *)
Module CitationDict.
Record t := {
  chunk_id : string;
  page_number : Z;
  text_snippet : string;
  relevance_score : float
}.
End CitationDict.

(** [text[:200] + "..." if len(text) > 200 else text]: the conditional
    expression binds weaker than [+]. *)
Definition to_citation_dict (self : SearchResult.t) : CitationDict.t :=
  let text := TextChunk.text (SearchResult.chunk self) in
  {| CitationDict.chunk_id := TextChunk.id (SearchResult.chunk self);
     CitationDict.page_number := TextChunk.page (SearchResult.chunk self);
     CitationDict.text_snippet :=
       if (200 <? String.length text)%nat
       then String.substring 0 200 text +:+ "..."
       else text;
     CitationDict.relevance_score := SearchResult.score self |}.

(** The exceptions of core/exceptions.py that answering raises; the message
    is what [InsuranceLensError.__init__] hands to [Exception]. *)
Definition NoRelevantChunksError (query : string) : exn :=
  PyExc "NoRelevantChunksError"
        ("No relevant chunks found for query: " +:+ query).

Definition AnswerGenerationFailedError (message : string) : exn :=
  PyExc "AnswerGenerationFailedError"
        ("Answer generation failed: " +:+ message).

Record AnswerContext := {
  question : string;
  search_results : list SearchResult.t;
  context_policy_id : string;
  use_expansion : bool
}.

Inductive ResultStatus := SUCCESS | ERROR | NO_RESULTS.

(** The metadata [generate_answer] attaches to its result. *)
Record AnswerMetadata := {
  metadata_policy_id : string;
  metadata_use_expansion : bool;
  result_count : Z
}.

Record AnswerResult := {
  status : ResultStatus;
  answer : option string;
  citations : list CitationDict.t;
  highlighted_clauses : list string;
  confidence : float;
  error_code : option string;
  error_message : option string;
  metadata : AnswerMetadata
}.

(** What the generator does not compute itself: the model behind the chain
    (prompt template, LLM and output parser, given the question and the
    formatted context), the formatting [f"{score:.2f}"], [str.lower], and
    the validation of a [Citation] by its pydantic schema.  Each of the
    calls that can fail returns a [result]; an exception here is an instance
    of [Exception], as everywhere in this development. *)
Record AnswerGenerator := {
  llm_invoke : string -> string -> result string;
  format_score : float -> string;
  str_lower : string -> string;
  Citation_init : CitationDict.t -> result CitationDict.t
}.

(** [sub in s] *)
Definition py_in (sub s : string) : bool :=
  match String.index 0 sub s with
  | Some _ => true
  | None => false
  end.

(** The loop of [_format_context] over [enumerate(search_results, 1)], from
    number [i] on. *)
Fixpoint context_parts_from (self : AnswerGenerator) (i : Z)
    (search_results : list SearchResult.t) : list string :=
  match search_results with
  | [] => []
  | result :: rest =>
      let page := TextChunk.page (SearchResult.chunk result) in
      let text := TextChunk.text (SearchResult.chunk result) in
      let score := SearchResult.score result in
      ("[Source " +:+ pretty i +:+ " - Page " +:+ pretty page +:+
       " - Relevance: " +:+ format_score self score +:+ "]" +:+ newline +:+
       text +:+ newline)
      :: context_parts_from self (i + 1) rest
  end.

Definition _format_context (self : AnswerGenerator)
    (search_results : list SearchResult.t) : result string :=
  match search_results with
  | [] =>
      Raise (NoRelevantChunksError
               "No search results provided for context formatting")
  | _ :: _ =>
      Ok (String.concat newline (context_parts_from self 1 search_results))
  end.

(** [self.chain.ainvoke]: the context is formatted, then the model is
    asked. *)
Definition chain_ainvoke (self : AnswerGenerator) (question : string)
    (search_results : list SearchResult.t) : result string :=
  context ← _format_context self search_results;
  llm_invoke self question context.

Definition _create_citations (self : AnswerGenerator)
    (search_results : list SearchResult.t) : result (list CitationDict.t) :=
  mapM (fun result => Citation_init self (to_citation_dict result))
       search_results.

(** [sum(scores) / len(scores)]: the sum starts from the integer 0. *)
Definition _calculate_confidence (search_results : list SearchResult.t) :
    float :=
  match search_results with
  | [] => 0%float
  | _ :: _ =>
      let scores := map SearchResult.score search_results in
      (fold_left PrimFloat.add scores 0 /
       PrimFloat.of_uint63 (Uint63.of_Z (Z.of_nat (length scores))))%float
  end.

Definition not_found_phrases : list string :=
  ["nicht enthalten"; "keine information"; "nicht gefunden";
   "kann ich nicht"; "steht nicht"].

(** The body of the [try] of [generate_answer]. *)
Definition generate_answer_body (self : AnswerGenerator)
    (context : AnswerContext) : result AnswerResult :=
  answer ← chain_ainvoke self (question context) (search_results context);
  let answer_lower := str_lower self answer in
  let has_info :=
    negb (existsb (fun phrase => py_in phrase answer_lower)
                  not_found_phrases) in
  citations ←
    (if has_info then _create_citations self (search_results context)
     else Ok []);
  Ok {| status := SUCCESS;
        answer := Some answer;
        citations := citations;
        highlighted_clauses := [];
        confidence := _calculate_confidence (search_results context);
        error_code := None;
        error_message := None;
        metadata :=
          {| metadata_policy_id := context_policy_id context;
             metadata_use_expansion := use_expansion context;
             result_count :=
               Z.of_nat (length (search_results context)) |} |}.

(** [generate_answer]: [except NoRelevantChunksError: raise], and every
    other exception becomes an [AnswerGenerationFailedError] that carries
    its text. *)
Definition generate_answer (self : AnswerGenerator)
    (context : AnswerContext) : result AnswerResult :=
  match search_results context with
  | [] => Raise (NoRelevantChunksError (question context))
  | _ :: _ =>
      match generate_answer_body self context with
      | Ok answer_result => Ok answer_result
      | Raise e =>
          if String.eqb (exc_class e) "NoRelevantChunksError" then Raise e
          else Raise (AnswerGenerationFailedError (exc_message e))
      end
  end.

(** ** The policy agent (agents/nodes.py) *)

(** The part of [AgentState] that [policy_agent_node] reads;
    [retrieval_strategy] may be missing or [None]. *)
Record AgentState := {
  state_question : string;
  state_policy_id : string;
  retrieval_strategy : option string
}.

(** [retrieval_strategy == name]; [None] equals no name. *)
Definition strategy_is (retrieval_strategy : option string) (name : string) :
    bool :=
  match retrieval_strategy with
  | Some s => String.eqb s name
  | None => false
  end.

(** The retrieval step of [policy_agent_node], with the default arguments
    of the three searches written out. *)
Definition retrieve (vector_store : VectorStore) (q : Qdrant)
    (state : AgentState) : result (list SearchResult.t) :=
  let policy_id := state_policy_id state in
  let question := state_question state in
  if strategy_is (retrieval_strategy state) "hybrid"
  then search_hybrid vector_store q policy_id question None 0.5%float
  else if strategy_is (retrieval_strategy state) "rerank"
  then search_with_rerank vector_store q policy_id question None 10
  else search_similar_chunks vector_store q policy_id question None.

Definition policy_agent_node (vector_store : VectorStore)
    (answer_generator : AnswerGenerator) (q : Qdrant) (state : AgentState) :
    result AnswerResult :=
  search_results ← retrieve vector_store q state;
  let context := {| question := state_question state;
                    search_results := search_results;
                    context_policy_id := state_policy_id state;
                    use_expansion := true |} in
  generate_answer answer_generator context.

(** A generator whose model answers [reply] to everything. *)
Definition demo_generator (reply : result string) : AnswerGenerator := {|
  llm_invoke := fun _ _ => reply;
  format_score := fun _ => "0.50";
  str_lower := fun s => s;
  Citation_init := fun d => Ok d
|}.

(** ** [PolicyService.delete_policy] (policy_service.py) *)

(** [s.endswith(suffix)] *)
Definition py_endswith (s suffix : string) : bool :=
  (String.length suffix <=? String.length s)%nat &&
  String.eqb
    (String.substring (String.length s - String.length suffix)
                      (String.length suffix) s)
    suffix.

(** [os.path.join(a, b)] of posixpath, for two components. *)
Definition os_path_join (a b : string) : string :=
  if String.prefix "/" b then b
  else if String.eqb a "" || py_endswith a "/" then a +:+ b
  else a +:+ "/" +:+ b.

(** The upload folder is a set of paths of regular files that the service
    may remove: [os.path.exists] is membership, [os.remove] takes the path
    out. *)
Module PolicyService.

Record t := {
  vector_store : VectorStore;
  uploads_dir : string
}.

(** The body of the [try] of [delete_policy]: the states after it, and the
    message of the returned dictionary or the exception. *)
Definition delete_policy_body (self : t) (q : Qdrant) (fs : gset string)
    (policy_id : string) : Qdrant * gset string * result string :=
  let '(success, q) := delete_policy (vector_store self) q policy_id in
  let file_path := os_path_join (uploads_dir self) (policy_id +:+ ".pdf") in
  let fs := if bool_decide (file_path ∈ fs) then fs ∖ {[file_path]} else fs in
  if success
  then (q, fs, Ok ("Policy " +:+ policy_id +:+ " deleted successfully"))
  else (q, fs, Raise (ValueError "Policy not found")).

(** [except Exception as e: raise ValueError(f"Failed to delete policy:
    {str(e)}")] *)
Definition delete_policy (self : t) (q : Qdrant) (fs : gset string)
    (policy_id : string) : Qdrant * gset string * result string :=
  match delete_policy_body self q fs policy_id with
  | (q, fs, Ok message) => (q, fs, Ok message)
  | (q, fs, Raise e) =>
      (q, fs,
       Raise (ValueError ("Failed to delete policy: " +:+ exc_message e)))
  end.

End PolicyService.

(** ** [PDFProcessor] (pdf_processor.py) *)

(** The PDF libraries.  A pymupdf document is its pages, each of which
    gives its text or raises ([load_page] and [get_text]), and [close];
    pypdf gives the pages of the file, or raises when the file cannot be
    opened or parsed.  [pdf_strip] is [str.strip]. *)
Record FitzDocument := {
  fitz_pages : list (result string);
  fitz_close : result unit
}.

Record PdfLibraries := {
  fitz_open : string -> result FitzDocument;
  pypdf_pages : string -> result (list (result string));
  pdf_strip : string -> string
}.

(** A string is true when it is not empty. *)
Definition py_bool_str (s : string) : bool := negb (String.eqb s "").

(** The loop over the pages, in both branches of [extract_text]: page
    [page_num] is at the head; the loop ends with the list built so far
    when a page raises. *)
Fixpoint collect_pages (strip : string -> string) (page_num : Z)
    (pages : list (result string)) (text_data : list PageData) :
    list PageData * option exn :=
  match pages with
  | [] => (text_data, None)
  | Raise e :: _ => (text_data, Some e)
  | Ok text :: rest =>
      let text_data :=
        if py_bool_str (strip text)
        then text_data ++ [{| page_number := page_num + 1;
                              page_text := strip text |}]
        else text_data in
      collect_pages strip (page_num + 1) rest text_data
  end.

(** [extract_text]: pymupdf first; when anything in that branch raises,
    pypdf reads the file again, appending to the same [text_data]. *)
Definition extract_text (libs : PdfLibraries) (pdf_path : string) :
    result (list PageData) :=
  let '(text_data, failed) :=
    match fitz_open libs pdf_path with
    | Raise _ => ([], true)
    | Ok doc =>
        match collect_pages (pdf_strip libs) 0 (fitz_pages doc) [] with
        | (text_data, Some _) => (text_data, true)
        | (text_data, None) =>
            match fitz_close doc with
            | Raise _ => (text_data, true)
            | Ok _ => (text_data, false)
            end
        end
    end in
  if failed then
    pages ← pypdf_pages libs pdf_path;
    match collect_pages (pdf_strip libs) 0 pages text_data with
    | (text_data, None) => Ok text_data
    | (_, Some e) => Raise e
    end
  else Ok text_data.

(** The pages that the loop keeps of page texts numbered from [page_num]:
    the non-blank ones, stripped, under their position in the document. *)
Fixpoint kept_pages (strip : string -> string) (page_num : Z)
    (texts : list string) : list PageData :=
  match texts with
  | [] => []
  | text :: rest =>
      (if py_bool_str (strip text)
       then [{| page_number := page_num + 1; page_text := strip text |}]
       else [])
      ++ kept_pages strip (page_num + 1) rest
  end.

(** [ProcessedDocument], without the [processing_metadata] (which holds the
    time of day and settings). *)
Record ProcessedDocument := {
  doc_policy_id : string;
  doc_filename : string;
  total_pages : Z;
  doc_chunks : list TextChunk.t;
  total_chunks : Z
}.

Record PDFProcessor := {
  pdf_libraries : PdfLibraries;
  chunking_tools : ChunkingTools;
  chunking_strategy : string
}.

Definition chunk_text_method (self : PDFProcessor)
    (text_data : list PageData) (filename : string) :
    result (list TextChunk.t) :=
  chunk_text (chunking_tools self) text_data filename
    (chunking_strategy self).

Definition process_pdf (self : PDFProcessor)
    (pdf_path filename policy_id : string) : result ProcessedDocument :=
  text_data ← extract_text (pdf_libraries self) pdf_path;
  match text_data with
  | [] => Raise (ValueError "No text could be extracted from the PDF")
  | _ :: _ =>
      chunks ← chunk_text_method self text_data filename;
      Ok {| doc_policy_id := policy_id;
            doc_filename := filename;
            total_pages := Z.of_nat (length text_data);
            doc_chunks := chunks;
            total_chunks := Z.of_nat (length chunks) |}
  end.

(** Libraries for a document whose pages have the texts [fitz] for pymupdf
    and [pypdf] for pypdf; nothing is stripped but a text of one space. *)
Definition demo_libraries (fitz pypdf : list (result string)) :
    PdfLibraries := {|
  fitz_open := fun _ => Ok {| fitz_pages := fitz; fitz_close := Ok tt |};
  pypdf_pages := fun _ => Ok pypdf;
  pdf_strip := fun s => if String.eqb s " " then "" else s
|}.

(** ** [PolicyService.process_policy_upload] (policy_service.py) *)

Record UploadFile := {
  upload_filename : string;
  upload_content : string
}.

Record PolicyUploadResponse := {
  response_policy_id : string;
  response_filename : string;
  response_total_pages : Z;
  response_total_chunks : Z;
  response_highlights : list string
}.

(** What an upload uses besides the vector store: [str.lower], the PDF
    libraries and the chunking tools of the [PDFProcessor] it creates, the
    clause analyzer, and the validation of the response by its pydantic
    schema. *)
Record UploadServices := {
  upload_lower : string -> string;
  upload_libraries : PdfLibraries;
  upload_tools : ChunkingTools;
  analyze_policy : list TextChunk.t -> string -> Z -> result (list string);
  PolicyUploadResponse_init :
    PolicyUploadResponse -> result PolicyUploadResponse
}.

(** The body of the [try] of [process_policy_upload]: the file is written
    first; the collection is created, and created again by [store_chunks];
    [uuid4] gives the point ids. *)
Definition process_policy_upload_body (self : PolicyService.t)
    (services : UploadServices) (q : Qdrant) (fs : gset string)
    (file : UploadFile) (strategy policy_id : string)
    (uuid4 : nat -> string) :
    Qdrant * gset string * result PolicyUploadResponse :=
  let file_path :=
    os_path_join (PolicyService.uploads_dir self) (policy_id +:+ ".pdf") in
  let fs := fs ∪ {[file_path]} in
  let pdf_processor := {| pdf_libraries := upload_libraries services;
                          chunking_tools := upload_tools services;
                          chunking_strategy := strategy |} in
  match process_pdf pdf_processor file_path (upload_filename file) policy_id
  with
  | Raise e => (q, fs, Raise e)
  | Ok processed_doc =>
      match create_policy_collection (PolicyService.vector_store self) q
              policy_id with
      | (q, Raise e) => (q, fs, Raise e)
      | (q, Ok collection_name) =>
          match store_chunks (PolicyService.vector_store self) q policy_id
                  (doc_chunks processed_doc) uuid4 with
          | (q, Raise e) => (q, fs, Raise e)
          | (q, Ok storage_result) =>
              match analyze_policy services (doc_chunks processed_doc)
                      policy_id 5 with
              | Raise e => (q, fs, Raise e)
              | Ok highlights =>
                  (q, fs,
                   PolicyUploadResponse_init services
                     {| response_policy_id := policy_id;
                        response_filename := upload_filename file;
                        response_total_pages := total_pages processed_doc;
                        response_total_chunks := total_chunks processed_doc;
                        response_highlights := highlights |})
              end
          end
      end
  end.

(** [process_policy_upload]: the first draw of [uuid4] is the policy id,
    the following ones are the point ids.  On an exception the file is
    removed and a [ValueError] with the exception's text is raised. *)
Definition process_policy_upload (self : PolicyService.t)
    (services : UploadServices) (q : Qdrant) (fs : gset string)
    (file : UploadFile) (strategy : string) (uuid4 : nat -> string) :
    Qdrant * gset string * result PolicyUploadResponse :=
  if negb (py_endswith (upload_lower services (upload_filename file)) ".pdf")
  then (q, fs, Raise (ValueError "Only PDF files are allowed"))
  else
    let policy_id := uuid4 0%nat in
    match process_policy_upload_body self services q fs file strategy
            policy_id (fun i => uuid4 (S i)) with
    | (q, fs, Ok response) => (q, fs, Ok response)
    | (q, fs, Raise e) =>
        let file_path :=
          os_path_join (PolicyService.uploads_dir self)
                       (policy_id +:+ ".pdf") in
        let fs :=
          if bool_decide (file_path ∈ fs) then fs ∖ {[file_path]} else fs in
        (q, fs,
         Raise (ValueError ("Failed to process PDF: " +:+ exc_message e)))
    end.

(** Upload services for a one-page document; the analyzer answers
    [analysis]. *)
Definition demo_services (analysis : result (list string)) :
    UploadServices := {|
  upload_lower := fun s => s;
  upload_libraries := demo_libraries [Ok "waiting periods"] [];
  upload_tools := demo_tools ["waiting"; "periods"];
  analyze_policy := fun _ _ _ => analysis;
  PolicyUploadResponse_init := fun r => Ok r
|}.

(** ** Classifying and routing a question (question_classifier.py,
    agents/nodes.py) *)

Inductive QuestionType := POLICY_SPECIFIC | GENERAL_INSURANCE.

(** The classifier's model and the string methods it uses.
    [guardrail_reply question] is [self.llm.invoke(prompt).content] for the
    guardrail prompt of the question, [classification_reply question
    has_policy] the same for the classification prompt. *)
Record QuestionClassifier := {
  guardrail_reply : string -> result string;
  classification_reply : string -> bool -> result string;
  reply_strip : string -> string;
  reply_lower : string -> string;
  reply_replace : string -> string -> string -> string
}.

(** [s.split('\n')] *)
Fixpoint py_split_newline (s : string) : list string :=
  match s with
  | EmptyString => [""]
  | String c s' =>
      let rest := py_split_newline s' in
      if Ascii.eqb c "010"%char then "" :: rest
      else match rest with
           | first :: more => String c first :: more
           | [] => [String c ""]
           end
  end.

(** [next((l for l in lines if l.startswith(prefix)), '')] *)
Definition first_line_with (prefix : string) (lines : list string) : string :=
  match find (String.prefix prefix) lines with
  | Some l => l
  | None => ""
  end.

(** [is_insurance_related]: when the call of the model or the parsing
    raises, the question is let through. *)
Definition is_insurance_related (self : QuestionClassifier)
    (question : string) : bool * string :=
  match guardrail_reply self question with
  | Raise _ => (true, "")
  | Ok reply =>
      let content := reply_strip self reply in
      let lines := py_split_newline content in
      let valid_line := first_line_with "VALID:" lines in
      let reason_line := first_line_with "REASON:" lines in
      let is_valid :=
        py_in "yes" (reply_lower self valid_line) ||
        py_in "ja" (reply_lower self valid_line) in
      let reason :=
        if py_bool_str reason_line
        then reply_strip self (reply_replace self reason_line "REASON:" "")
        else "Diese Frage ist nicht versicherungsbezogen." in
      (is_valid, reason)
  end.

Definition _llm_classify (self : QuestionClassifier) (question : string)
    (has_policy : bool) : QuestionType :=
  match classification_reply self question has_policy with
  | Ok reply =>
      let classification := reply_lower self (reply_strip self reply) in
      if py_in "policy" classification ||
         py_in "policy_specific" classification
      then POLICY_SPECIFIC
      else GENERAL_INSURANCE
  | Raise _ => if has_policy then POLICY_SPECIFIC else GENERAL_INSURANCE
  end.

(** [classify]: [not policy_id] holds for [None] and for the empty
    string. *)
Definition classify (self : QuestionClassifier) (question : string)
    (policy_id : option string) : QuestionType :=
  match policy_id with
  | None => GENERAL_INSURANCE
  | Some id =>
      if py_bool_str id then _llm_classify self question true
      else GENERAL_INSURANCE
  end.

(** [classify_node]: the [question_type] it puts into the state. *)
Definition classify_node (classifier : QuestionClassifier)
    (question : string) (policy_id : option string) : result QuestionType :=
  let '(is_valid, reason) := is_insurance_related classifier question in
  if negb is_valid
  then Raise (ValueError
                ("Diese Frage ist nicht versicherungsbezogen: " +:+ reason))
  else Ok (classify classifier question policy_id).

(** [route_question]; the state may lack a [question_type]. *)
Definition route_question (question_type : option QuestionType) : string :=
  match question_type with
  | Some POLICY_SPECIFIC => "policy_agent"
  | _ => "web_agent"
  end.

(** A classifier whose model gives the two replies; the replies are taken
    as they are. *)
Definition demo_classifier (guardrail classification : result string) :
    QuestionClassifier := {|
  guardrail_reply := fun _ => guardrail;
  classification_reply := fun _ _ => classification;
  reply_strip := fun s => s;
  reply_lower := fun s => s;
  reply_replace := fun s _ _ => s
|}.
(** * Properties *)

(** ** Binary64 facts used by the ranking code *)

Module Float64Facts.
Import Float64.

Lemma mul_comm (x y : float) : (x * y = y * x)%float.
Proof.
  apply Prim2SF_inj. rewrite !mul_spec.
  destruct (Prim2SF x) as [sx|sx| |sx mx ex], (Prim2SF y) as [sy|sy| |sy my ey];
    simpl; try reflexivity; try (rewrite xorb_comm; reflexivity).
  unfold SF64mul, SFmul.
  rewrite xorb_comm, Pos.mul_comm, Z.add_comm. reflexivity.
Qed.

Lemma SFcompare_refl (s : spec_float) :
  s <> S754_nan -> SFcompare s s = Some Eq.
Proof.
  destruct s as [[]|[]| |[] m e]; simpl; try congruence; intros _;
    rewrite Z.compare_refl, Pos.compare_cont_refl; reflexivity.
Qed.

Lemma nonnan_spec (x : float) : nonnan x <-> Prim2SF x <> S754_nan.
Proof.
  unfold nonnan, is_nan. rewrite FloatAxioms.eqb_spec. unfold SFeqb. split.
  - intros H E. rewrite E in H. discriminate.
  - intros H. rewrite SFcompare_refl by assumption. reflexivity.
Qed.

Lemma SFcompare_total (a b : spec_float) :
  a <> S754_nan -> b <> S754_nan -> SFltb a b = false -> SFleb b a = true.
Proof.
  unfold SFltb, SFleb.
  destruct a as [[]|[]| |[] ma ea], b as [[]|[]| |[] mb eb];
    simpl; try congruence; intros _ _;
    change (Pos.compare_cont Eq) with Pos.compare;
    destruct (Z.compare_spec ea eb), (Z.compare_spec eb ea);
    simpl; try congruence; try lia;
    destruct (Pos.compare_spec ma mb), (Pos.compare_spec mb ma);
    simpl; try congruence; try lia.
Qed.

Lemma SFltb_SFleb (a b : spec_float) : SFltb a b = true -> SFleb a b = true.
Proof.
  unfold SFltb, SFleb. destruct (SFcompare a b) as [[]|]; congruence.
Qed.

Lemma SFleb_trans (a b c : spec_float) :
  SFleb a b = true -> SFleb b c = true -> SFleb a c = true.
Proof.
  unfold SFleb.
  destruct a as [[]|[]| |[] ma ea], b as [[]|[]| |[] mb eb],
           c as [[]|[]| |[] mc ec];
    simpl; try congruence; change (Pos.compare_cont Eq) with Pos.compare;
    destruct (Z.compare_spec ea eb), (Z.compare_spec eb ec),
             (Z.compare_spec ea ec);
    simpl; try congruence; try lia; subst;
    destruct (Pos.compare_spec ma mb), (Pos.compare_spec mb mc),
             (Pos.compare_spec ma mc);
    simpl; try congruence; try lia.
Qed.

Lemma ltb_false_leb (x y : float) :
  nonnan x -> nonnan y -> (x <? y)%float = false -> (y <=? x)%float = true.
Proof.
  rewrite !nonnan_spec, ltb_spec, leb_spec. apply SFcompare_total.
Qed.

Lemma ltb_leb (x y : float) : (x <? y)%float = true -> (x <=? y)%float = true.
Proof. rewrite ltb_spec, leb_spec. apply SFltb_SFleb. Qed.

Lemma leb_trans (x y z : float) :
  (x <=? y)%float = true -> (y <=? z)%float = true -> (x <=? z)%float = true.
Proof. rewrite !leb_spec. apply SFleb_trans. Qed.

Lemma leb_refl (x : float) : nonnan x -> (x <=? x)%float = true.
Proof.
  rewrite nonnan_spec, leb_spec. intros H. unfold SFleb.
  rewrite SFcompare_refl by assumption. reflexivity.
Qed.

Lemma leb_nonnan (x y : float) :
  (x <=? y)%float = true -> nonnan x /\ nonnan y.
Proof.
  rewrite leb_spec, !nonnan_spec. unfold SFleb.
  destruct (Prim2SF x), (Prim2SF y); simpl; try discriminate;
    intros _; split; discriminate.
Qed.

Lemma ltb_eqb_false (x y : float) :
  (x <? y)%float = true -> (y =? x)%float = false.
Proof.
  rewrite ltb_spec, FloatAxioms.eqb_spec. unfold SFltb, SFeqb.
  destruct (Prim2SF x) as [[]|[]| |[] ma ea], (Prim2SF y) as [[]|[]| |[] mb eb];
    simpl; try congruence;
    change (Pos.compare_cont Eq) with Pos.compare;
    destruct (Z.compare_spec ea eb), (Z.compare_spec eb ea);
    simpl; try congruence; try lia;
    destruct (Pos.compare_spec ma mb), (Pos.compare_spec mb ma);
    simpl; try congruence; try lia.
Qed.

End Float64Facts.


(** ** [cosine_similarity] *)

Section CosineFacts.
Context {F : Type} `{Arith F}.
Hypothesis amul_comm : forall x y : F, amul x y = amul y x.

Lemma dot_sum_comm_from (a b : list F) (acc : F) :
  fold_left (fun acc p => aadd acc (amul (fst p) (snd p))) (combine a b) acc =
  fold_left (fun acc p => aadd acc (amul (fst p) (snd p))) (combine b a) acc.
Proof.
  revert b acc. induction a as [|x a IH]; intros [|y b] acc; simpl; trivial.
  rewrite (amul_comm x y). apply IH.
Qed.

Lemma dot_sum_comm (a b : list F) : dot_sum a b = dot_sum b a.
Proof. apply dot_sum_comm_from. Qed.

Lemma cosine_similarity_comm (a b : list F) :
  cosine_similarity a b = cosine_similarity b a.
Proof.
  unfold cosine_similarity, np_dot.
  rewrite (orb_comm (aeqb (np_linalg_norm a) azero)).
  destruct (aeqb (np_linalg_norm b) azero || aeqb (np_linalg_norm a) azero);
    trivial.
  rewrite (Nat.eqb_sym (length a)), (dot_sum_comm a b).
  rewrite (amul_comm (np_linalg_norm a)). reflexivity.
Qed.

End CosineFacts.

(** Over the reals the sum of squares only grows, and it grows strictly as
    soon as one component is not zero. *)
Lemma sum_squares_from (a : list R) (acc : R) :
  (acc <= fold_left (fun acc p => acc + fst p * snd p) (combine a a) acc)%R.
Proof.
  revert acc. induction a as [|x a IH]; intros acc; simpl; [lra|].
  specialize (IH (acc + x * x)%R). pose proof (Rle_0_sqr x) as Hx.
  unfold Rsqr in Hx. lra.
Qed.

Lemma sum_squares_pos_from (a : list R) (acc : R) :
  Exists (fun x => x <> 0%R) a ->
  (acc < fold_left (fun acc p => acc + fst p * snd p) (combine a a) acc)%R.
Proof.
  intros Hex. revert acc. induction Hex as [x a Hx|x a _ IH]; intros acc; simpl.
  - pose proof (sum_squares_from a (acc + x * x)%R) as Hle.
    assert (0 < x * x)%R by (apply Rsqr_pos_lt in Hx; exact Hx). lra.
  - specialize (IH (acc + x * x)%R). pose proof (Rle_0_sqr x) as Hx.
    unfold Rsqr in Hx. lra.
Qed.

Lemma cosine_similarity_self_exact (a : list R) :
  Exists (fun x => x <> 0%R) a -> cosine_similarity a a = Ok 1%R.
Proof.
  intros Hex.
  assert (Hd : (0 < dot_sum a a)%R).
  { unfold dot_sum. simpl. apply (sum_squares_pos_from a 0%R Hex). }
  unfold cosine_similarity, np_dot, np_linalg_norm. simpl.
  pose proof (sqrt_lt_R0 _ Hd) as Hs.
  destruct (Req_dec_T (R_sqrt.sqrt (dot_sum a a)) 0) as [E|_]; [lra|]. simpl.
  rewrite Nat.eqb_refl. simpl. f_equal.
  rewrite sqrt_sqrt by lra. field. lra.
Qed.




(** ** Collections: [delete_policy] and [search_similar_chunks] *)

Lemma collection_exists_true (q : Qdrant) (name : string) :
  collection_exists q name = true <-> is_Some (q !! name).
Proof. unfold collection_exists. apply bool_decide_eq_true. Qed.

Lemma collection_exists_false (q : Qdrant) (name : string) :
  collection_exists q name = false <-> q !! name = None.
Proof.
  unfold collection_exists. rewrite bool_decide_eq_false.
  rewrite eq_None_not_Some. reflexivity.
Qed.

Lemma collection_exists_delete (q : Qdrant) (name : string) :
  collection_exists (delete_collection q name) name = false.
Proof.
  apply collection_exists_false. unfold delete_collection.
  apply lookup_delete_eq.
Qed.

(** C8.  [delete_policy] answers [True] exactly when the policy's collection
    exists; after the call the collection is gone and every other collection
    is as before; a second call in succession answers [False], changes
    nothing and raises nothing. *)
Theorem delete_policy_idempotent (self : VectorStore) (q : Qdrant)
    (policy_id : string) :
  let name := collection_name_of self policy_id in
  let r1 := delete_policy self q policy_id in
  (fst r1 = true <-> collection_exists q name = true) /\
  collection_exists (snd r1) name = false /\
  (forall other, other <> name -> snd r1 !! other = q !! other) /\
  delete_policy self (snd r1) policy_id = (false, snd r1).
Proof.
  intros name r1. subst r1. unfold delete_policy. fold name.
  destruct (collection_exists q name) eqn:E; simpl.
  - rewrite collection_exists_delete. repeat split; trivial.
    intros other Hne. unfold delete_collection.
    apply lookup_delete_ne. congruence.
  - rewrite E. repeat split; trivial; discriminate.
Qed.

Lemma search_similar_chunks_none_exists (self : VectorStore) (q : Qdrant)
    (policy_id query : string) (limit : option Z) :
  collection_exists q (collection_name_of self policy_id) = false ->
  search_similar_chunks self q policy_id query limit = Ok [].
Proof.
  intros E. unfold search_similar_chunks. rewrite E. reflexivity.
Qed.

(** C9.  On a policy whose collection does not exist
    [search_similar_chunks] returns the empty list, whatever the query and
    the limit, and without calling the embedding service or Qdrant (which
    could raise). *)
Theorem search_similar_chunks_no_collection (self : VectorStore) (q : Qdrant)
    (policy_id query : string) (limit : option Z) :
  collection_exists q (collection_name_of self policy_id) = false ->
  search_similar_chunks self q policy_id query limit = Ok [].
Proof.
  intros Hmissing. unfold search_similar_chunks.
  destruct (collection_exists q (collection_name_of self policy_id));
    [discriminate Hmissing | reflexivity].
Qed.

Lemma search_similar_chunks_no_collection_witness :
  search_similar_chunks
    {| config := demo_config;
       clients := {|
         embeddings_create := fun _ _ => Raise (PyExc "APIError" "offline");
         qdrant_search := fun _ _ _ _ => Raise (PyExc "ApiException" "offline");
         lower_split := fun s => [s];
         BM25Okapi_get_scores := fun _ _ => [];
         compress_documents := fun _ _ => Ok [] |} |}
    demo_qdrant "unknown" "waiting period" (Some 3) = Ok [].
Proof.
  apply search_similar_chunks_no_collection. vm_compute. reflexivity.
Defined.

Lemma delete_policy_idempotent_witness :
  let self := demo_store [] [] (Ok []) in
  delete_policy self demo_qdrant "p" = (true, ∅) /\
  delete_policy self (snd (delete_policy self demo_qdrant "p")) "p" =
    (false, snd (delete_policy self demo_qdrant "p")).
Proof.
  intros self. split.
  - unfold delete_policy, demo_qdrant. simpl.
    unfold delete_collection. rewrite delete_singleton_eq. reflexivity.
  - apply (delete_policy_idempotent self demo_qdrant "p").
Defined.

(** ** Empty candidate sets and reranker failures *)




(** C3, as the code has it.  When the semantic search has returned at least
    one candidate and the reranker raises, [search_with_rerank] raises that
    very exception: it is neither caught, nor wrapped, nor replaced by a list
    of results. *)
Theorem search_with_rerank_propagates (self : VectorStore) (q : Qdrant)
    (policy_id query : string) (limit : option Z) (rerank_top_k : Z)
    (semantic_candidates : list SearchResult.t) (e : exn) :
  search_similar_chunks self q policy_id query (Some rerank_top_k) =
    Ok semantic_candidates ->
  semantic_candidates <> [] ->
  compress_documents (clients self)
    (map (fun r => {| page_content := TextChunk.text (SearchResult.chunk r);
                      relevance_score := None |}) semantic_candidates)
    query = Raise e ->
  search_with_rerank self q policy_id query limit rerank_top_k = Raise e /\
  (forall results,
     search_with_rerank self q policy_id query limit rerank_top_k <> Ok results).
Proof.
  intros Hsem Hne Hraise.
  assert (E : search_with_rerank self q policy_id query limit rerank_top_k =
              Raise e).
  { unfold search_with_rerank. rewrite Hsem. simpl.
    destruct semantic_candidates as [|c cs]; [congruence|].
    rewrite Hraise. reflexivity. }
  split; [exact E|]. intros results. rewrite E. discriminate.
Qed.

Lemma search_with_rerank_propagates_witness :
  search_with_rerank
    (demo_store demo_hits [] (Raise (PyExc "ApiError" "status_code: 503")))
    demo_qdrant "p" "waiting period" None 10 =
  Raise (PyExc "ApiError" "status_code: 503").
Proof.
  eapply (search_with_rerank_propagates
            (demo_store demo_hits [] (Raise (PyExc "ApiError" "status_code: 503")))
            demo_qdrant "p" "waiting period" None 10).
  - vm_compute. reflexivity.
  - discriminate.
  - reflexivity.
Defined.

(** C3, as stated, fails on the class of the exception: a reranker that
    raises Cohere's [ApiError] makes [search_with_rerank] raise that
    [ApiError], not a [RerankServiceError] (a class the code does not
    define). *)
Lemma search_with_rerank_not_RerankServiceError :
  let self :=
    demo_store demo_hits [] (Raise (PyExc "ApiError" "status_code: 503")) in
  compress_documents (clients self)
    [{| page_content := "waiting period dental"; relevance_score := None |}]
    "waiting period" = Raise (PyExc "ApiError" "status_code: 503") /\
  forall e,
    search_with_rerank self demo_qdrant "p" "waiting period" None 10 = Raise e ->
    exc_class e <> "RerankServiceError".
Proof.
  intros self. split; [reflexivity|].
  intros e He. vm_compute in He. injection He as <-. simpl. discriminate.
Qed.

(** ** [CharacterTextSplitter.split] *)

Section Slices.
Context {A : Type}.
Implicit Types l : list A.

(** A slice with a non-negative start and a non-negative width. *)
Lemma py_slice_window l (i size : Z) :
  0 <= i -> 0 <= size ->
  py_slice l i (i + size) = firstn (Z.to_nat size) (skipn (Z.to_nat i) l).
Proof.
  intros Hi Hs. unfold py_slice, clamp_index.
  destruct (Z.ltb_spec i 0) as [|_]; [lia|].
  destruct (Z.ltb_spec (i + size) 0) as [|_]; [lia|].
  destruct (Z_lt_le_dec i (Z.of_nat (length l))) as [Hlt|Hge].
  - rewrite (Z.min_l i) by lia.
    destruct (Z_le_gt_dec (i + size) (Z.of_nat (length l))) as [Hle|Hgt].
    + rewrite Z.min_l by lia. f_equal. lia.
    + rewrite Z.min_r by lia.
      rewrite !firstn_all2; trivial; rewrite length_skipn; lia.
  - rewrite !skipn_all2 by lia. rewrite !firstn_nil. reflexivity.
Qed.

(** [c[o:]], written [c[o:len(c)]]. *)
Lemma py_slice_suffix l (o : Z) :
  0 <= o -> py_slice l o (Z.of_nat (length l)) = skipn (Z.to_nat o) l.
Proof.
  intros Ho. unfold py_slice, clamp_index.
  destruct (Z.ltb_spec o 0) as [|_]; [lia|].
  destruct (Z.ltb_spec (Z.of_nat (length l)) 0) as [|_]; [lia|].
  rewrite Z.min_id.
  destruct (Z_le_gt_dec o (Z.of_nat (length l))) as [Hle|Hgt].
  - rewrite Z.min_l by lia. apply firstn_all2. rewrite length_skipn. lia.
  - rewrite Z.min_r by lia. rewrite !skipn_all2 by lia. apply firstn_nil.
Qed.

(** Consecutive windows of width [step], [m] of them from position [p] on,
    make up one window of width [m * step]. *)
Lemma concat_windows l (step p m : nat) :
  concat (map (fun j => firstn step (skipn (p + j * step) l)) (seq 0 m)) =
  firstn (m * step) (skipn p l).
Proof.
  revert p. induction m as [|m IH]; intros p; [reflexivity|].
  rewrite <- cons_seq. simpl map. simpl concat.
  rewrite <- seq_shift, List.map_map, Nat.add_0_r.
  erewrite map_ext; [rewrite (IH (p + step)%nat)|intros j; simpl; f_equal; f_equal; lia].
  replace (skipn (p + step) l) with (skipn step (skipn p l))
    by (rewrite skipn_skipn; f_equal; lia).
  simpl. rewrite <- (take_take_drop (skipn p l) step (m * step)). reflexivity.
Qed.

End Slices.

(** The loop of [range] with a positive step visits [i], [i + step], ... as
    long as they are below [stop]; the fuel never runs out first. *)
Lemma range_loop_up (fuel : nat) (i stop step : Z) :
  0 < step -> (Z.to_nat (stop - i) <= fuel)%nat ->
  range_loop fuel i stop step =
  map (fun k => i + Z.of_nat k * step)
      (seq 0 (Z.to_nat ((stop - i + step - 1) / step))).
Proof.
  intros Hstep. revert i. induction fuel as [|fuel IH]; intros i Hfuel.
  - assert (Hle : stop - i <= 0) by lia.
    assert (Hq : (stop - i + step - 1) / step <= 0).
    { apply Z.lt_succ_r. apply Z.div_lt_upper_bound; lia. }
    destruct ((stop - i + step - 1) / step); simpl; trivial; lia.
  - simpl. destruct (Z.ltb_spec 0 step) as [_|]; [|lia].
    destruct (Z.ltb_spec i stop) as [Hlt|Hge].
    + replace (stop - i + step - 1) with ((stop - i - 1) + 1 * step) by lia.
      rewrite Z.div_add by lia.
      assert (0 <= (stop - i - 1) / step) by (apply Z.div_pos; lia).
      rewrite Z2Nat.inj_add by lia. rewrite Nat.add_comm. simpl.
      f_equal; [lia|].
      rewrite IH by lia. rewrite <- seq_shift, List.map_map.
      replace (stop - (i + step) + step - 1) with (stop - i - 1) by lia.
      apply map_ext. intros k. lia.
    + assert (Hq : (stop - i + step - 1) / step <= 0).
      { apply Z.lt_succ_r. apply Z.div_lt_upper_bound; lia. }
      destruct ((stop - i + step - 1) / step); simpl; trivial; lia.
Qed.

Lemma chunk_count_least (len step : Z) :
  0 <= len -> 0 < step ->
  len <= Z.of_nat (chunk_count len step) * step /\
  forall i : nat, (i < chunk_count len step)%nat -> Z.of_nat i * step < len.
Proof.
  intros Hlen Hstep. unfold chunk_count.
  set (q := (len + step - 1) / step).
  assert (Hq : 0 <= q) by (apply Z.div_pos; lia).
  pose proof (Z.div_mod (len + step - 1) step ltac:(lia)) as Hdm.
  pose proof (Z.mod_pos_bound (len + step - 1) step Hstep) as Hm.
  fold q in Hdm. rewrite Z2Nat.id by lia. split; [nia|].
  intros i Hi. assert (Z.of_nat i <= q - 1) by lia. nia.
Qed.

Lemma split_closed_form (self : CharacterTextSplitter) (text : list ascii) :
  0 <= chunk_overlap self < chunk_size self ->
  let step := chunk_size self - chunk_overlap self in
  split self text =
  Ok (map (fun i : nat =>
             py_slice text (Z.of_nat i * step)
                      (Z.of_nat i * step + chunk_size self))
          (seq 0 (chunk_count (Z.of_nat (length text)) step))).
Proof.
  intros Hcfg step. unfold split, py_range. fold step.
  destruct (Z.eqb_spec step 0) as [|_]; [lia|]. simpl.
  rewrite range_loop_up by (unfold step; lia).
  rewrite List.map_map. unfold chunk_count. rewrite Z.sub_0_r. reflexivity.
Qed.

(** C6.  For a valid configuration, [split] returns the chunks
    [text[i*step : i*step + chunk_size]] for [i = 0, 1, ..., n - 1], where
    [step = chunk_size - chunk_overlap] and [n] is the first index with
    [n * step >= len(text)]; a text of 2000 characters split at size 1000 and
    overlap 200 gives [text[0:1000]], [text[800:1800]], [text[1600:2000]]. *)
Theorem split_offsets (self : CharacterTextSplitter) (text : list ascii) :
  0 <= chunk_overlap self < chunk_size self ->
  let step := chunk_size self - chunk_overlap self in
  let len := Z.of_nat (length text) in
  let n := chunk_count len step in
  split self text =
    Ok (map (fun i : nat =>
               py_slice text (Z.of_nat i * step)
                        (Z.of_nat i * step + chunk_size self))
            (seq 0 n)) /\
  (forall i : nat, (i < n)%nat -> Z.of_nat i * step < len) /\
  len <= Z.of_nat n * step /\
  (chunk_size self = 1000 -> chunk_overlap self = 200 ->
   length text = 2000%nat ->
   split self text =
     Ok [py_slice text 0 1000; py_slice text 800 1800;
         py_slice text 1600 2000]).
Proof.
  intros Hcfg step len n.
  pose proof (split_closed_form self text Hcfg) as Hsplit.
  destruct (chunk_count_least len step) as [Hstop Hbelow];
    [unfold len; lia | unfold step; lia |].
  split; [exact Hsplit|]. split; [exact Hbelow|]. split; [exact Hstop|].
  intros Hsize Hoverlap Hlen. rewrite Hsplit. simpl.
  rewrite Hsize, Hoverlap, Hlen.
  change (chunk_count (Z.of_nat 2000) (1000 - 200)) with 3%nat.
  simpl. do 3 f_equal.
  unfold py_slice. rewrite Hlen. reflexivity.
Qed.

Lemma split_offsets_witness :
  split {| chunk_size := 4; chunk_overlap := 1 |}
        (list_ascii_of_string "abcdefgh") =
  Ok [list_ascii_of_string "abcd"; list_ascii_of_string "defg";
      list_ascii_of_string "gh"].
Proof.
  destruct (split_offsets {| chunk_size := 4; chunk_overlap := 1 |}
              (list_ascii_of_string "abcdefgh")) as (Hsplit & _);
    [simpl; lia|].
  rewrite Hsplit. vm_compute. reflexivity.
Defined.

(** C7.  For a valid configuration [split] succeeds, and the first chunk
    followed, for every later chunk, by what comes after its first
    [chunk_overlap] characters, is the text again. *)
Theorem split_reassemble (self : CharacterTextSplitter) (text : list ascii) :
  0 <= chunk_overlap self < chunk_size self ->
  exists chunks,
    split self text = Ok chunks /\ reassemble self chunks = text.
Proof.
  intros Hcfg.
  pose proof (split_closed_form self text Hcfg) as Hsplit.
  destruct (chunk_count_least (Z.of_nat (length text))
              (chunk_size self - chunk_overlap self)) as [Hstop _]; [lia..|].
  eexists. split; [exact Hsplit|].
  set (step := chunk_size self - chunk_overlap self) in *.
  set (n := chunk_count (Z.of_nat (length text)) step) in *.
  destruct n as [|m].
  - simpl. destruct text; [reflexivity|simpl in Hstop; lia].
  - rewrite <- cons_seq. simpl map. unfold reassemble.
    rewrite <- seq_shift, !List.map_map.
    change (Z.of_nat 0 * step) with 0.
    rewrite (py_slice_window text 0 (chunk_size self)) by lia.
    erewrite map_ext with
      (g := fun j => firstn (Z.to_nat step)
                       (skipn (Z.to_nat (chunk_size self) + j * Z.to_nat step)
                              text)).
    + rewrite concat_windows. simpl skipn.
      rewrite take_take_drop. apply firstn_all2. unfold step in *. nia.
    + intros j.
      rewrite py_slice_window by (unfold step; nia).
      rewrite py_slice_suffix by lia.
      rewrite skipn_firstn_comm, skipn_skipn. f_equal.
      * unfold step. lia.
      * f_equal. unfold step. nia.
Qed.

Lemma split_reassemble_witness :
  exists chunks,
    split {| chunk_size := 4; chunk_overlap := 1 |}
          (list_ascii_of_string "abcdefgh") = Ok chunks /\
    reassemble {| chunk_size := 4; chunk_overlap := 1 |} chunks =
      list_ascii_of_string "abcdefgh".
Proof.
  apply (split_reassemble {| chunk_size := 4; chunk_overlap := 1 |}).
  simpl. lia.
Defined.

(** ** Sorting by a float key *)

Section Sorting.
Context {A : Type} (key : A -> float).
Implicit Types l : list A.

Lemma insert_desc_perm (x : A) l : Permutation (insert_desc key x l) (x :: l).
Proof.
  induction l as [|y l IH]; simpl; [reflexivity|].
  destruct (key x <? key y)%float; [|reflexivity].
  rewrite IH. apply perm_swap.
Qed.

Lemma sorted_reverse_perm l : Permutation (sorted_reverse key l) l.
Proof.
  induction l as [|x l IH]; simpl; [reflexivity|].
  rewrite insert_desc_perm. constructor. exact IH.
Qed.

Lemma sorted_reverse_length l : length (sorted_reverse key l) = length l.
Proof. apply Permutation_length, sorted_reverse_perm. Qed.

Lemma insert_desc_sorted (x : A) l :
  Float64.nonnan (key x) -> Forall (fun y => Float64.nonnan (key y)) l ->
  StronglySorted (desc key) l -> StronglySorted (desc key) (insert_desc key x l).
Proof.
  intros Hx Hl Hs. induction Hs as [|y l Hs IH Hy]; simpl.
  - repeat constructor.
  - inversion Hl as [|? ? Hny Hnl]; subst.
    destruct (key x <? key y)%float eqn:E.
    + constructor; [apply IH; assumption|].
      rewrite insert_desc_perm. constructor; [|assumption].
      apply Float64Facts.ltb_leb. exact E.
    + assert (Hxy : desc key x y) by (apply Float64Facts.ltb_false_leb; assumption).
      constructor; [constructor; assumption|].
      constructor; [exact Hxy|].
      eapply Forall_impl; [exact Hy|]. intros z Hz. unfold desc in *.
      eapply Float64Facts.leb_trans; eassumption.
Qed.

Lemma sorted_reverse_sorted l :
  Forall (fun y => Float64.nonnan (key y)) l ->
  StronglySorted (desc key) (sorted_reverse key l).
Proof.
  induction 1 as [|x l Hx Hl IH]; simpl; [constructor|].
  apply insert_desc_sorted; trivial.
  rewrite sorted_reverse_perm. exact Hl.
Qed.

Lemma StronglySorted_filter_desc (P : A -> bool) l :
  StronglySorted (desc key) l ->
  StronglySorted (desc key) (List.filter P l).
Proof.
  induction 1 as [|x l Hs IH Hx]; simpl; [constructor|].
  destruct (P x); [|exact IH]. constructor; [exact IH|].
  rewrite List.Forall_forall in *. intros y Hy. apply Hx.
  apply List.filter_In in Hy. tauto.
Qed.

Lemma StronglySorted_firstn_desc (n : nat) l :
  StronglySorted (desc key) l -> StronglySorted (desc key) (firstn n l).
Proof.
  intros Hs. revert n. induction Hs as [|x l Hs IH Hx]; intros [|n]; simpl;
    try constructor; [apply IH|].
  rewrite List.Forall_forall in *. intros y Hy. apply Hx.
  rewrite <- (firstn_skipn n l). apply in_or_app. left. exact Hy.
Qed.

End Sorting.

(** [l[:k]] is a prefix of [l]: of [k] items when [k >= 0], and short of the
    last [-k] items otherwise. *)
Lemma py_slice_prefix {A} (l : list A) (k : Z) :
  py_slice l 0 k = firstn (Z.to_nat (clamp_index (Z.of_nat (length l)) k)) l.
Proof.
  unfold py_slice. replace (clamp_index (Z.of_nat (length l)) 0) with 0.
  - rewrite Z.sub_0_r. reflexivity.
  - unfold clamp_index. simpl. lia.
Qed.

Lemma py_slice_prefix_length {A} (l : list A) (k : Z) :
  0 <= k -> length (py_slice l 0 k) = Nat.min (Z.to_nat k) (length l).
Proof.
  intros Hk. rewrite py_slice_prefix, length_firstn. unfold clamp_index.
  destruct (Z.ltb_spec k 0); lia.
Qed.

(** ** [VectorDatabase.search] *)

Lemma mapM_Forall2 {A B} (f : A -> result B) (l : list A) (ys : list B) :
  mapM f l = Ok ys <-> Forall2 (fun x y => f x = Ok y) l ys.
Proof.
  revert ys. induction l as [|x l IH]; intros ys; simpl.
  - split.
    + intros E. injection E as <-. constructor.
    + intros HF. inversion HF. reflexivity.
  - split.
    + destruct (f x) as [y|e] eqn:Ex; simpl; [|discriminate].
      destruct (mapM f l) as [ys'|e] eqn:El; simpl; [|discriminate].
      intros E. injection E as <-. constructor; [exact Ex|].
      apply IH. reflexivity.
    + intros HF. inversion HF as [|? y ? ys' Ex Hl]; subst.
      rewrite Ex. simpl. apply IH in Hl. rewrite Hl. reflexivity.
Qed.

Lemma mapM_total {A B} (f : A -> result B) (l : list A) :
  Forall (fun x => exists y, f x = Ok y) l -> exists ys, mapM f l = Ok ys.
Proof.
  induction 1 as [|x l [y Ex] _ [ys El]]; simpl.
  - eexists. reflexivity.
  - rewrite Ex, El. simpl. eexists. reflexivity.
Qed.




(** ** Binary64: finite operands and division *)

Module Float64Div.
Import Float64.

Lemma is_finite_spec (x : float) : is_finite x = true -> SFfinite (Prim2SF x).
Proof.
  unfold is_finite, is_nan, is_infinity.
  rewrite !FloatAxioms.eqb_spec, abs_spec.
  change (Prim2SF infinity) with (S754_infinity false).
  destruct (Prim2SF x) as [s|s| |s m e]; simpl; trivial; intros H;
    try discriminate H.
  destruct s; discriminate H.
Qed.

Lemma shr_1_nonneg (mrs : shr_record) : 0 <= shr_m mrs -> 0 <= shr_m (shr_1 mrs).
Proof.
  destruct mrs as [m r s]. simpl.
  destruct m as [|[p|p|]|[p|p|]]; simpl; lia.
Qed.

Lemma iter_pos_shr_1_nonneg (p : positive) (mrs : shr_record) :
  0 <= shr_m mrs -> 0 <= shr_m (SpecFloat.iter_pos shr_1 p mrs).
Proof.
  revert mrs. induction p as [p IH|p IH|]; intros mrs H; simpl.
  - apply IH, IH, shr_1_nonneg, H.
  - apply IH, IH, H.
  - apply shr_1_nonneg, H.
Qed.

Lemma shr_fexp_nonneg (m e : Z) (l : location) :
  0 <= m -> 0 <= shr_m (fst (shr_fexp prec emax m e l)).
Proof.
  intros Hm. unfold shr_fexp, shr.
  assert (H0 : 0 <= shr_m (shr_record_of_loc m l))
    by (destruct l as [|[]]; simpl; exact Hm).
  destruct (fexp prec emax (Zdigits2 m + e) - e); simpl; trivial.
  apply iter_pos_shr_1_nonneg, H0.
Qed.

Lemma round_nearest_even_nonneg (m : Z) (l : location) :
  0 <= m -> 0 <= round_nearest_even m l.
Proof.
  intros Hm. unfold round_nearest_even.
  destruct l as [|[]]; try destruct (Z.even m); lia.
Qed.

Lemma binary_round_aux_not_nan (s : bool) (m e : Z) (l : location) :
  0 <= m -> binary_round_aux prec emax s m e l <> S754_nan.
Proof.
  intros Hm. unfold binary_round_aux.
  pose proof (shr_fexp_nonneg m e l Hm) as H1.
  destruct (shr_fexp prec emax m e l) as [mrs' e'] eqn:E1. simpl in H1.
  pose proof (shr_fexp_nonneg
                (round_nearest_even (shr_m mrs') (loc_of_shr_record mrs'))
                e' loc_Exact (round_nearest_even_nonneg _ _ H1)) as H2.
  destruct (shr_fexp prec emax
              (round_nearest_even (shr_m mrs') (loc_of_shr_record mrs'))
              e' loc_Exact) as [mrs'' e''] eqn:E2.
  simpl in H2.
  destruct (shr_m mrs'') as [|p|p]; try discriminate; [|lia].
  destruct (e'' <=? emax - prec); discriminate.
Qed.

Lemma SFdiv_core_binary_nonneg (m1 m2 : positive) (e1 e2 : Z) :
  0 <= fst (fst (SFdiv_core_binary prec emax (Zpos m1) e1 (Zpos m2) e2)).
Proof.
  unfold SFdiv_core_binary.
  set (s := e1 - e2 - _).
  set (m' := match s with Z0 => Zpos m1 | Zpos _ => Z.shiftl (Zpos m1) s
             | Zneg _ => 0 end).
  assert (Hm' : 0 <= m').
  { unfold m'. destruct s; try lia. apply Z.shiftl_nonneg. lia. }
  pose proof (Z_div_mod m' (Zpos m2) ltac:(lia)) as Hdm.
  destruct (Z.div_eucl m' (Zpos m2)) as [q r]. simpl.
  destruct Hdm as [Hq Hr]. nia.
Qed.

(** A finite number divided by a finite number that is not zero is not
    NaN. *)
Lemma div_finite_nonnan (x m : float) :
  is_finite x = true -> is_finite m = true -> (0 <? m)%float = true ->
  Float64.nonnan (x / m).
Proof.
  intros Hx Hm Hpos. apply is_finite_spec in Hx, Hm.
  rewrite ltb_spec in Hpos. change (Prim2SF 0) with (S754_zero false) in Hpos.
  apply Float64Facts.nonnan_spec. rewrite div_spec. unfold SF64div.
  destruct (Prim2SF x) as [sx|sx| |sx mx ex], (Prim2SF m) as [sm|sm| |sm mm em];
    simpl in *; try contradiction; try discriminate.
  pose proof (SFdiv_core_binary_nonneg mx mm ex em) as Hq.
  destruct (SFdiv_core_binary prec emax (Zpos mx) ex (Zpos mm) em)
    as [[mz ez] lz].
  apply binary_round_aux_not_nan. exact Hq.
Qed.

Lemma finite_nonnan (x : float) : is_finite x = true -> Float64.nonnan x.
Proof.
  intros H. apply is_finite_spec in H. apply Float64Facts.nonnan_spec.
  destruct (Prim2SF x); simpl in H; try contradiction; discriminate.
Qed.

Lemma eqb_leb (x y : float) :
  (x =? y)%float = true -> (x <=? y)%float = true /\ (y <=? x)%float = true.
Proof.
  rewrite FloatAxioms.eqb_spec, !leb_spec. unfold SFeqb, SFleb.
  destruct (Prim2SF x) as [[]|[]| |[] ma ea], (Prim2SF y) as [[]|[]| |[] mb eb];
    simpl; try discriminate; try (split; reflexivity);
    change (Pos.compare_cont Eq) with Pos.compare;
    destruct (Z.compare_spec ea eb), (Z.compare_spec eb ea);
    simpl; try discriminate; try lia;
    destruct (Pos.compare_spec ma mb), (Pos.compare_spec mb ma);
    simpl; try discriminate; try lia; split; reflexivity.
Qed.

Lemma leb_antisym (x y : float) :
  (x <=? y)%float = true -> (y <=? x)%float = true -> (x =? y)%float = true.
Proof.
  rewrite FloatAxioms.eqb_spec, !leb_spec. unfold SFeqb, SFleb.
  destruct (Prim2SF x) as [[]|[]| |[] ma ea], (Prim2SF y) as [[]|[]| |[] mb eb];
    simpl; try discriminate; try reflexivity;
    change (Pos.compare_cont Eq) with Pos.compare;
    destruct (Z.compare_spec ea eb), (Z.compare_spec eb ea);
    simpl; try discriminate; try lia;
    destruct (Pos.compare_spec ma mb), (Pos.compare_spec mb ma);
    simpl; try discriminate; try lia; reflexivity.
Qed.

End Float64Div.

(** ** The BM25 normalisation of [search_hybrid] *)

Lemma py_max_fold_in (t : list float) (x : float) :
  In (fold_left (fun m y => if (m <? y)%float then y else m) t x) (x :: t).
Proof.
  revert x. induction t as [|y t IH]; intros x; simpl; [left; reflexivity|].
  destruct (IH (if (x <? y)%float then y else x)) as [E|Hin].
  - rewrite <- E. destruct (x <? y)%float; auto.
  - right. right. exact Hin.
Qed.

Lemma py_max_fold_upper (t : list float) (x : float) :
  Float64.nonnan x -> Forall Float64.nonnan t ->
  let m := fold_left (fun m y => if (m <? y)%float then y else m) t x in
  Forall (fun y => (y <=? m)%float = true) (x :: t).
Proof.
  revert x. induction t as [|y t IH]; intros x Hx Ht; simpl.
  - constructor; [apply Float64Facts.leb_refl, Hx | constructor].
  - inversion Ht as [|? ? Hy Ht']; subst.
    set (x' := if (x <? y)%float then y else x).
    assert (Hx' : Float64.nonnan x') by (unfold x'; destruct (x <? y)%float; trivial).
    specialize (IH x' Hx' Ht'). simpl in IH.
    inversion IH as [|? ? Hm Hrest]; subst.
    assert (Hxx' : (x <=? x')%float = true /\ (y <=? x')%float = true).
    { unfold x'. destruct (x <? y)%float eqn:E.
      - split; [apply Float64Facts.ltb_leb, E | apply Float64Facts.leb_refl, Hy].
      - split; [apply Float64Facts.leb_refl, Hx | apply Float64Facts.ltb_false_leb; trivial]. }
    destruct Hxx' as [H1 H2].
    constructor; [eapply Float64Facts.leb_trans; eassumption|].
    constructor; [eapply Float64Facts.leb_trans; eassumption|exact Hrest].
Qed.

Lemma Forall_finite_map_div (raw : list float) (m : float) :
  Forall (fun s => is_finite s = true) raw ->
  is_finite m = true -> (0 <? m)%float = true ->
  Forall Float64.nonnan (map (fun s => (s / m)%float) raw).
Proof.
  intros Hraw Hm Hpos. induction Hraw as [|s raw Hs _ IH]; simpl;
    constructor; [apply Float64Div.div_finite_nonnan; assumption | exact IH].
Qed.

Lemma bm25_normalize_cons (x : float) (t : list float) :
  let m := fold_left (fun m y => if (m <? y)%float then y else m) t x in
  bm25_normalize (x :: t) =
  Ok (if (0 <? m)%float
      then map (fun score => (score / m)%float) (x :: t) else x :: t).
Proof.
  intros m. unfold bm25_normalize. cbn [py_max mbind result_bind]. fold m.
  destruct (0 <? m)%float; reflexivity.
Qed.

Lemma bm25_normalize_length (bm25_scores : list float) :
  bm25_scores <> [] ->
  exists norm,
    bm25_normalize bm25_scores = Ok norm /\
    length norm = length bm25_scores.
Proof.
  destruct bm25_scores as [|x t]; [congruence|]. intros _.
  rewrite bm25_normalize_cons. eexists. split; [reflexivity|].
  destruct (0 <? _)%float; [apply length_map|reflexivity].
Qed.



(** ** [search_hybrid] *)

(** The scroll loop collects every point of the collection, in order. *)
Lemma scroll_loop_all (fuel : nat) (points : list PointStruct)
    (offset : option nat) (chunks : list TextChunk.t) :
  (length points - default 0%nat offset < fuel)%nat ->
  scroll_loop fuel points offset chunks =
  chunks ++ map (fun p => chunk_of_payload (payload p))
                (skipn (default 0%nat offset) points).
Proof.
  revert offset chunks. induction fuel as [|fuel IH]; intros offset chunks Hfuel;
    [lia|].
  cbn [scroll_loop qdrant_scroll].
  assert (HB : (0 < VECTOR_SCROLL_BATCH_SIZE)%nat)
    by (unfold VECTOR_SCROLL_BATCH_SIZE; lia).
  set (B := VECTOR_SCROLL_BATCH_SIZE) in *.
  set (start := default 0%nat offset) in *.
  set (rest := skipn start points).
  assert (Hrest : length rest = (length points - start)%nat)
    by apply length_skipn.
  destruct (firstn B rest) as [|p page] eqn:Epage.
  - assert (rest = []) as ->.
    { destruct rest; trivial. destruct B; [lia|discriminate]. }
    simpl. rewrite app_nil_r. reflexivity.
  - rewrite <- Epage. clear Epage p page.
    destruct (Nat.ltb_spec (start + B) (length points)) as [Hlt|Hge].
    + rewrite IH by (simpl; lia). simpl default.
      rewrite <- app_assoc, <- map_app. do 2 f_equal.
      replace (skipn (start + B) points) with (skipn B rest)
        by (unfold rest; rewrite skipn_skipn; f_equal; lia).
      apply firstn_skipn.
    + rewrite firstn_all2 by lia. reflexivity.
Qed.

Lemma get_all_chunks_stored (self : VectorStore) (q : Qdrant)
    (policy_id : string) (points : list PointStruct) :
  q !! collection_name_of self policy_id = Some points ->
  _get_all_chunks self q policy_id =
  map (fun p => chunk_of_payload (payload p)) points.
Proof.
  intros Hq. unfold _get_all_chunks, collection_exists, collection_points.
  rewrite Hq. rewrite bool_decide_eq_true_2 by eauto. cbn [negb default].
  rewrite scroll_loop_all by (cbn [default]; lia). reflexivity.
Qed.

(** The BM25 dictionary gives every chunk the normalised score at its own
    position, provided the ids are distinct and the scorer returned one
    score per chunk. *)
Lemma bm25_dict_from_spec {B} (F : TextChunk.t -> float -> B)
    (all_chunks : list TextChunk.t) (i : nat) (norm : list float)
    (d : gmap string float) :
  List.NoDup (map TextChunk.id all_chunks) ->
  (i + length all_chunks <= length norm)%nat ->
  exists d',
    bm25_dict_from i all_chunks norm d = Ok d' /\
    (forall k, ~ In k (map TextChunk.id all_chunks) -> d' !! k = d !! k) /\
    map (fun c => F c (default 0%float (d' !! TextChunk.id c))) all_chunks =
    map (fun cb => F (fst cb) (snd cb))
        (combine all_chunks (firstn (length all_chunks) (skipn i norm))).
Proof.
  revert i d. induction all_chunks as [|c cs IH]; intros i d Hnd Hlen.
  - exists d. simpl. auto.
  - simpl in Hlen. inversion Hnd as [|? ? Hc Hcs]; subst.
    destruct (lookup_lt_is_Some_2 norm i ltac:(lia)) as [s Es].
    destruct (IH (S i) (<[TextChunk.id c := s]> d) Hcs ltac:(lia))
      as (d' & Ed' & Hout & Hmap).
    exists d'. cbn [bm25_dict_from]. rewrite Es. split; [exact Ed'|]. split.
    + intros k Hk. rewrite Hout by (intros Hin; apply Hk; right; exact Hin).
      apply lookup_insert_ne. intros E. apply Hk. left. exact E.
    + rewrite (drop_S norm s i Es). cbn [length firstn combine map fst snd].
      rewrite (Hout _ Hc), lookup_insert_eq. simpl default.
      f_equal. exact Hmap.
Qed.

Lemma semantic_dict_from_absent (sem : list SearchResult.t)
    (d : gmap string float) (k : string) :
  ~ In k (map (fun r => TextChunk.id (SearchResult.chunk r)) sem) ->
  fold_left (fun d r =>
               <[TextChunk.id (SearchResult.chunk r) := SearchResult.score r]> d)
            sem d !! k = d !! k.
Proof.
  revert d. induction sem as [|r sem IH]; intros d Hk; simpl; [reflexivity|].
  rewrite IH by (intros Hin; apply Hk; right; exact Hin).
  apply lookup_insert_ne. intros E. apply Hk. left. exact E.
Qed.

(** A chunk that the semantic search did not return has no entry in the
    semantic dictionary. *)
Lemma semantic_dict_absent (sem : list SearchResult.t) (k : string) :
  ~ In k (map (fun r => TextChunk.id (SearchResult.chunk r)) sem) ->
  semantic_dict sem !! k = None.
Proof.
  intros Hk. unfold semantic_dict. rewrite semantic_dict_from_absent by exact Hk.
  apply lookup_empty.
Qed.

(** A chunk that the semantic search returned once has its score there. *)
Lemma semantic_dict_present (sem : list SearchResult.t) (r : SearchResult.t) :
  List.NoDup (map (fun r => TextChunk.id (SearchResult.chunk r)) sem) ->
  In r sem ->
  semantic_dict sem !! TextChunk.id (SearchResult.chunk r) =
  Some (SearchResult.score r).
Proof.
  unfold semantic_dict. generalize (∅ : gmap string float).
  induction sem as [|r' sem IH]; intros d Hnd Hin; [contradiction|].
  inversion Hnd as [|? ? Hr' Hsem]; subst. simpl. destruct Hin as [->|Hin].
  - rewrite semantic_dict_from_absent by exact Hr'. apply lookup_insert_eq.
  - apply IH; assumption.
Qed.

Lemma dict_set_fresh {V} (k : string) (v : V) (d : list (string * V)) :
  ~ In k (map fst d) -> dict_set k v d = d ++ [(k, v)].
Proof.
  induction d as [|[k' v'] d IH]; intros Hk; simpl; [reflexivity|].
  destruct (String.eqb_spec k' k) as [E|_].
  - exfalso. apply Hk. left. exact E.
  - rewrite IH by (intros Hin; apply Hk; right; exact Hin). reflexivity.
Qed.

(** With distinct ids the dictionary of combined results holds one entry per
    chunk, in the order of the chunks. *)
Lemma fold_dict_set_distinct {V} (g : TextChunk.t -> V)
    (all_chunks : list TextChunk.t) (d : list (string * V)) :
  List.NoDup (map TextChunk.id all_chunks) ->
  (forall c, In c all_chunks -> ~ In (TextChunk.id c) (map fst d)) ->
  fold_left (fun d chunk => dict_set (TextChunk.id chunk) (g chunk) d)
            all_chunks d =
  d ++ map (fun c => (TextChunk.id c, g c)) all_chunks.
Proof.
  revert d. induction all_chunks as [|c cs IH]; intros d Hnd Hfresh; simpl.
  - rewrite app_nil_r. reflexivity.
  - inversion Hnd as [|? ? Hc Hcs]; subst.
    rewrite dict_set_fresh by (apply Hfresh; left; reflexivity).
    rewrite IH; [rewrite <- app_assoc; reflexivity | exact Hcs |].
    intros c' Hc'. rewrite map_app, in_app_iff. simpl.
    intros [Hin|[E|[]]].
    + apply (Hfresh c'); [right; exact Hc'|exact Hin].
    + apply Hc. rewrite E. apply in_map. exact Hc'.
Qed.

Lemma search_hybrid_nonempty (self : VectorStore) (q : Qdrant)
    (policy_id query : string) (limit : option Z) (bm25_weight : float)
    (c : TextChunk.t) (cs : list TextChunk.t) :
  _get_all_chunks self q policy_id = c :: cs ->
  search_hybrid self q policy_id query limit bm25_weight =
  (let k := py_or limit (max_results (config self)) in
   let all_chunks := c :: cs in
   semantic_results ←
     search_similar_chunks self q policy_id query (Some (k * 2));
   bm25_scores_norm ←
     bm25_normalize
       (BM25Okapi_get_scores (clients self)
          (map (fun chunk => lower_split (clients self) (TextChunk.text chunk))
               all_chunks)
          (lower_split (clients self) query));
   bm25_score_dict ← bm25_dict_from 0 all_chunks bm25_scores_norm ∅;
   Ok (py_slice
         (List.filter
            (fun r => (similarity_threshold (config self)
                       <=? SearchResult.score r)%float)
            (sorted_reverse SearchResult.score
               (dict_values
                  (fold_left
                     (fun d chunk =>
                        dict_set (TextChunk.id chunk)
                          {| SearchResult.chunk := chunk;
                             SearchResult.score :=
                               combined_score bm25_weight
                                 (default 0%float
                                    (bm25_score_dict !! TextChunk.id chunk))
                                 (default 0%float
                                    (semantic_dict semantic_results
                                       !! TextChunk.id chunk));
                             SearchResult.distance := None |} d)
                     all_chunks []))))
         0 k)).
Proof.
  intros E. unfold search_hybrid. rewrite E. reflexivity.
Qed.

Lemma In_firstn_incl {A} (n : nat) (l : list A) (x : A) :
  In x (firstn n l) -> In x l.
Proof.
  intros H. rewrite <- (firstn_skipn n l). apply in_or_app. left. exact H.
Qed.

Section Ranked.
Context (threshold : float) (k : Z) (scored : list SearchResult.t).

(** What the last lines of [search_hybrid] make of the scored chunks. *)
Lemma ranked_properties :
  Forall (fun r => Float64.nonnan (SearchResult.score r)) scored ->
  let results :=
    py_slice (List.filter (fun r => (threshold <=? SearchResult.score r)%float)
                          (sorted_reverse SearchResult.score scored)) 0 k in
  StronglySorted (desc SearchResult.score) results /\
  Forall (fun r => (threshold <=? SearchResult.score r)%float = true) results /\
  (forall r, In r results -> In r scored) /\
  (0 <= k -> Z.of_nat (length results) <= k).
Proof.
  intros Hnan results.
  assert (Hsub : forall r, In r results ->
            In r (List.filter
                    (fun r => (threshold <=? SearchResult.score r)%float)
                    (sorted_reverse SearchResult.score scored))).
  { intros r Hr. unfold results in Hr. rewrite py_slice_prefix in Hr.
    eapply In_firstn_incl. exact Hr. }
  repeat split.
  - unfold results. rewrite py_slice_prefix.
    apply StronglySorted_firstn_desc, StronglySorted_filter_desc,
      sorted_reverse_sorted. exact Hnan.
  - apply List.Forall_forall. intros r Hr. apply Hsub in Hr.
    apply List.filter_In in Hr. tauto.
  - intros r Hr. apply Hsub in Hr. apply List.filter_In in Hr.
    destruct Hr as [Hr _].
    eapply Permutation_in; [apply sorted_reverse_perm|exact Hr].
  - intros Hk. unfold results. rewrite py_slice_prefix_length by exact Hk. lia.
Qed.

End Ranked.




(** * Properties of the rest of the pipeline *)

(** ** [VectorDatabase]: insert, lookup, search *)

Lemma dict_get_set_eq {V} (k : string) (v : V) (d : list (string * V)) :
  dict_get k (dict_set k v d) = Some v.
Proof.
  induction d as [|[k' v'] d IH]; simpl.
  - rewrite String.eqb_refl. reflexivity.
  - destruct (String.eqb_spec k' k) as [E|Hne]; simpl.
    + rewrite String.eqb_refl. reflexivity.
    + destruct (String.eqb_spec k' k); [contradiction|exact IH].
Qed.

Lemma dict_get_set_ne {V} (k k' : string) (v : V) (d : list (string * V)) :
  k' <> k -> dict_get k' (dict_set k v d) = dict_get k' d.
Proof.
  intros Hne. induction d as [|[k0 v0] d IH]; simpl.
  - destruct (String.eqb_spec k k'); [congruence|reflexivity].
  - destruct (String.eqb_spec k0 k) as [E|Hne0]; simpl.
    + subst k0. destruct (String.eqb_spec k k'); [congruence|reflexivity].
    + destruct (String.eqb_spec k0 k'); [reflexivity|exact IH].
Qed.

Lemma dict_set_keys_present {V} (k : string) (v : V) (d : list (string * V)) :
  In k (map fst d) -> map fst (dict_set k v d) = map fst d.
Proof.
  induction d as [|[k' v'] d IH]; simpl; [tauto|].
  intros Hin. destruct (String.eqb_spec k' k) as [E|Hne]; simpl.
  - subst k'. reflexivity.
  - f_equal. apply IH. destruct Hin as [E|Hin]; [contradiction|exact Hin].
Qed.

Lemma dict_set_keys_fresh {V} (k : string) (v : V) (d : list (string * V)) :
  ~ In k (map fst d) -> map fst (dict_set k v d) = map fst d ++ [k].
Proof.
  intros Hout. rewrite dict_set_fresh by exact Hout.
  rewrite map_app. reflexivity.
Qed.

Lemma dict_set_NoDup {V} (k : string) (v : V) (d : list (string * V)) :
  List.NoDup (map fst d) -> List.NoDup (map fst (dict_set k v d)).
Proof.
  intros Hnd. destruct (in_dec string_dec k (map fst d)) as [Hin|Hout].
  - rewrite dict_set_keys_present by exact Hin. exact Hnd.
  - rewrite dict_set_keys_fresh by exact Hout.
    apply NoDup_ListNoDup, NoDup_app. apply NoDup_ListNoDup in Hnd.
    split; [exact Hnd|]. split.
    + intros x Hx Hx'. apply list_elem_of_In in Hx.
      apply list_elem_of_singleton in Hx'. subst x. contradiction.
    + apply NoDup_singleton.
Qed.

(** X1.  [insert] then [retrieve_from_key]: the inserted vector is found
    under its key, every other key keeps what it had; a key that was present
    keeps its place in the iteration order and a new one goes last, so the
    keys stay distinct. *)
Theorem insert_retrieve (self : VectorDatabase.t) (key : string)
    (vector : list float) :
  let self' := VectorDatabase.insert self key vector in
  retrieve_from_key self' key = Some vector /\
  (forall other, other <> key ->
     retrieve_from_key self' other = retrieve_from_key self other) /\
  (In key (map fst (VectorDatabase.vectors self)) ->
   map fst (VectorDatabase.vectors self') =
   map fst (VectorDatabase.vectors self)) /\
  (~ In key (map fst (VectorDatabase.vectors self)) ->
   map fst (VectorDatabase.vectors self') =
   map fst (VectorDatabase.vectors self) ++ [key]) /\
  (List.NoDup (map fst (VectorDatabase.vectors self)) ->
   List.NoDup (map fst (VectorDatabase.vectors self'))).
Proof.
  intros self'. unfold self', retrieve_from_key, VectorDatabase.insert. simpl.
  split; [apply dict_get_set_eq|].
  split; [intros other Hne; apply dict_get_set_ne; exact Hne|].
  split; [apply dict_set_keys_present|].
  split; [apply dict_set_keys_fresh | apply dict_set_NoDup].
Qed.

Lemma insert_retrieve_witness :
  retrieve_from_key (VectorDatabase.insert demo_db "banana" [1; 1]%float)
    "banana" = Some [1; 1]%float /\
  retrieve_from_key (VectorDatabase.insert demo_db "banana" [1; 1]%float)
    "kitten" = Some [0; 1]%float /\
  map fst (VectorDatabase.vectors
             (VectorDatabase.insert demo_db "banana" [1; 1]%float)) =
    ["kitten"; "banana"; "broccoli"].
Proof.
  destruct (insert_retrieve demo_db "banana" [1; 1]%float)
    as (Hget & Hother & Hkeys & _ & _).
  split; [exact Hget|]. split.
  - rewrite Hother by discriminate. reflexivity.
  - rewrite Hkeys; [reflexivity|]. right. left. reflexivity.
Defined.

Lemma search_unfold (self : VectorDatabase.t) (query_vector : list float)
    (k : Z) (distance_measure : list float -> list float -> result float) :
  1 <= k ->
  VectorDatabase.search self query_vector k distance_measure =
  scores ← mapM (fun item : string * list float =>
                   s ← distance_measure query_vector (snd item);
                   Ok (fst item, s))
                (VectorDatabase.vectors self);
  Ok (firstn (Z.to_nat k) (sorted_reverse snd scores)).
Proof.
  intros Hk. unfold VectorDatabase.search.
  destruct (Z.leb_spec k 0) as [|_]; [lia|].
  destruct (mapM _ _) as [scores|e]; [|reflexivity]. simpl.
  rewrite py_slice_prefix. f_equal.
  unfold clamp_index. destruct (Z.ltb_spec k 0) as [|_]; [lia|].
  destruct (Z_le_gt_dec k (Z.of_nat (length (sorted_reverse snd scores)))).
  - rewrite Z.min_l by lia. reflexivity.
  - rewrite Z.min_r by lia. rewrite Nat2Z.id.
    rewrite !firstn_all2; trivial; lia.
Qed.

(** X2.  Top-k monotonicity: whenever [search] answers for a limit [k'],
    it answers for every smaller limit [k >= 1] with the first [k] items of
    that answer, ranked identically. *)
Theorem search_prefix (self : VectorDatabase.t) (query_vector : list float)
    (k k' : Z) (distance_measure : list float -> list float -> result float)
    (results' : list (string * float)) :
  1 <= k <= k' ->
  VectorDatabase.search self query_vector k' distance_measure = Ok results' ->
  VectorDatabase.search self query_vector k distance_measure =
    Ok (firstn (Z.to_nat k) results').
Proof.
  intros Hk. rewrite !search_unfold by lia.
  destruct (mapM _ _) as [scores|e]; simpl; [|discriminate].
  intros E. injection E as <-. f_equal.
  rewrite firstn_firstn. f_equal. lia.
Qed.

Lemma search_prefix_witness :
  VectorDatabase.search demo_db [1; 0]%float 2 cosine_similarity =
  Ok (firstn 2 [("broccoli", 1%float); ("banana", 0x1.3333333333333p-1%float);
                ("kitten", 0%float)]).
Proof.
  apply (search_prefix demo_db [1; 0]%float 2 3 cosine_similarity); [lia|].
  vm_compute. reflexivity.
Defined.

(** X3.  When the measure scores every stored vector with a number that is
    not NaN and the database is not empty, the first result of [search] is a
    best match: no stored vector scores higher.  With [k] at least the
    number of stored vectors, every stored key is returned exactly once. *)
Theorem search_best_first (self : VectorDatabase.t)
    (query_vector : list float) (k : Z)
    (distance_measure : list float -> list float -> result float) :
  1 <= k ->
  VectorDatabase.vectors self <> [] ->
  Forall (fun item =>
            exists s, distance_measure query_vector (snd item) = Ok s /\
                      Float64.nonnan s)
         (VectorDatabase.vectors self) ->
  exists best rest,
    VectorDatabase.search self query_vector k distance_measure =
      Ok (best :: rest) /\
    (exists v, In (fst best, v) (VectorDatabase.vectors self) /\
               distance_measure query_vector v = Ok (snd best)) /\
    (forall key v s,
       In (key, v) (VectorDatabase.vectors self) ->
       distance_measure query_vector v = Ok s ->
       (s <=? snd best)%float = true) /\
    (Z.of_nat (length (VectorDatabase.vectors self)) <= k ->
     Permutation (map fst (best :: rest))
                 (map fst (VectorDatabase.vectors self))).
Proof.
  intros Hk Hne Hdm. rewrite search_unfold by exact Hk.
  set (f := fun item : string * list float =>
              s ← distance_measure query_vector (snd item); Ok (fst item, s)).
  assert (Hscores : exists scores,
             mapM f (VectorDatabase.vectors self) = Ok scores).
  { apply mapM_total. eapply Forall_impl; [exact Hdm|].
    intros item (s & Es & _). unfold f. rewrite Es. simpl. eauto. }
  destruct Hscores as [scores Escores]. rewrite Escores. simpl.
  pose proof (proj1 (mapM_Forall2 _ _ _) Escores) as HF.
  assert (Hrel : Forall2 (fun item sc =>
              fst sc = fst item /\
              distance_measure query_vector (snd item) = Ok (snd sc))
           (VectorDatabase.vectors self) scores).
  { eapply Forall2_impl; [exact HF|]. intros item sc. unfold f.
    destruct (distance_measure query_vector (snd item)) as [s|e]; simpl;
      [|discriminate].
    intros E. injection E as <-. split; reflexivity. }
  assert (Hnan : Forall (fun sc => Float64.nonnan (snd sc)) scores).
  { clear -Hrel Hdm. induction Hrel as [|item sc l l' [_ Hsc] _ IH].
    - constructor.
    - inversion Hdm as [|? ? (s & Es & Hs) Hl]; subst.
      constructor; [|apply IH; exact Hl].
      rewrite Es in Hsc. injection Hsc as ->. exact Hs. }
  pose proof (sorted_reverse_sorted snd scores Hnan) as Hsorted.
  pose proof (sorted_reverse_perm snd scores) as Hperm.
  assert (Hlen : length scores = length (VectorDatabase.vectors self))
    by (symmetry; eapply Forall2_length; exact Hrel).
  destruct (sorted_reverse snd scores) as [|best sorted'] eqn:Esorted.
  { apply Permutation_length in Hperm. simpl in Hperm.
    destruct (VectorDatabase.vectors self); [congruence|].
    simpl in Hlen. lia. }
  destruct (Z.to_nat k) as [|k0] eqn:Ek; [lia|]. simpl firstn.
  exists best, (firstn k0 sorted'). split; [reflexivity|].
  assert (Hin_scores : forall sc, In sc scores ->
            exists item, In item (VectorDatabase.vectors self) /\
                         fst sc = fst item /\
                         distance_measure query_vector (snd item) = Ok (snd sc)).
  { clear -Hrel. induction Hrel as [|item sc l l' Hsc _ IH]; [intros ? []|].
    intros sc' [<-|Hin].
    - exists item. split; [left; reflexivity|exact Hsc].
    - destruct (IH sc' Hin) as (item' & Hi & Hp). exists item'.
      split; [right; exact Hi|exact Hp]. }
  assert (Hin_items : forall item, In item (VectorDatabase.vectors self) ->
            exists sc, In sc scores /\
                       distance_measure query_vector (snd item) = Ok (snd sc)).
  { clear -Hrel. induction Hrel as [|item sc l l' Hsc _ IH]; [intros ? []|].
    intros item' [<-|Hin].
    - exists sc. split; [left; reflexivity|apply Hsc].
    - destruct (IH item' Hin) as (sc' & Hi & Hp). exists sc'.
      split; [right; exact Hi|exact Hp]. }
  split; [|split].
  - destruct (Hin_scores best) as ([key v] & Hitem & Hkey & Hs).
    { eapply Permutation_in; [exact Hperm|left; reflexivity]. }
    exists v. simpl in Hkey, Hs. rewrite Hkey. split; assumption.
  - intros key v s Hitem Hs.
    destruct (Hin_items (key, v) Hitem) as (sc & Hsc & Hs').
    simpl in Hs'. rewrite Hs in Hs'. injection Hs' as ->.
    apply Permutation_sym in Hperm.
    pose proof (Permutation_in _ Hperm Hsc) as [<-|Hin'].
    + apply Float64Facts.leb_refl.
      rewrite List.Forall_forall in Hnan. apply Hnan. exact Hsc.
    + inversion Hsorted as [|? ? _ Hall]; subst.
      rewrite List.Forall_forall in Hall. apply (Hall sc Hin').
  - intros Hall.
    assert (Efirst : firstn k0 sorted' = sorted').
    { apply firstn_all2. apply Permutation_length in Hperm. simpl in Hperm.
      lia. }
    rewrite Efirst.
    transitivity (map fst scores);
      [apply (Permutation_map fst) in Hperm; exact Hperm|].
    assert (Ekeys : map fst scores = map fst (VectorDatabase.vectors self)).
    { clear -Hrel. induction Hrel as [|item sc l l' [Hk _] _ IH]; simpl;
        [reflexivity|]. rewrite Hk, IH. reflexivity. }
    rewrite Ekeys. reflexivity.
Qed.

Lemma search_best_first_witness :
  exists best rest,
    VectorDatabase.search demo_db [1; 0]%float 5 cosine_similarity =
      Ok (best :: rest) /\
    fst best = "broccoli" /\
    Permutation (map fst (best :: rest)) ["kitten"; "banana"; "broccoli"].
Proof.
  destruct (search_best_first demo_db [1; 0]%float 5 cosine_similarity)
    as (best & rest & Erun & _ & _ & Hperm).
  - lia.
  - discriminate.
  - repeat constructor; eexists; (split; [vm_compute; reflexivity|reflexivity]).
  - exists best, rest. split; [exact Erun|]. split.
    + vm_compute in Erun. injection Erun as <- _. reflexivity.
    + apply Hperm. vm_compute. discriminate.
Defined.

(** X4.  [search_by_text] embeds the query before anything else: an error
    of the embedding call is what the caller gets, even for [k <= 0]; once
    the query is embedded, the two output modes agree, the text mode giving
    the keys of the scored mode in the same order, and an error of [search]
    (such as the [ValueError] on [k]) is raised in both. *)
Theorem search_by_text_modes (self : VectorDatabase.t)
    (embedding_model : EmbeddingModel) (query_text : string) (k : Z)
    (distance_measure : list float -> list float -> result float) :
  (forall e,
     get_embedding embedding_model query_text = Raise e ->
     forall return_as_text,
       search_by_text self embedding_model query_text k distance_measure
         return_as_text = Raise e) /\
  (forall query_vector,
     get_embedding embedding_model query_text = Ok query_vector ->
     (forall results,
        VectorDatabase.search self query_vector k distance_measure =
          Ok results ->
        search_by_text self embedding_model query_text k distance_measure
          false = Ok (inl results) /\
        search_by_text self embedding_model query_text k distance_measure
          true = Ok (inr (map fst results))) /\
     (forall e,
        VectorDatabase.search self query_vector k distance_measure =
          Raise e ->
        forall return_as_text,
          search_by_text self embedding_model query_text k distance_measure
            return_as_text = Raise e)).
Proof.
  unfold search_by_text. split.
  - intros e E b. rewrite E. reflexivity.
  - intros qv E. rewrite E. simpl. split.
    + intros results Er. rewrite Er. simpl. split; reflexivity.
    + intros e Er b. rewrite Er. reflexivity.
Qed.

Lemma search_by_text_modes_witness :
  search_by_text demo_db demo_embedding_model "vegetables" 2
    cosine_similarity true = Ok (inr ["broccoli"; "banana"]) /\
  search_by_text demo_db
    {| get_embedding := fun _ => Raise (PyExc "RateLimitError" "429");
       async_get_embeddings := fun _ => Ok [] |}
    "vegetables" 0 cosine_similarity true =
    Raise (PyExc "RateLimitError" "429").
Proof.
  split.
  - destruct (search_by_text_modes demo_db demo_embedding_model "vegetables" 2
                cosine_similarity) as (_ & Hok).
    destruct (Hok [1; 0]%float eq_refl) as (Hmodes & _).
    destruct (Hmodes [("broccoli", 1%float);
                      ("banana", 0x1.3333333333333p-1%float)]) as (_ & Htext).
    + vm_compute. reflexivity.
    + exact Htext.
  - destruct (search_by_text_modes demo_db
                {| get_embedding := fun _ => Raise (PyExc "RateLimitError" "429");
                   async_get_embeddings := fun _ => Ok [] |}
                "vegetables" 0 cosine_similarity) as (Herr & _).
    apply Herr. reflexivity.
Defined.

Lemma retrieve_fold_insert (l : list (string * list float))
    (self : VectorDatabase.t) (key : string) :
  retrieve_from_key
    (fold_left (fun db te => VectorDatabase.insert db (fst te) (snd te)) l self)
    key =
  match dict_get key (rev l) with
  | Some e => Some e
  | None => retrieve_from_key self key
  end.
Proof.
  revert self. induction l as [|[t e] l IH]; intros self; simpl; [reflexivity|].
  rewrite IH.
  assert (Hrev : dict_get key (rev l ++ [(t, e)]) =
                 match dict_get key (rev l) with
                 | Some e' => Some e'
                 | None => if String.eqb t key then Some e else None
                 end).
  { generalize (rev l). intros r. induction r as [|[t' e'] r IHr]; simpl;
      [reflexivity|]. destruct (String.eqb t' key); [reflexivity|exact IHr]. }
  rewrite Hrev. destruct (dict_get key (rev l)); [reflexivity|].
  unfold retrieve_from_key. simpl.
  destruct (String.eqb_spec t key) as [E|Hne].
  - subst. apply dict_get_set_eq.
  - apply dict_get_set_ne. congruence.
Qed.

Lemma fold_insert_fresh (l : list (string * list float))
    (self : VectorDatabase.t) :
  List.NoDup (map fst l) ->
  (forall k, In k (map fst l) ->
             ~ In k (map fst (VectorDatabase.vectors self))) ->
  VectorDatabase.vectors
    (fold_left (fun db te => VectorDatabase.insert db (fst te) (snd te)) l self)
  = VectorDatabase.vectors self ++ l.
Proof.
  revert self. induction l as [|[t e] l IH]; intros self Hnd Hfresh; simpl.
  - rewrite app_nil_r. reflexivity.
  - inversion Hnd as [|? ? Ht Hl]; subst.
    rewrite IH; [| exact Hl |].
    + simpl. rewrite dict_set_fresh by (apply Hfresh; left; reflexivity).
      rewrite <- app_assoc. reflexivity.
    + intros k Hk. simpl.
      rewrite dict_set_keys_fresh by (apply Hfresh; left; reflexivity).
      rewrite in_app_iff. simpl. intros [Hin|[E|[]]].
      * apply (Hfresh k); [right; exact Hk|exact Hin].
      * subst. contradiction.
Qed.

(** X5.  [abuild_from_list] pairs the texts with the embeddings it got
    back, position by position, and stops at the shorter list without an
    error.  Afterwards a key is found with the embedding of its last
    occurrence among the paired texts, and a key that is not among them keeps
    what it had; distinct texts loaded into an empty database are stored in
    their order. *)
Theorem abuild_from_list_lookup (self : VectorDatabase.t)
    (embedding_model : EmbeddingModel) (list_of_text : list string)
    (embeddings : list (list float)) :
  async_get_embeddings embedding_model list_of_text = Ok embeddings ->
  exists self',
    abuild_from_list self embedding_model list_of_text = Ok self' /\
    (forall key,
       retrieve_from_key self' key =
       match dict_get key (rev (combine list_of_text embeddings)) with
       | Some e => Some e
       | None => retrieve_from_key self key
       end) /\
    (VectorDatabase.vectors self = [] ->
     List.NoDup (firstn (length embeddings) list_of_text) ->
     VectorDatabase.vectors self' = combine list_of_text embeddings) /\
    (List.NoDup (map fst (VectorDatabase.vectors self)) ->
     List.NoDup (map fst (VectorDatabase.vectors self'))).
Proof.
  intros Eemb. unfold abuild_from_list. rewrite Eemb. simpl.
  eexists. split; [reflexivity|]. split; [|split].
  - intros key. apply retrieve_fold_insert.
  - intros Hempty Hnd. rewrite fold_insert_fresh.
    + rewrite Hempty. reflexivity.
    + clear -Hnd. revert embeddings Hnd.
      induction list_of_text as [|t ts IH]; intros [|e es] Hnd; simpl;
        try constructor.
      * simpl in Hnd. inversion Hnd as [|? ? Ht Hts]; subst.
        intros Hin. apply Ht. clear -Hin. revert es Hin.
        induction ts as [|t' ts IH]; intros [|e' es] Hin; simpl in *;
          try contradiction.
        destruct Hin as [E|Hin]; [left; exact E|right; eapply IH; exact Hin].
      * simpl in Hnd. inversion Hnd; subst. apply IH. assumption.
    + rewrite Hempty. intros k _ [].
  - intros Hnd. generalize (combine list_of_text embeddings). intros l.
    revert self Hnd. induction l as [|[t e] l IH]; intros self Hnd; simpl;
      [exact Hnd|].
    apply IH. simpl. apply dict_set_NoDup. exact Hnd.
Qed.

Lemma abuild_from_list_lookup_witness :
  exists self',
    abuild_from_list VectorDatabase.init demo_embedding_model
      ["cats"; "dogs"; "cats"] = Ok self' /\
    retrieve_from_key self' "cats" = Some [1; 0]%float /\
    retrieve_from_key self' "birds" = None /\
    map fst (VectorDatabase.vectors self') = ["cats"; "dogs"].
Proof.
  destruct (abuild_from_list_lookup VectorDatabase.init demo_embedding_model
              ["cats"; "dogs"; "cats"]
              [[1; 0]; [1; 0]; [1; 0]]%float eq_refl)
    as (self' & Erun & Hget & _ & _).
  exists self'. split; [exact Erun|].
  split; [rewrite Hget; reflexivity|].
  split; [rewrite Hget; reflexivity|].
  vm_compute in Erun. injection Erun as <-. reflexivity.
Defined.

(** ** [CharacterTextSplitter]: sizes, overlaps, several texts *)

Lemma split_windows (self : CharacterTextSplitter) (text : list ascii) :
  0 <= chunk_size self -> 0 < chunk_size self - chunk_overlap self ->
  let step := chunk_size self - chunk_overlap self in
  split self text =
  Ok (map (fun i : nat =>
             firstn (Z.to_nat (chunk_size self))
                    (skipn (i * Z.to_nat step) text))
          (seq 0 (chunk_count (Z.of_nat (length text)) step))).
Proof.
  intros Hsize Hstep step. unfold split, py_range. fold step.
  destruct (Z.eqb_spec step 0) as [|_]; [lia|]. simpl.
  rewrite range_loop_up by (unfold step; lia).
  rewrite List.map_map. unfold chunk_count. rewrite Z.sub_0_r. f_equal.
  apply map_ext. intros i.
  rewrite py_slice_window by (unfold step; nia).
  do 2 f_equal. unfold step. nia.
Qed.

Lemma nth_error_map_seq {A} (f : nat -> A) (n i : nat) (x : A) :
  nth_error (map f (seq 0 n)) i = Some x -> (i < n)%nat /\ x = f i.
Proof.
  intros H. assert (Hi : (i < n)%nat).
  { assert (Hsome : nth_error (map f (seq 0 n)) i <> None) by congruence.
    apply nth_error_Some in Hsome.
    rewrite length_map, length_seq in Hsome. exact Hsome. }
  split; [exact Hi|].
  rewrite nth_error_map, nth_error_seq in H.
  destruct (Nat.ltb_spec i n); [|lia]. simpl in H. congruence.
Qed.

(** X6.  For a valid configuration every chunk of [split] has at least one
    and at most [chunk_size] characters, and the chunk at index [i] has
    exactly [chunk_size] of them whenever its window ends inside the text;
    there are [ceil(len(text) / step)] chunks. *)
Theorem split_chunk_sizes (self : CharacterTextSplitter) (text : list ascii) :
  0 <= chunk_overlap self < chunk_size self ->
  let step := chunk_size self - chunk_overlap self in
  exists chunks,
    split self text = Ok chunks /\
    length chunks = chunk_count (Z.of_nat (length text)) step /\
    Forall (fun c => 1 <= Z.of_nat (length c) <= chunk_size self) chunks /\
    (forall (i : nat) c,
       nth_error chunks i = Some c ->
       Z.of_nat i * step + chunk_size self <= Z.of_nat (length text) ->
       Z.of_nat (length c) = chunk_size self).
Proof.
  intros Hcfg step.
  pose proof (split_windows self text ltac:(lia) ltac:(lia)) as Hsplit.
  fold step in Hsplit.
  destruct (chunk_count_least (Z.of_nat (length text)) step) as [_ Hbelow];
    [lia | unfold step; lia |].
  eexists. split; [exact Hsplit|].
  split; [rewrite length_map, length_seq; reflexivity|]. split.
  - apply List.Forall_forall. intros c Hc.
    apply in_map_iff in Hc. destruct Hc as (i & <- & Hi).
    apply in_seq in Hi. specialize (Hbelow i ltac:(lia)).
    rewrite length_firstn, length_skipn. unfold step in *. nia.
  - intros i c Hc Hfit. apply nth_error_map_seq in Hc.
    destruct Hc as [_ ->].
    rewrite length_firstn, length_skipn. unfold step in *. nia.
Qed.

Lemma split_chunk_sizes_witness :
  exists chunks,
    split {| chunk_size := 4; chunk_overlap := 1 |}
          (list_ascii_of_string "abcdefgh") = Ok chunks /\
    length chunks = 3%nat /\
    Forall (fun c => 1 <= Z.of_nat (length c) <= 4) chunks.
Proof.
  destruct (split_chunk_sizes {| chunk_size := 4; chunk_overlap := 1 |}
              (list_ascii_of_string "abcdefgh"))
    as (chunks & Erun & Hlen & Hsizes & _); [simpl; lia|].
  exists chunks. split; [exact Erun|]. split; [exact Hlen|exact Hsizes].
Defined.



(** X8.  A text no longer than one step comes back as a single chunk, the
    text itself; the empty text gives no chunk at all. *)
Theorem split_short_text (self : CharacterTextSplitter) (text : list ascii) :
  0 <= chunk_overlap self < chunk_size self ->
  Z.of_nat (length text) <= chunk_size self - chunk_overlap self ->
  split self text = Ok (match text with [] => [] | _ :: _ => [text] end).
Proof.
  intros Hcfg Hshort.
  rewrite (split_windows self text) by lia.
  set (step := chunk_size self - chunk_overlap self) in *.
  destruct text as [|a text].
  - unfold chunk_count. simpl length.
    rewrite Z.div_small by (unfold step; lia). reflexivity.
  - assert (Hcount : chunk_count (Z.of_nat (length (a :: text))) step = 1%nat).
    { unfold chunk_count.
      replace ((Z.of_nat (length (a :: text)) + step - 1) / step) with 1;
        [reflexivity|].
      apply Z.div_unique with
        (r := Z.of_nat (length (a :: text)) - 1); simpl length in *; lia. }
    rewrite Hcount. cbn [seq map]. rewrite Nat.mul_0_l. cbn [skipn].
    rewrite firstn_all2 by (simpl length in *; lia). reflexivity.
Qed.

Lemma split_short_text_witness :
  split {| chunk_size := 1000; chunk_overlap := 200 |}
        (list_ascii_of_string "short text") =
  Ok [list_ascii_of_string "short text"].
Proof.
  apply (split_short_text {| chunk_size := 1000; chunk_overlap := 200 |}
           (list_ascii_of_string "short text")); simpl; lia.
Defined.

Lemma split_texts_from (self : CharacterTextSplitter)
    (texts : list (list ascii)) (acc : list (list ascii))
    (css : list (list (list ascii))) :
  Forall2 (fun text cs => split self text = Ok cs) texts css ->
  fold_left
    (fun acc text => chunks ← acc; more ← split self text; Ok (chunks ++ more))
    texts (Ok acc) = Ok (acc ++ concat css).
Proof.
  intros HF. revert acc. induction HF as [|text cs texts css Hs _ IH];
    intros acc; simpl.
  - rewrite app_nil_r. reflexivity.
  - rewrite Hs. simpl. rewrite IH, app_assoc. reflexivity.
Qed.

(** X9.  For a valid configuration [split_texts] is the concatenation, in
    order, of the chunks of each text: no chunk spans two texts, and the
    number of chunks is the sum over the texts. *)
Theorem split_texts_concat (self : CharacterTextSplitter)
    (texts : list (list ascii)) :
  0 <= chunk_overlap self < chunk_size self ->
  let step := chunk_size self - chunk_overlap self in
  exists css,
    Forall2 (fun text cs => split self text = Ok cs) texts css /\
    split_texts self texts = Ok (concat css) /\
    length (concat css) =
      list_sum (map (fun text => chunk_count (Z.of_nat (length text)) step)
                    texts).
Proof.
  intros Hcfg step.
  exists (map (fun text =>
                 map (fun i : nat =>
                        firstn (Z.to_nat (chunk_size self))
                               (skipn (i * Z.to_nat step) text))
                     (seq 0 (chunk_count (Z.of_nat (length text)) step)))
              texts).
  assert (HF : Forall2 (fun text cs => split self text = Ok cs) texts
                 (map (fun text =>
                         map (fun i : nat =>
                                firstn (Z.to_nat (chunk_size self))
                                       (skipn (i * Z.to_nat step) text))
                             (seq 0 (chunk_count (Z.of_nat (length text)) step)))
                      texts)).
  { induction texts as [|text texts IH]; simpl; constructor; [|exact IH].
    apply split_windows; lia. }
  split; [exact HF|]. split.
  - unfold split_texts. rewrite (split_texts_from _ _ _ _ HF). reflexivity.
  - clear HF. induction texts as [|text texts IH]; simpl; [reflexivity|].
    rewrite length_app, IH, length_map, length_seq. reflexivity.
Qed.

Lemma split_texts_concat_witness :
  exists css,
    split_texts {| chunk_size := 4; chunk_overlap := 1 |}
      [list_ascii_of_string "abcdefgh"; list_ascii_of_string "xy"] =
      Ok (concat css) /\
    length (concat css) = 4%nat.
Proof.
  destruct (split_texts_concat {| chunk_size := 4; chunk_overlap := 1 |}
              [list_ascii_of_string "abcdefgh"; list_ascii_of_string "xy"])
    as (css & _ & Erun & Hlen); [simpl; lia|].
  exists css. split; [exact Erun|]. rewrite Hlen. reflexivity.
Defined.

Section DisjointWindows.
Context {A : Type} (text : list A) (size step : nat).
Hypothesis Hgap : (size < step)%nat.

(** Windows that start [step] apart and are shorter than [step] do not
    overlap: together they hold no more than what is left of the text. *)
Lemma windows_length_le (p m : nat) :
  (length (concat (map (fun j => firstn size (skipn (p + j * step) text))
                       (seq 0 m)))
   <= length text - p)%nat.
Proof.
  revert p. induction m as [|m IH]; intros p; [simpl; lia|].
  rewrite <- cons_seq. simpl map. simpl concat.
  rewrite <- seq_shift, List.map_map, length_app.
  erewrite map_ext;
    [|intros j; replace (p + S j * step)%nat with (p + step + j * step)%nat
        by lia; reflexivity].
  specialize (IH (p + step)%nat).
  rewrite Nat.add_0_r, length_firstn, length_skipn. lia.
Qed.

Lemma windows_length_lt (m : nat) :
  (size < length text)%nat ->
  (length (concat (map (fun j => firstn size (skipn (j * step) text))
                       (seq 0 m)))
   < length text)%nat.
Proof.
  intros Hlong. destruct m as [|m]; [simpl; lia|].
  rewrite <- cons_seq. simpl map. simpl concat.
  rewrite <- seq_shift, List.map_map, length_app.
  erewrite map_ext;
    [|intros j; replace (S j * step)%nat with (step + j * step)%nat by lia;
      reflexivity].
  pose proof (windows_length_le step m) as Hrest.
  rewrite length_firstn. simpl skipn. lia.
Qed.

End DisjointWindows.

(** X10.  [__init__] raises [ValueError] exactly when
    [chunk_size <= chunk_overlap], so a negative overlap is accepted; with a
    negative overlap the chunks of [split] leave characters out: on every
    text longer than [chunk_size] they hold, taken together, fewer
    characters than the text. *)
Theorem negative_overlap_drops_text (size overlap : Z) (text : list ascii) :
  (CharacterTextSplitter_init size overlap =
     Raise (ValueError "Chunk size must be greater than chunk overlap") <->
   size <= overlap) /\
  (overlap < size ->
   CharacterTextSplitter_init size overlap =
     Ok {| chunk_size := size; chunk_overlap := overlap |}) /\
  (overlap < 0 < size -> size < Z.of_nat (length text) ->
   exists chunks,
     split {| chunk_size := size; chunk_overlap := overlap |} text =
       Ok chunks /\
     (length (concat chunks) < length text)%nat).
Proof.
  unfold CharacterTextSplitter_init. split; [|split].
  - destruct (Z.leb_spec size overlap); split; trivial; try lia; discriminate.
  - intros H. destruct (Z.leb_spec size overlap); [lia|reflexivity].
  - intros Hneg Hlong.
    rewrite split_windows by (simpl; lia). simpl chunk_size.
    simpl chunk_overlap. eexists. split; [reflexivity|].
    apply windows_length_lt; lia.
Qed.

Lemma negative_overlap_drops_text_witness :
  exists chunks,
    split {| chunk_size := 2; chunk_overlap := -1 |}
          (list_ascii_of_string "abcdef") = Ok chunks /\
    chunks = [list_ascii_of_string "ab"; list_ascii_of_string "de"] /\
    (length (concat chunks) < 6)%nat.
Proof.
  destruct (negative_overlap_drops_text 2 (-1) (list_ascii_of_string "abcdef"))
    as (_ & _ & Hdrop).
  destruct Hdrop as (chunks & Erun & Hlen); [lia | simpl; lia |].
  exists chunks. split; [exact Erun|]. split; [|exact Hlen].
  vm_compute in Erun. injection Erun as <-. reflexivity.
Defined.

(** ** [_find_page_number] and [chunk_text] *)

Lemma length_append (s1 s2 : string) :
  String.length (s1 +:+ s2) = (String.length s1 + String.length s2)%nat.
Proof. induction s1 as [|a s1 IH]; simpl; [reflexivity|]. rewrite IH. reflexivity. Qed.

Lemma find_page_loop_in_page (text_data : list PageData) (j : nat)
    (page : PageData) (i current : Z) :
  nth_error text_data j = Some page ->
  0 <= i < Z.of_nat (String.length (page_text page)) ->
  find_page_loop text_data (current + Z.of_nat (page_start text_data j) + i)
    current = Some (page_number page).
Proof.
  revert j current. induction text_data as [|p ps IH]; intros j current Hj Hi.
  - destruct j; discriminate.
  - destruct j as [|j]; simpl in Hj.
    + injection Hj as ->. unfold page_start. cbn [firstn map list_sum fold_right].
      cbn [find_page_loop].
      rewrite (proj2 (Z.leb_le _ _)) by lia.
      rewrite (proj2 (Z.ltb_lt _ _)) by lia. reflexivity.
    + cbn [find_page_loop].
      assert (Hstart : Z.of_nat (page_start (p :: ps) (S j)) =
                Z.of_nat (String.length (page_text p)) + 2 +
                Z.of_nat (page_start ps j)).
      { unfold page_start. simpl. lia. }
      rewrite Hstart.
      rewrite (proj2 (Z.ltb_ge _ _)) by lia. rewrite andb_false_r.
      rewrite <- (IH j (current + Z.of_nat (String.length (page_text p)) + 2)
                    Hj Hi).
      f_equal. lia.
Qed.

Lemma get_concat_page (text_data : list PageData) (j : nat)
    (page : PageData) (i : nat) (sep : string) :
  String.length sep = 2%nat ->
  nth_error text_data j = Some page ->
  (i < String.length (page_text page))%nat ->
  String.get (page_start text_data j + i)
             (String.concat sep (map page_text text_data)) =
  String.get i (page_text page).
Proof.
  intros Hsep. revert j. induction text_data as [|p ps IH]; intros j Hj Hi.
  - destruct j; discriminate.
  - destruct j as [|j]; simpl in Hj.
    + injection Hj as ->. unfold page_start. simpl.
      destruct ps; [reflexivity|]. symmetry. apply append_correct1. exact Hi.
    + destruct ps as [|p' ps']; [destruct j; discriminate|].
      change (String.concat sep (map page_text (p :: p' :: ps')))
        with (page_text p +:+ sep +:+
              String.concat sep (map page_text (p' :: ps'))).
      replace (page_start (p :: p' :: ps') (S j) + i)%nat
        with ((page_start (p' :: ps') j + i + String.length sep) +
              String.length (page_text p))%nat
        by (unfold page_start; simpl; lia).
      rewrite <- append_correct2, <- append_correct2.
      apply IH; assumption.
Qed.

(** X11.  The page found for a character of the combined text is the page
    the character comes from: at offset [page_start j + i] the combined text
    holds character [i] of page [j]'s text, and [_find_page_number] answers
    page [j]'s number there. *)
Theorem find_page_number_in_page (text_data : list PageData) (j i : nat)
    (page : PageData) :
  nth_error text_data j = Some page ->
  (i < String.length (page_text page))%nat ->
  let all_text :=
    String.concat (newline +:+ newline) (map page_text text_data) in
  let char_offset := (page_start text_data j + i)%nat in
  String.get char_offset all_text = String.get i (page_text page) /\
  _find_page_number text_data (Z.of_nat char_offset) = page_number page.
Proof.
  intros Hj Hi all_text char_offset. split.
  - apply get_concat_page; trivial.
  - unfold _find_page_number, char_offset.
    pose proof (find_page_loop_in_page text_data j page (Z.of_nat i) 0 Hj
                  ltac:(lia)) as Hloop.
    replace (Z.of_nat (page_start text_data j + i))
      with (0 + Z.of_nat (page_start text_data j) + Z.of_nat i) by lia.
    rewrite Hloop. reflexivity.
Qed.

Lemma find_page_number_in_page_witness :
  String.get 10 (String.concat (newline +:+ newline)
                               (map page_text demo_pages)) = Some "t"%char /\
  _find_page_number demo_pages 10 = 3.
Proof.
  destruct (find_page_number_in_page demo_pages 1 3
              {| page_number := 3; page_text := "waiting periods" |})
    as (Hget & Hpage); [reflexivity | simpl; lia |].
  split; [exact Hget | exact Hpage].
Defined.

Lemma find_page_loop_outside (text_data : list PageData)
    (char_offset current : Z) :
  char_offset < current ->
  find_page_loop text_data char_offset current = None.
Proof.
  revert current. induction text_data as [|p ps IH]; intros current Hlt;
    simpl; [reflexivity|].
  destruct (Z.leb_spec current char_offset); [lia|]. simpl.
  apply IH. lia.
Qed.

Lemma find_page_loop_past (text_data : list PageData)
    (char_offset current : Z) :
  current + Z.of_nat (page_start text_data (length text_data)) - 2
    <= char_offset ->
  find_page_loop text_data char_offset current = None.
Proof.
  revert current. induction text_data as [|p ps IH]; intros current Hge;
    simpl; [reflexivity|].
  assert (Hstart : Z.of_nat (page_start (p :: ps) (length (p :: ps))) =
            Z.of_nat (String.length (page_text p)) + 2 +
            Z.of_nat (page_start ps (length ps))).
  { unfold page_start. simpl. lia. }
  rewrite Hstart in Hge.
  destruct (Z.ltb_spec char_offset
              (current + Z.of_nat (String.length (page_text p)))); [lia|].
  rewrite andb_false_r. apply IH. lia.
Qed.

Lemma find_page_loop_some (text_data : list PageData)
    (char_offset current page : Z) :
  find_page_loop text_data char_offset current = Some page ->
  In page (map page_number text_data).
Proof.
  revert current. induction text_data as [|p ps IH]; intros current;
    simpl; [discriminate|].
  destruct (_ && _).
  - intros E. injection E as <-. left. reflexivity.
  - intros E. right. eapply IH. exact E.
Qed.

Lemma length_concat_pages (text_data : list PageData) (sep : string) :
  String.length sep = 2%nat -> text_data <> [] ->
  String.length (String.concat sep (map page_text text_data)) =
  (page_start text_data (length text_data) - 2)%nat.
Proof.
  intros Hsep Hne. induction text_data as [|p ps IH]; [congruence|].
  destruct ps as [|p' ps'].
  - unfold page_start. simpl. lia.
  - change (String.concat sep (map page_text (p :: p' :: ps')))
      with (page_text p +:+ sep +:+
            String.concat sep (map page_text (p' :: ps'))).
    rewrite !length_append, IH by discriminate.
    unfold page_start. simpl. lia.
Qed.



Lemma append_inv_head (s a b : string) : s +:+ a = s +:+ b -> a = b.
Proof.
  induction s as [|c s IH]; simpl; [trivial|].
  intros E. injection E as E. apply IH. exact E.
Qed.

Lemma text_chunks_from_nth (tools : ChunkingTools) (text_data : list PageData)
    (all_text filename strategy : string) (i : nat)
    (langchain_chunks : list string) (n : nat) (c : TextChunk.t) :
  nth_error (text_chunks_from tools text_data all_text filename strategy i
               langchain_chunks) n = Some c ->
  exists page_content,
    nth_error langchain_chunks n = Some page_content /\
    c = {| TextChunk.id :=
             filename +:+ "_" +:+ strategy +:+ "_" +:+ pretty (i + n)%nat;
           TextChunk.text := page_content;
           TextChunk.page :=
             _find_page_number text_data (py_find all_text page_content);
           TextChunk.chunk_index := Z.of_nat (i + n);
           TextChunk.token_count := token_length tools page_content;
           TextChunk.start_char := None;
           TextChunk.end_char := None |}.
Proof.
  revert i n. induction langchain_chunks as [|pc rest IH]; intros i n;
    simpl.
  - destruct n; discriminate.
  - destruct n as [|n]; simpl.
    + intros E. injection E as <-. exists pc. rewrite Nat.add_0_r.
      split; reflexivity.
    + intros E. destruct (IH (S i) n E) as (pc' & Hpc & ->).
      exists pc'. split; [exact Hpc|].
      replace (S i + n)%nat with (i + S n)%nat by lia. reflexivity.
Qed.

Lemma text_chunks_from_length (tools : ChunkingTools)
    (text_data : list PageData) (all_text filename strategy : string)
    (i : nat) (langchain_chunks : list string) :
  length (text_chunks_from tools text_data all_text filename strategy i
            langchain_chunks) = length langchain_chunks.
Proof.
  revert i. induction langchain_chunks as [|pc rest IH]; intros i; simpl;
    [reflexivity|]. rewrite IH. reflexivity.
Qed.

Lemma text_chunks_from_ids (tools : ChunkingTools) (text_data : list PageData)
    (all_text filename strategy : string) (i : nat)
    (langchain_chunks : list string) :
  map TextChunk.id
      (text_chunks_from tools text_data all_text filename strategy i
         langchain_chunks) =
  map (fun k : nat => filename +:+ "_" +:+ strategy +:+ "_" +:+ pretty k)
      (seq i (length langchain_chunks)).
Proof.
  revert i. induction langchain_chunks as [|pc rest IH]; intros i; simpl;
    [reflexivity|]. rewrite IH. reflexivity.
Qed.

Lemma chunk_ids_NoDup (filename strategy : string) (i n : nat) :
  List.NoDup
    (map (fun k : nat => filename +:+ "_" +:+ strategy +:+ "_" +:+ pretty k)
         (seq i n)).
Proof.
  apply NoDup_ListNoDup. apply NoDup_fmap_2; [|apply NoDup_seq].
  intros a b E.
  do 4 apply append_inv_head in E. apply (inj pretty) in E. exact E.
Qed.

(** X13.  [chunk_text] accepts the strategy names ["semantic"] and
    ["paragraph"] and no other: any other name raises [ValueError] with the
    message that lists the two, whatever the pages and before the text is
    joined or split. *)
Theorem chunk_text_strategy (tools : ChunkingTools)
    (text_data : list PageData) (filename strategy : string) :
  (strategy <> "semantic" -> strategy <> "paragraph" ->
   chunk_text tools text_data filename strategy =
     Raise (ValueError ("Unknown strategy '" +:+ strategy +:+
                        "'. Available: semantic, paragraph"))) /\
  (strategy = "semantic" \/ strategy = "paragraph" ->
   exists chunks, chunk_text tools text_data filename strategy = Ok chunks).
Proof.
  unfold chunk_text, CHUNKING_STRATEGIES. cbn [dict_get]. split.
  - intros H1 H2.
    destruct (String.eqb_spec "semantic" strategy) as [E|_]; [congruence|].
    destruct (String.eqb_spec "paragraph" strategy) as [E|_]; [congruence|].
    reflexivity.
  - intros [-> | ->]; cbn; eexists; reflexivity.
Qed.

Lemma chunk_text_strategy_witness :
  chunk_text (demo_tools ["cover"]) demo_pages "policy.pdf" "recursive" =
    Raise (ValueError
             "Unknown strategy 'recursive'. Available: semantic, paragraph") /\
  exists chunks,
    chunk_text (demo_tools ["cover"]) demo_pages "policy.pdf" "paragraph" =
      Ok chunks.
Proof.
  destruct (chunk_text_strategy (demo_tools ["cover"]) demo_pages
              "policy.pdf" "recursive") as (Hbad & _).
  destruct (chunk_text_strategy (demo_tools ["cover"]) demo_pages
              "policy.pdf" "paragraph") as (_ & Hgood).
  split; [apply Hbad; discriminate | apply Hgood; right; reflexivity].
Defined.

(** X14.  For a known strategy [chunk_text] returns one chunk per piece of
    the splitter, in order: the chunk at position [i] carries the piece as
    its text, [i] as its [chunk_index], the id [filename_strategy_i], the
    piece's token count, and the page found for the first occurrence of the
    piece in the combined text.  The ids of the chunks are pairwise
    distinct. *)
Theorem chunk_text_chunks (tools : ChunkingTools) (text_data : list PageData)
    (filename strategy : string) (config : ChunkingStrategy) :
  dict_get strategy CHUNKING_STRATEGIES = Some config ->
  let all_text :=
    String.concat (newline +:+ newline) (map page_text text_data) in
  let pieces := create_documents tools config all_text in
  exists chunks,
    chunk_text tools text_data filename strategy = Ok chunks /\
    length chunks = length pieces /\
    (forall (i : nat) c,
       nth_error chunks i = Some c ->
       nth_error pieces i = Some (TextChunk.text c) /\
       TextChunk.chunk_index c = Z.of_nat i /\
       TextChunk.id c =
         filename +:+ "_" +:+ strategy +:+ "_" +:+ pretty i /\
       TextChunk.token_count c = token_length tools (TextChunk.text c) /\
       TextChunk.page c =
         _find_page_number text_data (py_find all_text (TextChunk.text c))) /\
    List.NoDup (map TextChunk.id chunks).
Proof.
  intros Hcfg all_text pieces. unfold chunk_text. rewrite Hcfg.
  fold all_text. fold pieces. eexists. split; [reflexivity|].
  split; [apply text_chunks_from_length|]. split.
  - intros i c Hc. apply text_chunks_from_nth in Hc.
    destruct Hc as (pc & Hpc & ->). simpl. repeat split; trivial.
  - rewrite text_chunks_from_ids. apply chunk_ids_NoDup.
Qed.

Lemma chunk_text_chunks_witness :
  exists chunks,
    chunk_text (demo_tools ["cover"; "periods"; "unseen"]) demo_pages
      "policy.pdf" "semantic" = Ok chunks /\
    map TextChunk.id chunks =
      ["policy.pdf_semantic_0"; "policy.pdf_semantic_1";
       "policy.pdf_semantic_2"] /\
    map TextChunk.page chunks = [1; 3; 1] /\
    List.NoDup (map TextChunk.id chunks).
Proof.
  destruct (chunk_text_chunks (demo_tools ["cover"; "periods"; "unseen"])
              demo_pages "policy.pdf" "semantic")
    with (config := {| strategy_chunk_size := 512;
                       strategy_chunk_overlap := 50;
                       strategy_separators :=
                         [newline +:+ newline; newline; ". "; " "; ""];
                       strategy_description :=
                         "Fixed-size chunks with standard separators" |})
    as (chunks & Erun & _ & _ & Hnd); [reflexivity|].
  exists chunks. split; [exact Erun|].
  vm_compute in Erun. injection Erun as <-.
  split; [reflexivity|]. split; [reflexivity|]. exact Hnd.
Defined.

(** ** [VectorStore]: collections and stored chunks *)

Lemma collection_name_of_inj (self : VectorStore) (a b : string) :
  collection_name_of self a = collection_name_of self b -> a = b.
Proof. unfold collection_name_of. apply append_inv_head. Qed.

Lemma get_all_chunks_lookup (self : VectorStore) (q q' : Qdrant)
    (policy_id : string) :
  q' !! collection_name_of self policy_id =
    q !! collection_name_of self policy_id ->
  _get_all_chunks self q' policy_id = _get_all_chunks self q policy_id.
Proof.
  intros E. unfold _get_all_chunks, collection_exists, collection_points.
  rewrite E. reflexivity.
Qed.

Lemma get_all_chunks_missing (self : VectorStore) (q : Qdrant)
    (policy_id : string) :
  q !! collection_name_of self policy_id = None ->
  _get_all_chunks self q policy_id = [].
Proof.
  intros E. unfold _get_all_chunks.
  rewrite (proj2 (collection_exists_false _ _) E). reflexivity.
Qed.

Lemma chunk_of_payload_id (c : TextChunk.t) : chunk_of_payload c = c.
Proof. destruct c. reflexivity. Qed.

Lemma drop_existing_lookup (q : Qdrant) (name other : string) :
  (if collection_exists q name then delete_collection q name else q) !! other
  = if String.eqb name other then None else q !! other.
Proof.
  destruct (String.eqb_spec name other) as [<-|Hne].
  - destruct (collection_exists q name) eqn:E.
    + apply lookup_delete_eq.
    + apply collection_exists_false. exact E.
  - destruct (collection_exists q name); [|reflexivity].
    apply lookup_delete_ne. exact Hne.
Qed.

Lemma create_policy_collection_known (self : VectorStore) (q : Qdrant)
    (policy_id : string) (dimension : Z) :
  dict_get (embedding_model (config self)) OPENAI_EMBEDDING_DIMENSIONS =
    Some dimension ->
  create_policy_collection self q policy_id =
  (<[collection_name_of self policy_id := []]>
     (if collection_exists q (collection_name_of self policy_id)
      then delete_collection q (collection_name_of self policy_id) else q),
   Ok (collection_name_of self policy_id)).
Proof.
  intros Hdim. unfold create_policy_collection, create_collection.
  rewrite Hdim. reflexivity.
Qed.

(** Replacing the collection of one policy does not touch the chunks of
    another. *)
Lemma get_all_chunks_other (self : VectorStore) (q : Qdrant)
    (policy_id other : string) (points : list PointStruct) :
  other <> policy_id ->
  _get_all_chunks self
    (<[collection_name_of self policy_id := points]>
       (if collection_exists q (collection_name_of self policy_id)
        then delete_collection q (collection_name_of self policy_id) else q))
    other = _get_all_chunks self q other.
Proof.
  intros Hne. apply get_all_chunks_lookup.
  assert (Hnames : collection_name_of self policy_id <>
                   collection_name_of self other).
  { intros E. apply collection_name_of_inj in E. congruence. }
  rewrite lookup_insert_ne by exact Hnames.
  rewrite drop_existing_lookup.
  destruct (String.eqb_spec (collection_name_of self policy_id)
              (collection_name_of self other)); [contradiction|reflexivity].
Qed.

(** X15.  With an embedding model of the dimension table,
    [create_policy_collection] answers the collection's name and leaves the
    policy with a collection that exists and holds nothing, whatever it held
    before; the chunks of every other policy are as before. *)
Theorem create_policy_collection_empty (self : VectorStore) (q : Qdrant)
    (policy_id : string) (dimension : Z) :
  dict_get (embedding_model (config self)) OPENAI_EMBEDDING_DIMENSIONS =
    Some dimension ->
  exists q',
    create_policy_collection self q policy_id =
      (q', Ok (collection_name_of self policy_id)) /\
    collection_exists q' (collection_name_of self policy_id) = true /\
    _get_all_chunks self q' policy_id = [] /\
    (forall other, other <> policy_id ->
       _get_all_chunks self q' other = _get_all_chunks self q other).
Proof.
  intros Hdim.
  rewrite (create_policy_collection_known self q policy_id dimension Hdim).
  eexists. split; [reflexivity|]. split; [|split].
  - apply collection_exists_true. rewrite lookup_insert_eq. eauto.
  - rewrite (get_all_chunks_stored _ _ _ []) by apply lookup_insert_eq.
    reflexivity.
  - intros other Hne. apply get_all_chunks_other. exact Hne.
Qed.

Lemma create_policy_collection_empty_witness :
  exists q',
    create_policy_collection (demo_store [] [] (Ok [])) demo_qdrant "p" =
      (q', Ok "policy_p") /\
    _get_all_chunks (demo_store [] [] (Ok [])) q' "p" = [].
Proof.
  destruct (create_policy_collection_empty (demo_store [] [] (Ok []))
              demo_qdrant "p" 1536 eq_refl) as (q' & Erun & _ & Hempty & _).
  exists q'. split; [exact Erun | exact Hempty].
Defined.

(** X16.  With an embedding model that is not in the dimension table,
    [create_policy_collection] raises [KeyError], and it does so after the
    existing collection of the policy has been deleted: the policy is left
    without a collection, and every other policy is as before. *)
Theorem create_policy_collection_unknown_model (self : VectorStore)
    (q : Qdrant) (policy_id : string) :
  dict_get (embedding_model (config self)) OPENAI_EMBEDDING_DIMENSIONS =
    None ->
  exists q',
    create_policy_collection self q policy_id =
      (q', Raise (KeyError (embedding_model (config self)))) /\
    collection_exists q' (collection_name_of self policy_id) = false /\
    _get_all_chunks self q' policy_id = [] /\
    (forall other, other <> policy_id ->
       _get_all_chunks self q' other = _get_all_chunks self q other).
Proof.
  intros Hdim. unfold create_policy_collection. rewrite Hdim.
  eexists. split; [reflexivity|].
  assert (Hgone :
            (if collection_exists q (collection_name_of self policy_id)
             then delete_collection q (collection_name_of self policy_id)
             else q) !! collection_name_of self policy_id = None).
  { rewrite drop_existing_lookup, String.eqb_refl. reflexivity. }
  split; [apply collection_exists_false; exact Hgone|].
  split; [apply get_all_chunks_missing; exact Hgone|].
  intros other Hne. apply get_all_chunks_lookup.
  rewrite drop_existing_lookup.
  destruct (String.eqb_spec (collection_name_of self policy_id)
              (collection_name_of self other)) as [E|_]; [|reflexivity].
  apply collection_name_of_inj in E. congruence.
Qed.

Lemma create_policy_collection_unknown_model_witness :
  let self := {| config := {| collection_prefix := "policy_";
                              embedding_model := "text-embedding-4";
                              max_results := 5;
                              similarity_threshold := 0.25%float |};
                 clients := demo_clients [] [] (Ok []) |} in
  _get_all_chunks self demo_qdrant "p" = demo_chunks /\
  exists q',
    create_policy_collection self demo_qdrant "p" =
      (q', Raise (KeyError "text-embedding-4")) /\
    _get_all_chunks self q' "p" = [].
Proof.
  intros self. split; [vm_compute; reflexivity|].
  destruct (create_policy_collection_unknown_model self demo_qdrant "p"
              eq_refl) as (q' & Erun & _ & Hempty & _).
  exists q'. split; [exact Erun | exact Hempty].
Defined.

Lemma build_points_ok (self : VectorStore) (policy_id : string)
    (uuid4 : nat -> string) (i : nat) (chunks : list TextChunk.t) :
  Forall (fun c => exists v, embed_text self (TextChunk.text c) = Ok v)
         chunks ->
  exists points,
    build_points self policy_id uuid4 i chunks = Ok points /\
    map payload points = chunks /\
    map point_id points = map uuid4 (seq i (length chunks)).
Proof.
  intros Hemb. revert i. induction Hemb as [|c cs [v Ev] _ IH]; intros i.
  - exists []. repeat split.
  - destruct (IH (S i)) as (points & Ebuild & Hpay & Hids).
    eexists. cbn [build_points]. rewrite Ev. cbn [mbind result_bind].
    rewrite Ebuild. cbn [mbind result_bind]. split; [reflexivity|].
    simpl. rewrite Hpay, Hids. split; reflexivity.
Qed.

Lemma build_points_raise (self : VectorStore) (policy_id : string)
    (uuid4 : nat -> string) (i : nat) (before after : list TextChunk.t)
    (chunk : TextChunk.t) (e : exn) :
  Forall (fun c => exists v, embed_text self (TextChunk.text c) = Ok v)
         before ->
  embed_text self (TextChunk.text chunk) = Raise e ->
  build_points self policy_id uuid4 i (before ++ chunk :: after) = Raise e.
Proof.
  intros Hemb Hraise. revert i. induction Hemb as [|c cs [v Ev] _ IH];
    intros i; simpl.
  - rewrite Hraise. reflexivity.
  - rewrite Ev. cbn [mbind result_bind]. rewrite IH. reflexivity.
Qed.

Lemma upsert_point_new (points : list PointStruct) (p : PointStruct) :
  ~ In (point_id p) (map point_id points) ->
  upsert_point points p = points ++ [p].
Proof.
  intros Hnew. unfold upsert_point.
  destruct (existsb _ points) eqn:E; [|reflexivity].
  apply existsb_exists in E. destruct E as (p' & Hin & Heq).
  apply String.eqb_eq in Heq. exfalso. apply Hnew. rewrite <- Heq.
  apply in_map. exact Hin.
Qed.

Lemma fold_upsert_new (points stored : list PointStruct) :
  List.NoDup (map point_id (stored ++ points)) ->
  fold_left upsert_point points stored = stored ++ points.
Proof.
  revert stored. induction points as [|p ps IH]; intros stored Hnd; simpl.
  - rewrite app_nil_r. reflexivity.
  - assert (Hnew : ~ In (point_id p) (map point_id stored)).
    { rewrite map_app in Hnd. simpl in Hnd.
      apply NoDup_remove_2 in Hnd. intros Hin. apply Hnd.
      apply in_or_app. left. exact Hin. }
    rewrite upsert_point_new by exact Hnew.
    rewrite IH; rewrite <- app_assoc; [reflexivity|exact Hnd].
Qed.

(** X17.  Storing and reading back.  With an embedding model of the
    dimension table, embeddings that succeed for every chunk and point ids
    that are pairwise distinct, [store_chunks] on a non-empty list of chunks
    reports as many stored points as there are chunks, and afterwards the
    policy holds exactly the given chunks, field by field, whatever it held
    before; the chunks of every other policy are as before. *)
Theorem store_chunks_round_trip (self : VectorStore) (q : Qdrant)
    (policy_id : string) (chunks : list TextChunk.t) (uuid4 : nat -> string)
    (dimension : Z) :
  dict_get (embedding_model (config self)) OPENAI_EMBEDDING_DIMENSIONS =
    Some dimension ->
  chunks <> [] ->
  Forall (fun c => exists v, embed_text self (TextChunk.text c) = Ok v)
         chunks ->
  List.NoDup (map uuid4 (seq 0 (length chunks))) ->
  exists q',
    store_chunks self q policy_id chunks uuid4 =
      (q', Ok {| result_collection_name := collection_name_of self policy_id;
                 points_stored := Z.of_nat (length chunks);
                 result_policy_id := policy_id |}) /\
    Permutation (_get_all_chunks self q' policy_id) chunks /\
    (forall other, other <> policy_id ->
       _get_all_chunks self q' other = _get_all_chunks self q other).
Proof.
  intros Hdim _ Hemb Hids. unfold store_chunks.
  rewrite (create_policy_collection_known self q policy_id dimension Hdim).
  destruct (build_points_ok self policy_id uuid4 0 chunks Hemb)
    as (points & Ebuild & Hpay & Hpids).
  rewrite Ebuild.
  unfold qdrant_upsert. rewrite lookup_insert_eq.
  rewrite fold_upsert_new by (simpl; rewrite Hpids; exact Hids).
  simpl app. rewrite insert_insert_eq. eexists. split.
  - do 3 f_equal. rewrite <- Hpay, length_map. reflexivity.
  - split.
    + rewrite (get_all_chunks_stored _ _ _ points) by apply lookup_insert_eq.
      rewrite <- Hpay.
      erewrite map_ext; [reflexivity|]. intros p. apply chunk_of_payload_id.
    + intros other Hne. apply get_all_chunks_other. exact Hne.
Qed.

Lemma store_chunks_round_trip_witness :
  exists q',
    fst (store_chunks (demo_store [] [] (Ok [])) demo_qdrant "q" demo_chunks
           (fun i => "point-" +:+ pretty i)) = q' /\
    Permutation (_get_all_chunks (demo_store [] [] (Ok [])) q' "q")
                demo_chunks /\
    _get_all_chunks (demo_store [] [] (Ok [])) q' "p" = demo_chunks.
Proof.
  destruct (store_chunks_round_trip (demo_store [] [] (Ok [])) demo_qdrant
              "q" demo_chunks (fun i => "point-" +:+ pretty i) 1536)
    as (q' & Erun & Hperm & Hother).
  - reflexivity.
  - discriminate.
  - repeat constructor; eexists; reflexivity.
  - repeat (constructor; [simpl; intuition discriminate|]). constructor.
  - exists q'. rewrite Erun. split; [reflexivity|]. split; [exact Hperm|].
    rewrite Hother by discriminate. vm_compute. reflexivity.
Defined.

(** X18.  A failed upload empties the policy.  With an embedding model of
    the dimension table, when the embedding call raises for some chunk
    (having succeeded for the chunks before it), [store_chunks] raises that
    exception and nothing is stored; but the policy's collection has been
    recreated by then: it exists and is empty, whatever it held before. *)
Theorem store_chunks_embedding_failure (self : VectorStore) (q : Qdrant)
    (policy_id : string) (before after : list TextChunk.t)
    (chunk : TextChunk.t) (uuid4 : nat -> string) (dimension : Z) (e : exn) :
  dict_get (embedding_model (config self)) OPENAI_EMBEDDING_DIMENSIONS =
    Some dimension ->
  Forall (fun c => exists v, embed_text self (TextChunk.text c) = Ok v)
         before ->
  embed_text self (TextChunk.text chunk) = Raise e ->
  exists q',
    store_chunks self q policy_id (before ++ chunk :: after) uuid4 =
      (q', Raise e) /\
    collection_exists q' (collection_name_of self policy_id) = true /\
    _get_all_chunks self q' policy_id = [] /\
    (forall other, other <> policy_id ->
       _get_all_chunks self q' other = _get_all_chunks self q other).
Proof.
  intros Hdim Hemb Hraise. unfold store_chunks.
  rewrite (create_policy_collection_known self q policy_id dimension Hdim).
  rewrite (build_points_raise _ _ _ _ _ _ _ _ Hemb Hraise).
  eexists. split; [reflexivity|]. split; [|split].
  - apply collection_exists_true. rewrite lookup_insert_eq. eauto.
  - rewrite (get_all_chunks_stored _ _ _ []) by apply lookup_insert_eq.
    reflexivity.
  - intros other Hne. apply get_all_chunks_other. exact Hne.
Qed.

Lemma store_chunks_embedding_failure_witness :
  let self := {| config := demo_config;
                 clients := {|
                   embeddings_create :=
                     fun _ _ => Raise (PyExc "RateLimitError" "429");
                   qdrant_search := fun _ _ _ _ => Ok [];
                   lower_split := fun s => [s];
                   BM25Okapi_get_scores := fun _ _ => [];
                   compress_documents := fun _ _ => Ok [] |} |} in
  _get_all_chunks self demo_qdrant "p" = demo_chunks /\
  exists q',
    store_chunks self demo_qdrant "p" demo_chunks
      (fun i => "point-" +:+ pretty i) =
      (q', Raise (PyExc "RateLimitError" "429")) /\
    _get_all_chunks self q' "p" = [].
Proof.
  intros self. split; [vm_compute; reflexivity|].
  destruct (store_chunks_embedding_failure self demo_qdrant "p" []
              (tl demo_chunks)
              (demo_chunk 0 "p.pdf_size_0" "waiting period dental")
              (fun i => "point-" +:+ pretty i) 1536
              (PyExc "RateLimitError" "429"))
    as (q' & Erun & _ & Hempty & _); [reflexivity|constructor|reflexivity|].
  exists q'. split; [exact Erun | exact Hempty].
Defined.

(** ** Citations, answers and the policy agent *)

Lemma length_substring_prefix (n : nat) (s : string) :
  (n <= String.length s)%nat ->
  String.length (String.substring 0 n s) = n.
Proof.
  revert s. induction n as [|n IH]; intros s Hn.
  - destruct s; reflexivity.
  - destruct s as [|c s]; simpl in *; [lia|].
    rewrite IH by lia. reflexivity.
Qed.

(** X19.  The snippet of a citation is the chunk's text when that has at
    most 200 characters; otherwise it is the first 200 characters of the
    text followed by three dots, 203 characters in all.  So a snippet never
    has more than 203 characters and agrees with the text on its first 200
    positions. *)
Theorem to_citation_dict_snippet (self : SearchResult.t) :
  let text := TextChunk.text (SearchResult.chunk self) in
  let snippet := CitationDict.text_snippet (to_citation_dict self) in
  (String.length snippet <= 203)%nat /\
  ((String.length text <= 200)%nat -> snippet = text) /\
  ((200 < String.length text)%nat ->
   snippet = String.substring 0 200 text +:+ "..." /\
   String.length snippet = 203%nat) /\
  (forall i, (i < 200)%nat -> String.get i snippet = String.get i text).
Proof.
  intros text snippet. subst snippet. unfold to_citation_dict.
  cbn [CitationDict.text_snippet]. fold text.
  destruct (Nat.ltb_spec 200 (String.length text)) as [Hlong|Hshort].
  - assert (Hlen : String.length (String.substring 0 200 text) = 200%nat)
      by (apply length_substring_prefix; lia).
    split; [|split; [|split]].
    + rewrite length_append, Hlen. simpl. lia.
    + intros Hle. lia.
    + intros _. split; [reflexivity|].
      rewrite length_append, Hlen. reflexivity.
    + intros i Hi.
      rewrite <- append_correct1 by (rewrite Hlen; exact Hi).
      rewrite substring_correct1 by exact Hi.
      rewrite Nat.add_0_r. reflexivity.
  - split; [lia|]. split; [reflexivity|]. split; [lia|]. reflexivity.
Qed.

Lemma to_citation_dict_snippet_witness :
  let short := {| SearchResult.chunk := demo_chunk 0 "p.pdf_size_0" "waiting";
                  SearchResult.score := 0.75%float;
                  SearchResult.distance := None |} in
  CitationDict.text_snippet (to_citation_dict short) = "waiting".
Proof.
  intros short.
  destruct (to_citation_dict_snippet short) as (_ & Hshort & _).
  apply Hshort. simpl. lia.
Defined.

Lemma format_context_nonempty (self : AnswerGenerator)
    (search_results : list SearchResult.t) :
  search_results <> [] ->
  _format_context self search_results =
    Ok (String.concat newline (context_parts_from self 1 search_results)).
Proof. destruct search_results; [congruence|reflexivity]. Qed.

Lemma chain_ainvoke_nonempty (self : AnswerGenerator) (question : string)
    (search_results : list SearchResult.t) :
  search_results <> [] ->
  chain_ainvoke self question search_results =
    llm_invoke self question
      (String.concat newline (context_parts_from self 1 search_results)).
Proof.
  intros Hne. unfold chain_ainvoke.
  rewrite format_context_nonempty by exact Hne. reflexivity.
Qed.

Lemma generate_answer_body_ok (self : AnswerGenerator)
    (context : AnswerContext) (r : AnswerResult) :
  generate_answer_body self context = Ok r ->
  status r = SUCCESS /\
  highlighted_clauses r = [] /\
  confidence r = _calculate_confidence (search_results context) /\
  result_count (metadata r) = Z.of_nat (length (search_results context)) /\
  (citations r = [] \/
   Forall2 (fun result c => Citation_init self (to_citation_dict result) = Ok c)
           (search_results context) (citations r)).
Proof.
  unfold generate_answer_body.
  destruct (chain_ainvoke self (question context) (search_results context))
    as [reply|e]; simpl; [|discriminate].
  destruct (negb _).
  - destruct (_create_citations self (search_results context))
      as [cs|e] eqn:Ecs; simpl; [|discriminate].
    intros E. injection E as <-. simpl. repeat split.
    right. apply mapM_Forall2. exact Ecs.
  - simpl. intros E. injection E as <-. simpl. repeat split. left. reflexivity.
Qed.

(** X20.  What [generate_answer] can do.  Without search results it raises
    [NoRelevantChunksError] for the question, whatever the model would say.
    Every exception it raises is a [NoRelevantChunksError] or an
    [AnswerGenerationFailedError]; with search results, an exception of the
    model of any other class comes out as [AnswerGenerationFailedError]
    with the text ["Answer generation failed: "] before the exception's
    own.  A result it returns has the status [SUCCESS], no highlighted
    clause, the number of search results as [result_count], and either no
    citation or one validated citation per search result, in order. *)
Theorem generate_answer_outcomes (self : AnswerGenerator)
    (context : AnswerContext) :
  (search_results context = [] ->
   generate_answer self context =
     Raise (NoRelevantChunksError (question context))) /\
  (forall e,
     generate_answer self context = Raise e ->
     exc_class e = "NoRelevantChunksError" \/
     exc_class e = "AnswerGenerationFailedError") /\
  (search_results context <> [] ->
   forall e,
     llm_invoke self (question context)
       (String.concat newline
          (context_parts_from self 1 (search_results context))) = Raise e ->
     exc_class e <> "NoRelevantChunksError" ->
     generate_answer self context =
       Raise (AnswerGenerationFailedError (exc_message e))) /\
  (forall r,
     generate_answer self context = Ok r ->
     status r = SUCCESS /\
     answer r <> None /\
     highlighted_clauses r = [] /\
     result_count (metadata r) = Z.of_nat (length (search_results context)) /\
     (citations r = [] \/
      Forall2
        (fun result c => Citation_init self (to_citation_dict result) = Ok c)
        (search_results context) (citations r))).
Proof.
  split; [|split; [|split]].
  - intros E. unfold generate_answer. rewrite E. reflexivity.
  - intros e. unfold generate_answer.
    destruct (search_results context) as [|first rest].
    + intros E. injection E as <-. left. reflexivity.
    + destruct (generate_answer_body self context) as [r|e0];
        [discriminate|].
      destruct (String.eqb_spec (exc_class e0) "NoRelevantChunksError")
        as [Hc|Hc]; intros E; injection E as <-.
      * left. exact Hc.
      * right. reflexivity.
  - intros Hne e Hllm Hclass.
    assert (Hbody : generate_answer_body self context = Raise e).
    { unfold generate_answer_body.
      rewrite chain_ainvoke_nonempty by exact Hne.
      rewrite Hllm. reflexivity. }
    unfold generate_answer. rewrite Hbody.
    destruct (search_results context); [congruence|].
    destruct (String.eqb_spec (exc_class e) "NoRelevantChunksError");
      [contradiction|reflexivity].
  - intros r. unfold generate_answer.
    destruct (search_results context) as [|first rest] eqn:Hres;
      [discriminate|].
    destruct (generate_answer_body self context) as [r0|e0] eqn:Ebody.
    + intros E. injection E as <-.
      pose proof (generate_answer_body_ok self context r0 Ebody)
        as (Hs & Hh & _ & Hn & Hc).
      rewrite Hres in Hn, Hc. repeat split; try assumption.
      unfold generate_answer_body in Ebody.
      destruct (chain_ainvoke _ _ _); simpl in Ebody; [|discriminate].
      destruct (if negb _ then _ else _); simpl in Ebody; [|discriminate].
      injection Ebody as <-. discriminate.
    + destruct (String.eqb _ _); discriminate.
Qed.

Lemma generate_answer_outcomes_witness :
  let context := {| question := "waiting period";
                    search_results :=
                      [{| SearchResult.chunk :=
                            demo_chunk 0 "p.pdf_size_0" "waiting period dental";
                          SearchResult.score := 0.75%float;
                          SearchResult.distance := None |}];
                    context_policy_id := "p";
                    use_expansion := true |} in
  generate_answer (demo_generator (Raise (PyExc "RateLimitError" "slow down")))
    context =
  Raise (PyExc "AnswerGenerationFailedError"
               "Answer generation failed: slow down").
Proof.
  intros context.
  destruct (generate_answer_outcomes
              (demo_generator (Raise (PyExc "RateLimitError" "slow down")))
              context) as (_ & _ & Hwrap & _).
  apply (Hwrap ltac:(discriminate) (PyExc "RateLimitError" "slow down"));
    [reflexivity|discriminate].
Defined.

Lemma retrieve_no_collection (vector_store : VectorStore) (q : Qdrant)
    (state : AgentState) :
  collection_exists q
    (collection_name_of vector_store (state_policy_id state)) = false ->
  retrieve vector_store q state = Ok [].
Proof.
  intros Hgone. unfold retrieve.
  destruct (strategy_is (retrieval_strategy state) "hybrid").
  - unfold search_hybrid.
    rewrite get_all_chunks_missing
      by (apply collection_exists_false; exact Hgone).
    reflexivity.
  - destruct (strategy_is (retrieval_strategy state) "rerank").
    + unfold search_with_rerank.
      rewrite search_similar_chunks_none_exists by exact Hgone. reflexivity.
    + apply search_similar_chunks_none_exists. exact Hgone.
Qed.

(** X21.  Asking about a policy that has no collection.  Whatever the
    retrieval strategy, the embedding service, the reranker and the model,
    [policy_agent_node] raises [NoRelevantChunksError] for the question:
    none of the services is called.  This is what happens after
    [delete_policy], whatever the policy held before. *)
Theorem policy_agent_node_no_collection (vector_store : VectorStore)
    (answer_generator : AnswerGenerator) (q : Qdrant) (state : AgentState) :
  (collection_exists q
     (collection_name_of vector_store (state_policy_id state)) = false ->
   policy_agent_node vector_store answer_generator q state =
     Raise (NoRelevantChunksError (state_question state))) /\
  policy_agent_node vector_store answer_generator
    (snd (delete_policy vector_store q (state_policy_id state))) state =
    Raise (NoRelevantChunksError (state_question state)).
Proof.
  assert (Hgone : forall q',
            collection_exists q'
              (collection_name_of vector_store (state_policy_id state)) =
              false ->
            policy_agent_node vector_store answer_generator q' state =
              Raise (NoRelevantChunksError (state_question state))).
  { intros q' E. unfold policy_agent_node.
    rewrite retrieve_no_collection by exact E. reflexivity. }
  split; [apply Hgone|].
  apply Hgone. unfold delete_policy.
  destruct (collection_exists q _) eqn:E; simpl.
  - apply collection_exists_delete.
  - exact E.
Qed.

Lemma policy_agent_node_no_collection_witness :
  let state := {| state_question := "What is my deductible?";
                  state_policy_id := "p";
                  retrieval_strategy := Some "hybrid" |} in
  policy_agent_node (demo_store demo_hits [2; 0; 0]%float (Ok []))
    (demo_generator (Ok "It is 300 EUR.")) ∅ state =
  Raise (PyExc "NoRelevantChunksError"
               "No relevant chunks found for query: What is my deductible?").
Proof.
  intros state.
  apply (policy_agent_node_no_collection
           (demo_store demo_hits [2; 0; 0]%float (Ok []))
           (demo_generator (Ok "It is 300 EUR.")) ∅ state).
  reflexivity.
Defined.



(** ** Deleting a policy through the service *)

(** X23.  [PolicyService.delete_policy] answers with the success message
    exactly when the policy's collection existed; otherwise it raises
    [ValueError] with the text ["Failed to delete policy: Policy not
    found"].  Either way the collection is gone afterwards and the policy's
    PDF is no longer in the upload folder, while every other file stays.
    Unlike the vector store's [delete_policy], the call cannot be repeated
    silently: made again right away it raises that [ValueError] and changes
    nothing. *)
Theorem service_delete_policy (self : PolicyService.t) (q : Qdrant)
    (fs : gset string) (policy_id : string) :
  let name := collection_name_of (PolicyService.vector_store self) policy_id in
  let file_path :=
    os_path_join (PolicyService.uploads_dir self) (policy_id +:+ ".pdf") in
  let not_found :=
    Raise (ValueError "Failed to delete policy: Policy not found") in
  exists q' fs' r,
    PolicyService.delete_policy self q fs policy_id = (q', fs', r) /\
    (collection_exists q name = true ->
     r = Ok ("Policy " +:+ policy_id +:+ " deleted successfully")) /\
    (collection_exists q name = false -> r = not_found) /\
    collection_exists q' name = false /\
    (file_path ∉ fs') /\
    (forall path, path <> file_path -> path ∈ fs' <-> path ∈ fs) /\
    PolicyService.delete_policy self q' fs' policy_id = (q', fs', not_found).
Proof.
  intros name file_path not_found.
  assert (Hfs : forall fs0 : gset string,
            file_path ∉
              (if bool_decide (file_path ∈ fs0) then fs0 ∖ {[file_path]}
               else fs0)).
  { intros fs0. case_bool_decide as Hin; [|exact Hin].
    rewrite elem_of_difference, elem_of_singleton. intros [_ Hn].
    apply Hn. reflexivity. }
  assert (Hagain : forall (q0 : Qdrant) (fs0 : gset string),
            collection_exists q0 name = false -> file_path ∉ fs0 ->
            PolicyService.delete_policy self q0 fs0 policy_id =
              (q0, fs0, not_found)).
  { intros q0 fs0 Hq Hf.
    unfold PolicyService.delete_policy, PolicyService.delete_policy_body,
      delete_policy.
    fold name. rewrite Hq. fold file_path.
    rewrite bool_decide_eq_false_2 by exact Hf. reflexivity. }
  unfold PolicyService.delete_policy at 1.
  unfold PolicyService.delete_policy_body, delete_policy.
  fold name. fold file_path.
  destruct (collection_exists q name) eqn:Hex.
  - eexists _, _, _. split; [reflexivity|].
    split; [reflexivity|]. split; [discriminate|].
    split; [apply collection_exists_delete|].
    split; [apply Hfs|].
    split.
    + intros path Hne.
      case_bool_decide; [|reflexivity].
      rewrite elem_of_difference, elem_of_singleton. tauto.
    + apply Hagain; [apply collection_exists_delete|apply Hfs].
  - eexists _, _, _. split; [reflexivity|].
    split; [discriminate|]. split; [reflexivity|].
    split; [exact Hex|].
    split; [apply Hfs|].
    split.
    + intros path Hne.
      case_bool_decide; [|reflexivity].
      rewrite elem_of_difference, elem_of_singleton. tauto.
    + apply Hagain; [exact Hex|apply Hfs].
Qed.

Lemma service_delete_policy_witness :
  let self := {| PolicyService.vector_store :=
                   demo_store demo_hits [2; 0; 0]%float (Ok []);
                 PolicyService.uploads_dir := "uploads" |} in
  exists q' fs',
    PolicyService.delete_policy self demo_qdrant {[ "uploads/p.pdf" ]} "p" =
      (q', fs', Ok "Policy p deleted successfully") /\
    ("uploads/p.pdf" ∉ fs') /\
    PolicyService.delete_policy self q' fs' "p" =
      (q', fs',
       Raise (ValueError "Failed to delete policy: Policy not found")).
Proof.
  intros self.
  destruct (service_delete_policy self demo_qdrant {[ "uploads/p.pdf" ]} "p")
    as (q' & fs' & r & Hrun & Hok & _ & _ & Hfile & _ & Hagain).
  exists q', fs'. rewrite Hrun, Hok by (vm_compute; reflexivity).
  split; [reflexivity|]. split; [exact Hfile|exact Hagain].
Defined.

(** ** Reading the pages of a PDF *)

Lemma collect_pages_ok (strip : string -> string) (texts : list string)
    (page_num : Z) (text_data : list PageData) :
  collect_pages strip page_num (map Ok texts) text_data =
    (text_data ++ kept_pages strip page_num texts, None).
Proof.
  revert page_num text_data.
  induction texts as [|t texts IH]; intros page_num text_data; simpl.
  - rewrite app_nil_r. reflexivity.
  - rewrite IH. destruct (py_bool_str (strip t)); simpl.
    + rewrite <- app_assoc. reflexivity.
    + reflexivity.
Qed.

Lemma collect_pages_raise (strip : string -> string) (good : list string)
    (e : exn) (rest : list (result string)) (page_num : Z)
    (text_data : list PageData) :
  collect_pages strip page_num (map Ok good ++ Raise e :: rest) text_data =
    (text_data ++ kept_pages strip page_num good, Some e).
Proof.
  revert page_num text_data.
  induction good as [|t good IH]; intros page_num text_data; simpl.
  - rewrite app_nil_r. reflexivity.
  - rewrite IH. destruct (py_bool_str (strip t)); simpl.
    + rewrite <- app_assoc. reflexivity.
    + reflexivity.
Qed.

Lemma py_bool_str_true (s : string) : py_bool_str s = true <-> s <> "".
Proof.
  unfold py_bool_str. destruct (String.eqb_spec s ""); simpl; split;
    congruence.
Qed.

Lemma kept_pages_In (strip : string -> string) (texts : list string)
    (page_num : Z) (p : PageData) :
  In p (kept_pages strip page_num texts) <->
  exists (i : nat) t,
    nth_error texts i = Some t /\ strip t <> "" /\
    p = {| page_number := page_num + Z.of_nat i + 1;
           page_text := strip t |}.
Proof.
  revert page_num. induction texts as [|t texts IH]; intros page_num; simpl.
  - split; [contradiction|]. intros (i & t & E & _). destruct i; discriminate.
  - rewrite in_app_iff, IH. split.
    + intros [Hhead|(i & t' & E & Hne & ->)].
      * destruct (py_bool_str (strip t)) eqn:Hb; [|contradiction].
        destruct Hhead as [<-|[]]. exists 0%nat, t.
        split; [reflexivity|]. split; [apply py_bool_str_true; exact Hb|].
        f_equal. lia.
      * exists (S i), t'. split; [exact E|]. split; [exact Hne|].
        f_equal. lia.
    + intros (i & t' & E & Hne & ->). destruct i as [|i]; simpl in E.
      * injection E as ->. left.
        rewrite (proj2 (py_bool_str_true _) Hne). left. f_equal. lia.
      * right. exists i, t'. split; [exact E|]. split; [exact Hne|].
        f_equal. lia.
Qed.

Lemma kept_pages_sorted (strip : string -> string) (texts : list string)
    (page_num : Z) :
  StronglySorted Z.lt (map page_number (kept_pages strip page_num texts)) /\
  Forall (fun n => page_num < n)
         (map page_number (kept_pages strip page_num texts)).
Proof.
  revert page_num. induction texts as [|t texts IH]; intros page_num; simpl.
  - split; constructor.
  - destruct (IH (page_num + 1)) as [Hs Hb].
    assert (Hb' : Forall (fun n => page_num + 1 < n)
                    (map page_number (kept_pages strip (page_num + 1) texts)))
      by exact Hb.
    destruct (py_bool_str (strip t)); simpl.
    + split.
      * constructor; [exact Hs|exact Hb'].
      * constructor; [lia|].
        eapply List.Forall_impl; [|exact Hb']. simpl. intros; lia.
    + split; [exact Hs|].
      eapply List.Forall_impl; [|exact Hb']. simpl. intros; lia.
Qed.

Lemma kept_pages_length (strip : string -> string) (texts : list string)
    (page_num : Z) :
  length (kept_pages strip page_num texts) =
  length (List.filter (fun t => py_bool_str (strip t)) texts).
Proof.
  revert page_num. induction texts as [|t texts IH]; intros page_num; simpl;
    [reflexivity|].
  rewrite length_app, IH. destruct (py_bool_str (strip t)); reflexivity.
Qed.

Lemma extract_text_fitz_ok (libs : PdfLibraries) (pdf_path : string)
    (doc : FitzDocument) (texts : list string) :
  fitz_open libs pdf_path = Ok doc ->
  fitz_pages doc = map Ok texts ->
  fitz_close doc = Ok tt ->
  extract_text libs pdf_path = Ok (kept_pages (pdf_strip libs) 0 texts).
Proof.
  intros Hopen Hpages Hclose. unfold extract_text.
  rewrite Hopen, Hpages, collect_pages_ok, Hclose. reflexivity.
Qed.

(** X24.  When pymupdf reads every page of the document and closes it,
    [extract_text] returns exactly the pages whose stripped text is not
    empty, each with its stripped text and under its position in the
    document counted from 1: blank pages are left out without renumbering
    the others, the page numbers are strictly increasing, and pypdf is not
    consulted. *)
Theorem extract_text_pages (libs : PdfLibraries) (pdf_path : string)
    (doc : FitzDocument) (texts : list string) :
  fitz_open libs pdf_path = Ok doc ->
  fitz_pages doc = map Ok texts ->
  fitz_close doc = Ok tt ->
  exists text_data,
    extract_text libs pdf_path = Ok text_data /\
    (forall p,
       In p text_data <->
       exists (i : nat) t,
         nth_error texts i = Some t /\ pdf_strip libs t <> "" /\
         p = {| page_number := Z.of_nat i + 1;
                page_text := pdf_strip libs t |}) /\
    StronglySorted Z.lt (map page_number text_data) /\
    length text_data =
      length (List.filter (fun t => py_bool_str (pdf_strip libs t)) texts).
Proof.
  intros Hopen Hpages Hclose.
  exists (kept_pages (pdf_strip libs) 0 texts).
  split; [apply (extract_text_fitz_ok libs pdf_path doc); assumption|].
  split; [|split].
  - intros p. rewrite kept_pages_In. reflexivity.
  - apply kept_pages_sorted.
  - apply kept_pages_length.
Qed.

Lemma extract_text_pages_witness :
  exists text_data,
    extract_text (demo_libraries [Ok "cover"; Ok " "; Ok "premiums"] [])
      "uploads/p.pdf" = Ok text_data /\
    In {| page_number := 3; page_text := "premiums" |} text_data /\
    length text_data = 2%nat.
Proof.
  destruct (extract_text_pages
              (demo_libraries [Ok "cover"; Ok " "; Ok "premiums"] [])
              "uploads/p.pdf"
              {| fitz_pages := [Ok "cover"; Ok " "; Ok "premiums"];
                 fitz_close := Ok tt |}
              [ "cover"; " "; "premiums" ]
              eq_refl eq_refl eq_refl) as (text_data & Hrun & Hin & _ & Hlen).
  exists text_data. split; [exact Hrun|]. split; [|exact Hlen].
  apply Hin. exists 2%nat, "premiums".
  split; [reflexivity|]. split; [discriminate|reflexivity].
Defined.

(** X25.  The fallback reads the document a second time.  When pymupdf
    opens the document and fails on a page after having read the pages
    before it, and pypdf then reads every page, [extract_text] returns the
    pages kept from pymupdf followed by all the pages kept from pypdf: a
    non-blank page that both libraries read with the same text is in the
    result twice, so the page numbers are no longer increasing.  When
    pymupdf cannot open the document at all, the result is pypdf's pages
    alone; an exception of pypdf is raised to the caller. *)
Theorem extract_text_fallback (libs : PdfLibraries) (pdf_path : string)
    (texts : list string) :
  pypdf_pages libs pdf_path = Ok (map Ok texts) ->
  (forall doc good e rest,
     fitz_open libs pdf_path = Ok doc ->
     fitz_pages doc = map Ok good ++ Raise e :: rest ->
     extract_text libs pdf_path =
       Ok (kept_pages (pdf_strip libs) 0 good ++
           kept_pages (pdf_strip libs) 0 texts) /\
     forall (i : nat) t,
       nth_error good i = Some t -> nth_error texts i = Some t ->
       pdf_strip libs t <> "" ->
       let p := {| page_number := Z.of_nat i + 1;
                   page_text := pdf_strip libs t |} in
       exists before between after,
         kept_pages (pdf_strip libs) 0 good ++
         kept_pages (pdf_strip libs) 0 texts =
         before ++ p :: between ++ p :: after) /\
  (forall e,
     fitz_open libs pdf_path = Raise e ->
     extract_text libs pdf_path = Ok (kept_pages (pdf_strip libs) 0 texts)).
Proof.
  intros Hpypdf. split.
  - intros doc good e rest Hopen Hpages. split.
    + unfold extract_text.
      rewrite Hopen, Hpages, collect_pages_raise, Hpypdf. simpl.
      rewrite collect_pages_ok. reflexivity.
    + intros i t Hgood Htexts Hne p.
      assert (H1 : In p (kept_pages (pdf_strip libs) 0 good)).
      { apply kept_pages_In. exists i, t. repeat split; assumption. }
      assert (H2 : In p (kept_pages (pdf_strip libs) 0 texts)).
      { apply kept_pages_In. exists i, t. repeat split; assumption. }
      apply in_split in H1 as (a1 & b1 & ->).
      apply in_split in H2 as (a2 & b2 & ->).
      exists a1, (b1 ++ a2), b2.
      rewrite <- !app_assoc. reflexivity.
  - intros e Hopen. unfold extract_text.
    rewrite Hopen, Hpypdf. simpl. rewrite collect_pages_ok. reflexivity.
Qed.

Lemma extract_text_fallback_witness :
  extract_text
    (demo_libraries [Ok "cover"; Raise (PyExc "RuntimeError" "bad page")]
                    [Ok "cover"; Ok "premiums"])
    "uploads/p.pdf" =
  Ok [{| page_number := 1; page_text := "cover" |};
      {| page_number := 1; page_text := "cover" |};
      {| page_number := 2; page_text := "premiums" |}].
Proof.
  destruct (extract_text_fallback
              (demo_libraries
                 [Ok "cover"; Raise (PyExc "RuntimeError" "bad page")]
                 [Ok "cover"; Ok "premiums"])
              "uploads/p.pdf" ["cover"; "premiums"] eq_refl) as (Hfail & _).
  destruct (Hfail {| fitz_pages :=
                       [Ok "cover"; Raise (PyExc "RuntimeError" "bad page")];
                     fitz_close := Ok tt |}
                  ["cover"] (PyExc "RuntimeError" "bad page") []
                  eq_refl eq_refl) as (Hrun & _).
  exact Hrun.
Defined.

Lemma find_page_number_In (text_data : list PageData) (char_offset : Z) :
  text_data <> [] ->
  In (_find_page_number text_data char_offset) (map page_number text_data).
Proof.
  intros Hne. unfold _find_page_number.
  destruct (find_page_loop text_data char_offset 0) as [page|] eqn:E.
  - eapply find_page_loop_some. exact E.
  - destruct text_data as [|p ps]; [congruence|]. left. reflexivity.
Qed.

Lemma kept_pages_nil (strip : string -> string) (texts : list string)
    (page_num : Z) :
  kept_pages strip page_num texts = [] <->
  Forall (fun t => strip t = "") texts.
Proof.
  revert page_num. induction texts as [|t texts IH]; intros page_num; simpl.
  - split; [constructor|reflexivity].
  - destruct (py_bool_str (strip t)) eqn:Hb; simpl.
    + split; [discriminate|]. intros HF. inversion HF as [|? ? Ht _].
      apply py_bool_str_true in Hb. contradiction.
    + rewrite IH. split.
      * intros HF. constructor; [|exact HF].
        unfold py_bool_str in Hb.
        destruct (String.eqb_spec (strip t) ""); [assumption|discriminate].
      * intros HF. inversion HF. assumption.
Qed.

(** X26.  [process_pdf] on a document that pymupdf reads.  If no page has
    text left after stripping, it raises [ValueError] ["No text could be
    extracted from the PDF"], and does so before it looks at the chunking
    strategy.  Otherwise an unknown strategy raises the [ValueError] of
    [chunk_text], and a known one gives a document whose [total_pages] is
    the number of non-blank pages, whose [total_chunks] is the number of
    its chunks, whose chunk ids are pairwise distinct, and in which every
    chunk is attributed to a non-blank page of the PDF. *)
Theorem process_pdf_outcomes (self : PDFProcessor)
    (pdf_path filename policy_id : string) (doc : FitzDocument)
    (texts : list string) :
  fitz_open (pdf_libraries self) pdf_path = Ok doc ->
  fitz_pages doc = map Ok texts ->
  fitz_close doc = Ok tt ->
  let strip := pdf_strip (pdf_libraries self) in
  (Forall (fun t => strip t = "") texts ->
   process_pdf self pdf_path filename policy_id =
     Raise (ValueError "No text could be extracted from the PDF")) /\
  (~ Forall (fun t => strip t = "") texts ->
   (dict_get (chunking_strategy self) CHUNKING_STRATEGIES = None ->
    process_pdf self pdf_path filename policy_id =
      Raise (ValueError ("Unknown strategy '" +:+ chunking_strategy self +:+
                         "'. Available: semantic, paragraph"))) /\
   (dict_get (chunking_strategy self) CHUNKING_STRATEGIES <> None ->
    exists d,
      process_pdf self pdf_path filename policy_id = Ok d /\
      doc_policy_id d = policy_id /\
      total_pages d =
        Z.of_nat (length (List.filter (fun t => py_bool_str (strip t))
                                      texts)) /\
      total_chunks d = Z.of_nat (length (doc_chunks d)) /\
      List.NoDup (map TextChunk.id (doc_chunks d)) /\
      Forall (fun c =>
                exists (i : nat) t,
                  nth_error texts i = Some t /\ strip t <> "" /\
                  TextChunk.page c = Z.of_nat i + 1)
             (doc_chunks d))).
Proof.
  intros Hopen Hpages Hclose strip.
  unfold process_pdf.
  rewrite (extract_text_fitz_ok _ _ doc texts Hopen Hpages Hclose).
  fold strip. simpl mbind. split.
  - intros Hblank. apply (kept_pages_nil strip texts 0) in Hblank.
    rewrite Hblank. reflexivity.
  - intros Hsome.
    destruct (kept_pages strip 0 texts) as [|p ps] eqn:Hkept.
    { exfalso. apply Hsome. apply (kept_pages_nil strip texts 0).
      exact Hkept. }
    unfold chunk_text_method, chunk_text. split.
    + intros Hnone. rewrite Hnone. reflexivity.
    + intros Hknown.
      destruct (dict_get (chunking_strategy self) CHUNKING_STRATEGIES)
        as [config|]; [|congruence].
      eexists. split; [reflexivity|].
      cbn [doc_policy_id total_pages total_chunks doc_chunks].
      split; [reflexivity|]. split.
      { rewrite <- (kept_pages_length strip texts 0), Hkept. reflexivity. }
      split; [reflexivity|]. split.
      { rewrite text_chunks_from_ids. apply chunk_ids_NoDup. }
      apply List.Forall_forall. intros c Hc.
      apply In_nth_error in Hc as [n Hn].
      apply text_chunks_from_nth in Hn as (pc & _ & ->).
      cbn [TextChunk.page].
      pose proof (find_page_number_In (p :: ps)
                    (py_find (String.concat (newline +:+ newline)
                                (map page_text (p :: ps))) pc)
                    ltac:(discriminate)) as Hin.
      apply in_map_iff in Hin as (pg & Hnum & Hpg).
      rewrite <- Hkept in Hpg. apply kept_pages_In in Hpg.
      destruct Hpg as (i & t & Ht & Hne & ->).
      exists i, t. split; [exact Ht|]. split; [exact Hne|].
      rewrite <- Hnum. simpl. reflexivity.
Qed.

Lemma process_pdf_outcomes_witness :
  process_pdf {| pdf_libraries := demo_libraries [Ok " "; Ok " "] [];
                 chunking_tools := demo_tools ["cover"];
                 chunking_strategy := "sentence" |}
    "uploads/p.pdf" "p.pdf" "p" =
  Raise (ValueError "No text could be extracted from the PDF").
Proof.
  destruct (process_pdf_outcomes
              {| pdf_libraries := demo_libraries [Ok " "; Ok " "] [];
                 chunking_tools := demo_tools ["cover"];
                 chunking_strategy := "sentence" |}
              "uploads/p.pdf" "p.pdf" "p"
              {| fitz_pages := [Ok " "; Ok " "]; fitz_close := Ok tt |}
              [" "; " "] eq_refl eq_refl eq_refl) as (Hblank & _).
  apply Hblank. repeat constructor.
Defined.

(** ** Uploading a policy *)

Lemma store_chunks_state (self : VectorStore) (q : Qdrant)
    (policy_id : string) (chunks : list TextChunk.t) (uuid4 : nat -> string)
    (dimension : Z) :
  dict_get (embedding_model (config self)) OPENAI_EMBEDDING_DIMENSIONS =
    Some dimension ->
  Forall (fun c => exists v, embed_text self (TextChunk.text c) = Ok v)
         chunks ->
  List.NoDup (map uuid4 (seq 0 (length chunks))) ->
  exists points,
    map payload points = chunks /\
    store_chunks self q policy_id chunks uuid4 =
      (<[collection_name_of self policy_id := points]>
         (if collection_exists q (collection_name_of self policy_id)
          then delete_collection q (collection_name_of self policy_id)
          else q),
       Ok {| result_collection_name := collection_name_of self policy_id;
             points_stored := Z.of_nat (length chunks);
             result_policy_id := policy_id |}).
Proof.
  intros Hdim Hemb Hids. unfold store_chunks.
  rewrite (create_policy_collection_known self q policy_id dimension Hdim).
  destruct (build_points_ok self policy_id uuid4 0 chunks Hemb)
    as (points & Ebuild & Hpay & Hpids).
  rewrite Ebuild. exists points. split; [exact Hpay|].
  unfold qdrant_upsert. rewrite lookup_insert_eq.
  rewrite fold_upsert_new by (simpl; rewrite Hpids; exact Hids).
  simpl app. rewrite insert_insert_eq.
  do 3 f_equal. rewrite <- Hpay, length_map. reflexivity.
Qed.

Lemma upload_body_files (self : PolicyService.t) (services : UploadServices)
    (q : Qdrant) (fs : gset string) (file : UploadFile)
    (strategy policy_id : string) (uuid4 : nat -> string) :
  snd (fst (process_policy_upload_body self services q fs file strategy
              policy_id uuid4)) =
  fs ∪ {[os_path_join (PolicyService.uploads_dir self)
                      (policy_id +:+ ".pdf")]}.
Proof.
  unfold process_policy_upload_body.
  destruct (process_pdf _ _ _ _) as [d|e]; [|reflexivity].
  destruct (create_policy_collection _ _ _) as [q1 [name|e]]; [|reflexivity].
  destruct (store_chunks _ _ _ _ _) as [q2 [sr|e]]; [|reflexivity].
  destruct (analyze_policy _ _ _ _) as [hl|e]; reflexivity.
Qed.



(** X28.  A failed upload can leave its chunks behind.  When the PDF has
    been processed and its chunks stored (known embedding model, embeddings
    that succeed, distinct point ids) and the clause analysis then raises,
    the upload raises [ValueError] with the text of that exception and
    removes the PDF from the upload folder; but the collection of the new
    policy id stays in the vector store, holding every chunk of the
    document. *)
Theorem process_policy_upload_orphan (self : PolicyService.t)
    (services : UploadServices) (q : Qdrant) (fs : gset string)
    (file : UploadFile) (strategy : string) (uuid4 : nat -> string)
    (d : ProcessedDocument) (dimension : Z) (e : exn) :
  let store := PolicyService.vector_store self in
  let policy_id := uuid4 0%nat in
  let file_path :=
    os_path_join (PolicyService.uploads_dir self) (policy_id +:+ ".pdf") in
  py_endswith (upload_lower services (upload_filename file)) ".pdf" = true ->
  process_pdf {| pdf_libraries := upload_libraries services;
                 chunking_tools := upload_tools services;
                 chunking_strategy := strategy |}
    file_path (upload_filename file) policy_id = Ok d ->
  doc_chunks d <> [] ->
  dict_get (embedding_model (config store)) OPENAI_EMBEDDING_DIMENSIONS =
    Some dimension ->
  Forall (fun c => exists v, embed_text store (TextChunk.text c) = Ok v)
         (doc_chunks d) ->
  List.NoDup (map uuid4 (seq 1 (length (doc_chunks d)))) ->
  analyze_policy services (doc_chunks d) policy_id 5 = Raise e ->
  exists q' fs',
    process_policy_upload self services q fs file strategy uuid4 =
      (q', fs',
       Raise (ValueError ("Failed to process PDF: " +:+ exc_message e))) /\
    (file_path ∉ fs') /\
    collection_exists q' (collection_name_of store policy_id) = true /\
    Permutation (_get_all_chunks store q' policy_id) (doc_chunks d).
Proof.
  intros store policy_id file_path Hpdf Hdoc _ Hdim Hemb Hids Hanalysis.
  assert (Hids' : List.NoDup (map (fun i => uuid4 (S i))
                                  (seq 0 (length (doc_chunks d))))).
  { rewrite <- (List.map_map S uuid4), seq_shift. exact Hids. }
  unfold process_policy_upload. rewrite Hpdf. simpl negb. cbv iota.
  unfold process_policy_upload_body.
  fold store. fold policy_id. fold file_path. rewrite Hdoc.
  rewrite (create_policy_collection_known store q policy_id dimension Hdim).
  destruct (store_chunks_state store
              (<[collection_name_of store policy_id := []]>
                 (if collection_exists q (collection_name_of store policy_id)
                  then delete_collection q (collection_name_of store policy_id)
                  else q))
              policy_id (doc_chunks d) (fun i => uuid4 (S i)) dimension
              Hdim Hemb Hids') as (points & Hpay & Hstore).
  rewrite Hstore, Hanalysis.
  rewrite bool_decide_eq_true_2
    by (apply elem_of_union; right; apply elem_of_singleton; reflexivity).
  eexists _, _. split; [reflexivity|]. split; [|split].
  - rewrite elem_of_difference, elem_of_singleton. tauto.
  - apply collection_exists_true. rewrite lookup_insert_eq. eauto.
  - rewrite (get_all_chunks_stored _ _ _ points) by apply lookup_insert_eq.
    rewrite <- Hpay.
    erewrite map_ext; [reflexivity|]. intros p. apply chunk_of_payload_id.
Qed.

Lemma process_policy_upload_orphan_witness :
  let self := {| PolicyService.vector_store :=
                   demo_store demo_hits [2; 0; 0]%float (Ok []);
                 PolicyService.uploads_dir := "uploads" |} in
  exists q' fs',
    process_policy_upload self
      (demo_services (Raise (PyExc "AttributeError" "norms")))
      ∅ ∅ {| upload_filename := "p.pdf"; upload_content := "text" |}
      "semantic" (fun i => "id" +:+ pretty i) =
      (q', fs', Raise (ValueError "Failed to process PDF: norms")) /\
    ("uploads/id0.pdf" ∉ fs') /\
    collection_exists q' "policy_id0" = true.
Proof.
  intros self.
  destruct (process_policy_upload_orphan self
              (demo_services (Raise (PyExc "AttributeError" "norms")))
              ∅ ∅ {| upload_filename := "p.pdf"; upload_content := "text" |}
              "semantic" (fun i => "id" +:+ pretty i)
              {| doc_policy_id := "id0";
                 doc_filename := "p.pdf";
                 total_pages := 1;
                 doc_chunks :=
                   text_chunks_from (demo_tools ["waiting"; "periods"])
                     [{| page_number := 1; page_text := "waiting periods" |}]
                     "waiting periods" "p.pdf" "semantic" 0
                     ["waiting"; "periods"];
                 total_chunks := 2 |}
              1536 (PyExc "AttributeError" "norms"))
    as (q' & fs' & Hrun & Hfile & Hexists & _).
  - reflexivity.
  - vm_compute. reflexivity.
  - discriminate.
  - reflexivity.
  - repeat constructor; eexists; reflexivity.
  - vm_compute. repeat constructor; simpl; intuition discriminate.
  - reflexivity.
  - exists q', fs'. split; [exact Hrun|]. split; [exact Hfile|exact Hexists].
Defined.

(** ** Classifying and routing a question *)

Lemma substring_shorter (s : string) (n a b : nat) :
  (a <= b)%nat ->
  String.substring 0 a (String.substring n b s) = String.substring n a s.
Proof.
  revert n a b. induction s as [|c s IH]; intros n a b Hab.
  - destruct n, b, a; reflexivity.
  - destruct n as [|n].
    + destruct b as [|b].
      * assert (a = 0%nat) as -> by lia. reflexivity.
      * destruct a as [|a]; [reflexivity|]. simpl.
        rewrite (IH 0%nat a b) by lia. reflexivity.
    + simpl. apply IH. exact Hab.
Qed.

Lemma py_in_policy_specific (s : string) :
  py_in "policy_specific" s = true -> py_in "policy" s = true.
Proof.
  unfold py_in.
  destruct (String.index 0 "policy_specific" s) as [m|] eqn:Elong;
    [|discriminate].
  intros _. destruct (String.index 0 "policy" s) eqn:Eshort; [reflexivity|].
  exfalso. apply index_correct1 in Elong.
  apply (index_correct3 0 m "policy" s Eshort); [discriminate|lia|].
  change (String.length "policy") with 6%nat.
  change (String.length "policy_specific") with 15%nat in Elong.
  rewrite <- (substring_shorter s m 6 15) by lia.
  rewrite Elong. reflexivity.
Qed.

(** X29.  Where a question goes.  Without a policy id ([None] or the empty
    string) [classify] answers [GENERAL_INSURANCE] without asking the
    model, and the question is routed to the web agent.  With a policy id,
    the answer is [POLICY_SPECIFIC] when the call of the model raises, and
    otherwise exactly when the stripped, lower-cased reply contains
    ["policy"] (the second test, for ["policy_specific"], adds nothing);
    the question is routed to the policy agent exactly for
    [POLICY_SPECIFIC]. *)
Theorem classify_routing (self : QuestionClassifier) (question : string)
    (policy_id : option string) :
  (policy_id = None \/ policy_id = Some "" ->
   classify self question policy_id = GENERAL_INSURANCE /\
   route_question (Some (classify self question policy_id)) = "web_agent") /\
  (forall id,
     policy_id = Some id -> id <> "" ->
     (forall e,
        classification_reply self question true = Raise e ->
        classify self question policy_id = POLICY_SPECIFIC) /\
     (forall reply,
        classification_reply self question true = Ok reply ->
        (classify self question policy_id = POLICY_SPECIFIC <->
         py_in "policy" (reply_lower self (reply_strip self reply)) = true))) /\
  (route_question (Some (classify self question policy_id)) = "policy_agent"
   <-> classify self question policy_id = POLICY_SPECIFIC).
Proof.
  split; [|split].
  - intros [->| ->]; split; reflexivity.
  - intros id -> Hid.
    assert (Hb : py_bool_str id = true) by (apply py_bool_str_true; exact Hid).
    unfold classify, _llm_classify. rewrite Hb. split.
    + intros e ->. reflexivity.
    + intros reply ->.
      destruct (py_in "policy" (reply_lower self (reply_strip self reply)))
        eqn:Hp; simpl.
      * split; reflexivity.
      * destruct (py_in "policy_specific"
                    (reply_lower self (reply_strip self reply))) eqn:Hps.
        -- apply py_in_policy_specific in Hps. congruence.
        -- split; discriminate.
  - destruct (classify self question policy_id); simpl; split;
      try reflexivity; discriminate.
Qed.

Lemma classify_routing_witness :
  classify
    (demo_classifier (Ok "VALID: yes") (Ok "not about the policy at all"))
    "What is a deductible?" (Some "p") = POLICY_SPECIFIC.
Proof.
  destruct (classify_routing
              (demo_classifier (Ok "VALID: yes")
                               (Ok "not about the policy at all"))
              "What is a deductible?" (Some "p")) as (_ & Hpolicy & _).
  destruct (Hpolicy "p" eq_refl ltac:(discriminate)) as (_ & Hreply).
  apply (Hreply "not about the policy at all" eq_refl). reflexivity.
Defined.

(** X30.  The guardrail fails open.  When the guardrail's call of the
    model raises, [classify_node] lets every question through and
    classifies it; if the classification call raises as well, a question
    with a policy id goes to the policy agent and one without to the web
    agent.  [classify_node] raises only when the model has replied, and
    then a [ValueError] whose text begins ["Diese Frage ist nicht
    versicherungsbezogen: "]; when it returns, it returns what [classify]
    answers. *)
Theorem classify_node_fail_open (classifier : QuestionClassifier)
    (question : string) (policy_id : option string) :
  (forall e,
     guardrail_reply classifier question = Raise e ->
     classify_node classifier question policy_id =
       Ok (classify classifier question policy_id) /\
     forall e',
       classification_reply classifier question true = Raise e' ->
       route_question (Some (classify classifier question policy_id)) =
         match policy_id with
         | Some id => if py_bool_str id then "policy_agent" else "web_agent"
         | None => "web_agent"
         end) /\
  (forall e,
     classify_node classifier question policy_id = Raise e ->
     (exists reply, guardrail_reply classifier question = Ok reply) /\
     exists reason,
       e = ValueError
             ("Diese Frage ist nicht versicherungsbezogen: " +:+ reason)) /\
  (forall question_type,
     classify_node classifier question policy_id = Ok question_type ->
     question_type = classify classifier question policy_id).
Proof.
  split; [|split].
  - intros e He. split.
    + unfold classify_node, is_insurance_related. rewrite He. reflexivity.
    + intros e' He'. unfold classify, _llm_classify.
      destruct policy_id as [id|]; [|reflexivity].
      destruct (py_bool_str id); [|reflexivity].
      rewrite He'. reflexivity.
  - intros e. unfold classify_node, is_insurance_related.
    destruct (guardrail_reply classifier question) as [reply|e0];
      [|discriminate].
    destruct (py_in "yes" _ || py_in "ja" _); simpl; [discriminate|].
    intros E. injection E as <-. split; eauto.
  - intros question_type. unfold classify_node.
    destruct (is_insurance_related classifier question) as [[|] reason];
      simpl; [|discriminate].
    intros E. injection E as <-. reflexivity.
Qed.

Lemma classify_node_fail_open_witness :
  classify_node
    (demo_classifier (Raise (PyExc "APIConnectionError" "offline"))
                     (Raise (PyExc "APIConnectionError" "offline")))
    "How do I bake bread?" (Some "p") = Ok POLICY_SPECIFIC.
Proof.
  destruct (classify_node_fail_open
              (demo_classifier (Raise (PyExc "APIConnectionError" "offline"))
                               (Raise (PyExc "APIConnectionError" "offline")))
              "How do I bake bread?" (Some "p")) as (Hopen & _).
  destruct (Hopen (PyExc "APIConnectionError" "offline") eq_refl)
    as (Hnode & _).
  exact Hnode.
Defined.
